(** * The Anki collection handler ([mcp-server/anki_handler.py])

    A shallow embedding of [AnkiHandler]. The SQLite file at
    [collection_path] is a value of type [storage]; every method is a
    function in an error-and-state monad over a [world] (the file, and how
    many times the clock and the random generator have been read); the
    Python builtins the handler relies on ([str], [int], [sorted],
    [str.join], [str.encode], [hashlib.sha1], [hashlib.sha256]) are
    executable definitions.

    What the model fixes:
    - a [str] is its sequence of code points;
    - [int(time.time() * 1000)] is the integer the k-th clock reading
      gives, and [random.randint(0, 999)] the k-th draw; both are
      parameters of the handler;
    - the text of the [decks] column is kept by what [json.loads] makes of
      it (an exception, a value that is not a dict, or a dict of decks);
      [json.dumps] followed by [json.loads] gives the same dict back;
    - a statement run on a connection changes what that connection sees;
      the file changes at [commit] only, and a connection dropped when an
      exception leaves the method takes its changes with it;
    - integers bound to SQL parameters are taken to fit SQLite's 64 bits,
      and a deck name in the document is a string or is absent. *)

From Stdlib Require Import ZArith List Bool Lia String Ascii.
From Stdlib Require Import Sorting.Sorted Sorting.Permutation.
Import ListNotations.
Local Open Scope Z_scope.

(* ================================================================== *)
(** * Python values *)
(* ================================================================== *)

(** A Python [str] is a sequence of Unicode code points; slicing and [len]
    count code points, not bytes. *)
Definition pystr := list Z.

(** A Python [bytes] object, one [Z] in [0, 255] per byte. *)
Definition pybytes := list Z.

(** The exception classes the handler can meet. *)
Inductive exn : Type :=
  | OperationalError
  | DatabaseError
  | IntegrityError
  | JSONDecodeError
  | AttributeError
  | TypeError
  | KeyError
  | ValueError
  | UnicodeEncodeError.

(** The result of evaluating a Python expression that may raise. *)
Inductive result (A : Type) : Type :=
  | Return (a : A)
  | Raised (e : exn).
Arguments Return {A} a.
Arguments Raised {A} e.

Module Py.

(** A literal written in the source, as code points. *)
Fixpoint lit (s : string) : pystr :=
  match s with
  | EmptyString => []
  | String a r => Z.of_N (N_of_ascii a) :: lit r
  end.

(** [a == b] on two [str] values. *)
Fixpoint str_eqb (a b : pystr) : bool :=
  match a, b with
  | [], [] => true
  | x :: a', y :: b' => (x =? y) && str_eqb a' b'
  | _, _ => false
  end.

(** [a <= b] on two [str] values: code point by code point, a proper
    prefix first. *)
Fixpoint str_leb (a b : pystr) : bool :=
  match a, b with
  | [], _ => true
  | _ :: _, [] => false
  | x :: a', y :: b' =>
      if x <? y then true
      else if y <? x then false
      else str_leb a' b'
  end.

(** [sorted(names)] for a list of [str]. *)
Fixpoint insert_sorted (x : pystr) (l : list pystr) : list pystr :=
  match l with
  | [] => [x]
  | y :: r => if str_leb x y then x :: y :: r else y :: insert_sorted x r
  end.

Fixpoint sorted (l : list pystr) : list pystr :=
  match l with
  | [] => []
  | x :: r => insert_sorted x (sorted r)
  end.

(** [sep.join(parts)]. *)
Fixpoint join (sep : pystr) (parts : list pystr) : pystr :=
  match parts with
  | [] => []
  | [p] => p
  | p :: rest => p ++ sep ++ join sep rest
  end.

(** [s[:n]]. *)
Definition slice_to (n : nat) (s : pystr) : pystr := firstn n s.

(** [len(s)]. *)
Definition len (s : pystr) : Z := Z.of_nat (List.length s).

(** ** [str(n)] for an [int] *)

(** Decimal digits, least significant first. *)
Fixpoint rev_digits (fuel : nat) (n : Z) : list Z :=
  match fuel with
  | O => []
  | S f => (n mod 10) :: (if n <? 10 then [] else rev_digits f (n / 10))
  end.

Definition digit_char (d : Z) : Z := 48 + d.

Definition nat_digits (n : Z) : pystr :=
  map digit_char (rev (rev_digits (S (Z.to_nat (Z.log2 n))) n)).

Definition str (n : Z) : pystr :=
  if n <? 0 then 45 :: nat_digits (- n) else nat_digits n.

(** ** [int(s)] and [int(s, 16)] for a [str] *)

(** [str.isspace] for one code point. *)
Definition isspace (c : Z) : bool :=
  ((9 <=? c) && (c <=? 13)) || ((28 <=? c) && (c <=? 32))
  || (c =? 133) || (c =? 160) || (c =? 5760)
  || ((8192 <=? c) && (c <=? 8202))
  || (c =? 8232) || (c =? 8233) || (c =? 8239) || (c =? 8287)
  || (c =? 12288).

Fixpoint lstrip (s : pystr) : pystr :=
  match s with
  | [] => []
  | c :: r => if isspace c then lstrip r else s
  end.

Definition strip (s : pystr) : pystr := rev (lstrip (rev (lstrip s))).

(** The value of one digit in the given base: ASCII digits and letters.
    (Digits of other scripts, which [int] also reads, are left out: the
    handler writes its keys with [str].) *)
Definition digit_of (base c : Z) : option Z :=
  let d :=
    if (48 <=? c) && (c <=? 57) then c - 48
    else if (97 <=? c) && (c <=? 122) then c - 97 + 10
    else if (65 <=? c) && (c <=? 90) then c - 65 + 10
    else base in
  if d <? base then Some d else None.

(** Digits with single underscores between them; [after_us] tells that
    the previous character was an underscore. *)
Fixpoint digits_val (base acc : Z) (after_us : bool) (s : pystr) : option Z :=
  match s with
  | [] => if after_us then None else Some acc
  | c :: r =>
      if c =? 95 then
        if after_us then None else digits_val base acc true r
      else
        match digit_of base c with
        | Some d => digits_val base (acc * base + d) false r
        | None => None
        end
  end.

(** The unsigned part: an optional [0x] prefix in base 16 (which may be
    followed by one underscore), then at least one digit. *)
Definition skip_prefix (base : Z) (s : pystr) : pystr :=
  match s with
  | z :: x :: r =>
      if (z =? 48) && (base =? 16) && ((x =? 120) || (x =? 88)) then
        match r with
        | u :: r' => if u =? 95 then r' else r
        | [] => r
        end
      else s
  | _ => s
  end.

Definition unsigned_val (base : Z) (s : pystr) : option Z :=
  match skip_prefix base s with
  | [] => None
  | c :: r => if c =? 95 then None else digits_val base 0 false (c :: r)
  end.

(** [int(s, base)]; [None] stands for [ValueError]. *)
Definition int_base (base : Z) (s : pystr) : option Z :=
  match strip s with
  | [] => None
  | c :: r =>
      if c =? 45 then option_map Z.opp (unsigned_val base r)
      else if c =? 43 then unsigned_val base r
      else unsigned_val base (c :: r)
  end.

Definition int (s : pystr) : option Z := int_base 10 s.

(** [max(l)] for a list of [int]; [None] stands for the [ValueError] of
    an empty argument. *)
Definition max (l : list Z) : option Z :=
  match l with
  | [] => None
  | x :: r => Some (fold_left Z.max r x)
  end.

(** ** [s.encode()]: UTF-8 *)

Definition encode_char (c : Z) : option pybytes :=
  if c <? 0 then None
  else if c <? 128 then Some [c]
  else if c <? 2048 then
    Some [Z.lor 192 (Z.shiftr c 6); Z.lor 128 (Z.land c 63)]
  else if c <? 65536 then
    if (55296 <=? c) && (c <=? 57343) then None
    else Some [Z.lor 224 (Z.shiftr c 12);
               Z.lor 128 (Z.land (Z.shiftr c 6) 63);
               Z.lor 128 (Z.land c 63)]
  else if c <? 1114112 then
    Some [Z.lor 240 (Z.shiftr c 18);
          Z.lor 128 (Z.land (Z.shiftr c 12) 63);
          Z.lor 128 (Z.land (Z.shiftr c 6) 63);
          Z.lor 128 (Z.land c 63)]
  else None.

(** [None] stands for [UnicodeEncodeError] (a lone surrogate). *)
Fixpoint encode (s : pystr) : option pybytes :=
  match s with
  | [] => Some []
  | c :: r =>
      match encode_char c, encode r with
      | Some b, Some bs => Some (b ++ bs)
      | _, _ => None
      end
  end.

End Py.

(* ================================================================== *)
(** * [hashlib]: SHA-1 and SHA-256 (FIPS 180-4) over byte strings *)
(* ================================================================== *)

Module Hashlib.

Definition w32 (x : Z) : Z := x mod 4294967296.

Definition rotl (n x : Z) : Z :=
  w32 (Z.lor (Z.shiftl x n) (Z.shiftr x (32 - n))).

Definition rotr (n x : Z) : Z :=
  w32 (Z.lor (Z.shiftr x n) (Z.shiftl x (32 - n))).

Definition not32 (x : Z) : Z := Z.lxor x 4294967295.

(** [n] bytes of [x], most significant first. *)
Fixpoint be_bytes (n : nat) (x : Z) : pybytes :=
  match n with
  | O => []
  | S k => be_bytes k (x / 256) ++ [x mod 256]
  end.

Definition be_word (bs : pybytes) : Z :=
  fold_left (fun acc b => acc * 256 + b) bs 0.

(** The message followed by the bit 1, zero bits and its length in bits
    as a 64-bit integer: a multiple of 64 bytes. *)
Definition pad (msg : pybytes) : pybytes :=
  let l := Z.of_nat (List.length msg) in
  msg ++ [128] ++ repeat 0 (Z.to_nat ((55 - l) mod 64)) ++ be_bytes 8 (8 * l).

Fixpoint chunks (fuel size : nat) (l : list Z) : list (list Z) :=
  match fuel with
  | O => []
  | S f =>
      match l with
      | [] => []
      | _ => firstn size l :: chunks f size (skipn size l)
      end
  end.

Definition blocks (msg : pybytes) : list (list Z) :=
  let p := pad msg in
  map (fun blk => map be_word (chunks 16 4 blk)) (chunks (List.length p) 64 p).

Definition hex_char (n : Z) : Z := if n <? 10 then 48 + n else 87 + n.

(** [bytes.hex()]: two lower-case hexadecimal digits per byte. *)
Fixpoint hex (bs : pybytes) : pystr :=
  match bs with
  | [] => []
  | b :: r => hex_char (b / 16) :: hex_char (b mod 16) :: hex r
  end.

(** ** SHA-1 *)

Record sha1_state := Sha1State { h0 : Z; h1 : Z; h2 : Z; h3 : Z; h4 : Z }.

Definition sha1_init : sha1_state :=
  Sha1State 0x67452301 0xEFCDAB89 0x98BADCFE 0x10325476 0xC3D2E1F0.

(** The message schedule, latest word first. *)
Fixpoint sha1_extend (n : nat) (rw : list Z) : list Z :=
  match n with
  | O => rw
  | S k =>
      sha1_extend k
        (rotl 1 (Z.lxor (Z.lxor (Z.lxor (nth 2 rw 0) (nth 7 rw 0))
                                (nth 13 rw 0)) (nth 15 rw 0)) :: rw)
  end.

Definition sha1_schedule (blk : list Z) : list Z :=
  rev (sha1_extend 64 (rev blk)).

Definition sha1_round (st : sha1_state) (tw : nat * Z) : sha1_state :=
  let (t, w) := tw in
  let (a, b, c, d, e) := st in
  let fk :=
    if (t <? 20)%nat then
      (Z.lor (Z.land b c) (Z.land (not32 b) d), 0x5A827999)
    else if (t <? 40)%nat then
      (Z.lxor (Z.lxor b c) d, 0x6ED9EBA1)
    else if (t <? 60)%nat then
      (Z.lor (Z.lor (Z.land b c) (Z.land b d)) (Z.land c d), 0x8F1BBCDC)
    else
      (Z.lxor (Z.lxor b c) d, 0xCA62C1D6) in
  Sha1State (w32 (rotl 5 a + fst fk + e + snd fk + w)) a (rotl 30 b) c d.

Definition sha1_block (st : sha1_state) (blk : list Z) : sha1_state :=
  let ws := sha1_schedule blk in
  let r := fold_left sha1_round (combine (seq 0 80) ws) st in
  Sha1State (w32 (h0 st + h0 r)) (w32 (h1 st + h1 r)) (w32 (h2 st + h2 r))
            (w32 (h3 st + h3 r)) (w32 (h4 st + h4 r)).

Definition sha1_final (msg : pybytes) : sha1_state :=
  fold_left sha1_block (blocks msg) sha1_init.

(** [hashlib.sha1(msg).digest()]. *)
Definition sha1_digest (msg : pybytes) : pybytes :=
  let s := sha1_final msg in
  be_bytes 4 (h0 s) ++ be_bytes 4 (h1 s) ++ be_bytes 4 (h2 s)
  ++ be_bytes 4 (h3 s) ++ be_bytes 4 (h4 s).

(** [hashlib.sha1(msg).hexdigest()]. *)
Definition sha1_hexdigest (msg : pybytes) : pystr := hex (sha1_digest msg).

(** ** SHA-256 *)

(** The round constants: the first 32 bits of the fractional parts of the
    cube roots of the first 64 primes, in decimal (the first is 0x428a2f98,
    the last 0xc67178f2). *)
Definition K256 : list Z :=
  [
    1116352408; 1899447441; 3049323471; 3921009573; 961987163;
    1508970993; 2453635748; 2870763221; 3624381080; 310598401;
    607225278; 1426881987; 1925078388; 2162078206; 2614888103;
    3248222580; 3835390401; 4022224774; 264347078; 604807628;
    770255983; 1249150122; 1555081692; 1996064986; 2554220882;
    2821834349; 2952996808; 3210313671; 3336571891; 3584528711;
    113926993; 338241895; 666307205; 773529912; 1294757372;
    1396182291; 1695183700; 1986661051; 2177026350; 2456956037;
    2730485921; 2820302411; 3259730800; 3345764771; 3516065817;
    3600352804; 4094571909; 275423344; 430227734; 506948616;
    659060556; 883997877; 958139571; 1322822218; 1537002063;
    1747873779; 1955562222; 2024104815; 2227730452; 2361852424;
    2428436474; 2756734187; 3204031479; 3329325298 ].

(** The initial state: the first 32 bits of the fractional parts of the
    square roots of the first 8 primes (the first is 0x6a09e667). *)
Definition sha256_init : list Z :=
  [
    1779033703; 3144134277; 1013904242; 2773480762;
    1359893119; 2600822924; 528734635; 1541459225 ].

Definition ssig0 (x : Z) : Z :=
  Z.lxor (Z.lxor (rotr 7 x) (rotr 18 x)) (Z.shiftr x 3).
Definition ssig1 (x : Z) : Z :=
  Z.lxor (Z.lxor (rotr 17 x) (rotr 19 x)) (Z.shiftr x 10).
Definition bsig0 (x : Z) : Z :=
  Z.lxor (Z.lxor (rotr 2 x) (rotr 13 x)) (rotr 22 x).
Definition bsig1 (x : Z) : Z :=
  Z.lxor (Z.lxor (rotr 6 x) (rotr 11 x)) (rotr 25 x).

Fixpoint sha256_extend (n : nat) (rw : list Z) : list Z :=
  match n with
  | O => rw
  | S k =>
      sha256_extend k
        (w32 (ssig1 (nth 1 rw 0) + nth 6 rw 0
              + ssig0 (nth 14 rw 0) + nth 15 rw 0) :: rw)
  end.

Definition sha256_schedule (blk : list Z) : list Z :=
  rev (sha256_extend 48 (rev blk)).

Definition sha256_round (st : list Z) (kw : Z * Z) : list Z :=
  match st with
  | [a; b; c; d; e; f; g; h] =>
      let t1 := h + bsig1 e + Z.lxor (Z.land e f) (Z.land (not32 e) g)
                + fst kw + snd kw in
      let t2 := bsig0 a
                + Z.lxor (Z.lxor (Z.land a b) (Z.land a c)) (Z.land b c) in
      [w32 (t1 + t2); a; b; c; w32 (d + t1); e; f; g]
  | _ => st
  end.

Definition sha256_block (st : list Z) (blk : list Z) : list Z :=
  let r := fold_left sha256_round (combine K256 (sha256_schedule blk)) st in
  map (fun p => w32 (fst p + snd p)) (combine st r).

(** [hashlib.sha256(msg).hexdigest()]. *)
Definition sha256_hexdigest (msg : pybytes) : pystr :=
  hex (flat_map (be_bytes 4) (fold_left sha256_block (blocks msg) sha256_init)).

End Hashlib.

(* ================================================================== *)
(** * The collection file *)
(* ================================================================== *)

(** One entry of the deck document, a JSON object [{"id", "name", "mod"}].
    [deck_name = None] stands for an entry on which [deck["name"]] raises. *)
Record deck := Deck {
  deck_id : Z;
  deck_name : option pystr;
  deck_mod : Z
}.

(** A Python [dict] with [str] keys, in insertion order. *)
Definition pydict := list (pystr * deck).

(** The text of the [decks] column, by what [json.loads] makes of it. *)
Inductive json_text : Type :=
  | Malformed                  (* [json.loads] raises *)
  | NotObject                  (* decodes to a list, a number, a string... *)
  | Object (items : pydict).   (* decodes to this dict *)

(** The built-in note type of the [models] column. *)
Record template := Template {
  tmpl_name : pystr; qfmt : pystr; afmt : pystr; tmpl_ord : Z
}.

Record note_type := NoteType {
  nt_id : Z;
  nt_name : pystr;
  nt_type : Z;
  nt_flds : list (pystr * Z);
  nt_tmpls : list template;
  nt_css : pystr
}.

(** A row of table [col]. *)
Record col_row := ColRow {
  col_id : Z; crt : Z; col_mod : Z; scm : Z; ver : Z; dty : Z; col_usn : Z;
  ls : Z; conf : pystr; models : list (pystr * note_type);
  decks : json_text; dconf : pystr; col_tags : pystr
}.

(** A row of table [notes]. *)
Record note_row := NoteRow {
  note_id : Z; guid : pystr; mid : Z; note_mod : Z; note_usn : Z;
  note_tags : pystr; flds : pystr; sfld : pystr; csum : Z;
  note_flags : Z; note_data : pystr
}.

(** A row of table [cards]. *)
Record card_row := CardRow {
  card_id : Z; nid : Z; did : Z; ord : Z; card_mod : Z; card_usn : Z;
  type : Z; queue : Z; due : Z; ivl : Z; factor : Z; reps : Z; lapses : Z;
  left : Z; odue : Z; odid : Z; card_flags : Z; card_data : pystr
}.

Record database := Database {
  col : list col_row;
  notes : list note_row;
  cards : list card_row
}.

(** The file at [collection_path]: absent, without tables (as
    [sqlite3.connect] leaves a new file), unreadable, or holding the three
    tables. *)
Inductive storage : Type :=
  | Missing
  | Blank
  | Damaged
  | Tables (db : database).

(** What the handler can observe and change: the file, and how often the
    clock and the random generator have been consulted. *)
Record world := World {
  disk : storage;
  clock_reads : nat;
  rand_draws : nat
}.

Inductive outcome (A : Type) : Type :=
  | Ok (a : A) (w : world)
  | Raise (e : exn) (w : world).
Arguments Ok {A} a w.
Arguments Raise {A} e w.

Definition M (A : Type) : Type := world -> outcome A.

Definition ret {A} (a : A) : M A := fun w => Ok a w.

Definition bind {A B} (m : M A) (k : A -> M B) : M B :=
  fun w => match m w with
           | Ok a w' => k a w'
           | Raise e w' => Raise e w'
           end.

Definition lift {A} (r : result A) : M A :=
  fun w => match r with
           | Return a => Ok a w
           | Raised e => Raise e w
           end.

Definition raise {A} (e : exn) : M A := fun w => Raise e w.

Notation "x <- m ;; k" := (bind m (fun x => k))
  (at level 61, m at next level, right associativity).
Notation "m ;;; k" := (bind m (fun _ => k))
  (at level 61, right associativity).

Definition world_of {A} (o : outcome A) : world :=
  match o with Ok _ w => w | Raise _ w => w end.

Module Sqlite.

(** An open connection: what its statements see. Changes stay in the
    connection until [commit]; a connection dropped without [commit]
    leaves the file as it was. *)
Inductive connection : Type :=
  | NoTables
  | Unreadable
  | View (db : database).

(** [sqlite3.connect(path)]: creates the file when it is absent. *)
Definition connect : M connection :=
  fun w =>
    match disk w with
    | Missing => Ok NoTables (World Blank (clock_reads w) (rand_draws w))
    | Blank => Ok NoTables w
    | Damaged => Ok Unreadable w
    | Tables db => Ok (View db) w
    end.

Definition view (c : connection) : result database :=
  match c with
  | NoTables => Raised OperationalError
  | Unreadable => Raised DatabaseError
  | View db => Return db
  end.

(** [conn.commit()]. *)
Definition commit (c : connection) : M unit :=
  fun w =>
    match c with
    | View db => Ok tt (World (Tables db) (clock_reads w) (rand_draws w))
    | _ => Ok tt w
    end.

(** A [str] bound to a [TEXT] parameter must encode. *)
Definition bind_text (s : pystr) : result unit :=
  match Py.encode s with
  | Some _ => Return tt
  | None => Raised UnicodeEncodeError
  end.

(** [SELECT decks FROM col WHERE id = 1], then [fetchone()]. *)
Definition select_decks (c : connection) : result (option json_text) :=
  match view c with
  | Raised e => Raised e
  | Return db =>
      Return (option_map decks (find (fun r => col_id r =? 1) (col db)))
  end.

(** [SELECT decks, mod FROM col WHERE id = 1], then [fetchone()]. *)
Definition select_decks_mod (c : connection)
  : result (option (json_text * Z)) :=
  match view c with
  | Raised e => Raised e
  | Return db =>
      Return (option_map (fun r => (decks r, col_mod r))
                         (find (fun r => col_id r =? 1) (col db)))
  end.

Definition set_decks_mod (d : json_text) (m : Z) (r : col_row) : col_row :=
  ColRow (col_id r) (crt r) m (scm r) (ver r) (dty r) (col_usn r) (ls r)
         (conf r) (models r) d (dconf r) (col_tags r).

Definition set_mod (m : Z) (r : col_row) : col_row :=
  ColRow (col_id r) (crt r) m (scm r) (ver r) (dty r) (col_usn r) (ls r)
         (conf r) (models r) (decks r) (dconf r) (col_tags r).

Definition update_where_id_1 (f : col_row -> col_row) (rows : list col_row)
  : list col_row :=
  map (fun r => if col_id r =? 1 then f r else r) rows.

(** [UPDATE col SET decks = ?, mod = ? WHERE id = 1]. *)
Definition update_col_decks_mod (d : json_text) (m : Z) (c : connection)
  : result connection :=
  match view c with
  | Raised e => Raised e
  | Return db =>
      Return (View (Database (update_where_id_1 (set_decks_mod d m) (col db))
                             (notes db) (cards db)))
  end.

(** [UPDATE col SET mod = ? WHERE id = 1]. *)
Definition update_col_mod (m : Z) (c : connection) : result connection :=
  match view c with
  | Raised e => Raised e
  | Return db =>
      Return (View (Database (update_where_id_1 (set_mod m) (col db))
                             (notes db) (cards db)))
  end.

(** [INSERT INTO notes ...]: [id] is the primary key, [guid] is unique. *)
Definition insert_note (n : note_row) (c : connection) : result connection :=
  match view c with
  | Raised e => Raised e
  | Return db =>
      match bind_text (guid n), bind_text (note_tags n),
            bind_text (flds n), bind_text (sfld n) with
      | Return _, Return _, Return _, Return _ =>
          if existsb (fun r => (note_id r =? note_id n)
                               || Py.str_eqb (guid r) (guid n)) (notes db)
          then Raised IntegrityError
          else Return (View (Database (col db) (notes db ++ [n]) (cards db)))
      | _, _, _, _ => Raised UnicodeEncodeError
      end
  end.

(** [INSERT INTO cards ...]: [id] is the primary key. *)
Definition insert_card (k : card_row) (c : connection) : result connection :=
  match view c with
  | Raised e => Raised e
  | Return db =>
      if existsb (fun r => card_id r =? card_id k) (cards db)
      then Raised IntegrityError
      else Return (View (Database (col db) (notes db) (cards db ++ [k])))
  end.

(** [INSERT INTO col ...] of [_create_empty_collection]. *)
Definition insert_col (r : col_row) (db : database) : result database :=
  if existsb (fun r' => col_id r' =? col_id r) (col db)
  then Raised IntegrityError
  else Return (Database (col db ++ [r]) (notes db) (cards db)).

End Sqlite.

Module Json.

(** [json.loads(text)]: a dict, or another value. *)
Definition loads (t : json_text) : result (option pydict) :=
  match t with
  | Malformed => Raised JSONDecodeError
  | NotObject => Return None
  | Object items => Return (Some items)
  end.

(** [json.dumps(d)] for a dict [d]. *)
Definition dumps (d : pydict) : json_text := Object d.

End Json.

(* ================================================================== *)
(** * [class AnkiHandler] *)
(* ================================================================== *)

(** One element of the list given to [add_notes_batch]: a dict in which
    each of the four keys may be absent. *)
Record note_dict := NoteDict {
  nd_front : option pystr;
  nd_back : option pystr;
  nd_deck_name : option pystr;
  nd_tags : option (list pystr)
}.

Section AnkiHandler.

(** [int(time.time() * 1000)] at the k-th reading of the clock, and
    [random.randint(0, 999)] at the k-th draw. *)
Variable time_ms : nat -> Z.
Variable randint_0_999 : nat -> Z.

Definition now_ms : M Z :=
  fun w => Ok (time_ms (clock_reads w))
              (World (disk w) (S (clock_reads w)) (rand_draws w)).

Definition randint : M Z :=
  fun w => Ok (randint_0_999 (rand_draws w))
              (World (disk w) (clock_reads w) (S (rand_draws w))).

Definition default_model : list (pystr * note_type) :=
  [ (Py.lit "1",
     NoteType 1 (Py.lit "Basic") 0
       [ (Py.lit "Front", 0); (Py.lit "Back", 1) ]
       [ Template (Py.lit "Card 1") (Py.lit "{{Front}}")
           (Py.lit "{{FrontSide}}" ++ [10; 10] ++ Py.lit "<hr id=answer>"
            ++ [10; 10] ++ Py.lit "{{Back}}")
           0 ]
       (Py.lit ".card { font-family: arial; font-size: 20px; text-align: center; color: black; background-color: white; }")) ].

Definition default_decks (now : Z) : pydict :=
  [ (Py.lit "1", Deck 1 (Some (Py.lit "Default")) now) ].

Definition empty_database : database := Database [] [] [].

(** [_create_empty_collection]: the three [CREATE TABLE IF NOT EXISTS],
    the [INSERT INTO col] and the commit. *)
Definition _create_empty_collection : M unit :=
  conn <- Sqlite.connect ;;
  db <- lift (match conn with
              | Sqlite.NoTables => Return empty_database
              | Sqlite.Unreadable => Raised DatabaseError
              | Sqlite.View db => Return db
              end) ;;
  now <- now_ms ;;
  db' <- lift (Sqlite.insert_col
                 (ColRow 1 now now 0 11 0 0 0 (Py.lit "{}") default_model
                         (Json.dumps (default_decks now)) (Py.lit "{}")
                         (Py.lit "{}")) db) ;;
  Sqlite.commit (Sqlite.View db').

(** [ensure_collection_exists], the directory taken as present. *)
Definition ensure_collection_exists : M unit :=
  fun w =>
    match disk w with
    | Missing => _create_empty_collection w
    | _ => Ok tt w
    end.

(** [[deck["name"] for deck in decks_data.values()]]. *)
Fixpoint deck_names (items : pydict) : result (list pystr) :=
  match items with
  | [] => Return []
  | (_, d) :: rest =>
      match deck_name d with
      | None => Raised KeyError
      | Some n =>
          match deck_names rest with
          | Return ns => Return (n :: ns)
          | Raised e => Raised e
          end
      end
  end.

(** The body of the [try] in [get_decks]. *)
Definition get_decks_try : M (list pystr) :=
  conn <- Sqlite.connect ;;
  result <- lift (Sqlite.select_decks conn) ;;
  match result with
  | None => ret [Py.lit "Default"]
  | Some text =>
      decks_data <- lift (Json.loads text) ;;
      match decks_data with
      | None => raise AttributeError
      | Some items =>
          names <- lift (deck_names items) ;;
          ret (Py.sorted names)
      end
  end.

(** [get_decks]: [except Exception] answers [["Default"]]. *)
Definition get_decks : M (list pystr) :=
  fun w =>
    match get_decks_try w with
    | Ok names w' => Ok names w'
    | Raise _ w' => Ok [Py.lit "Default"] w'
    end.

(** The loop of [create_deck] looking for a deck of that name. *)
Fixpoint find_deck (name : pystr) (items : pydict) : result (option Z) :=
  match items with
  | [] => Return None
  | (key, d) :: rest =>
      match deck_name d with
      | None => Raised KeyError
      | Some n =>
          if Py.str_eqb n name then
            match Py.int key with
            | Some i => Return (Some i)
            | None => Raised ValueError
            end
          else find_deck name rest
      end
  end.

(** [[int(did) for did in decks_data.keys()]]. *)
Fixpoint int_keys (items : pydict) : result (list Z) :=
  match items with
  | [] => Return []
  | (key, _) :: rest =>
      match Py.int key with
      | None => Raised ValueError
      | Some i =>
          match int_keys rest with
          | Return l => Return (i :: l)
          | Raised e => Raised e
          end
      end
  end.

(** [d[key] = value]. *)
Fixpoint dict_set (key : pystr) (value : deck) (items : pydict) : pydict :=
  match items with
  | [] => [(key, value)]
  | (k, v) :: rest =>
      if Py.str_eqb k key then (k, value) :: rest
      else (k, v) :: dict_set key value rest
  end.

(** [create_deck]. *)
Definition create_deck (name : pystr) : M Z :=
  conn <- Sqlite.connect ;;
  result <- lift (Sqlite.select_decks_mod conn) ;;
  row <- lift (match result with
               | None => Raised TypeError
               | Some r => Return r
               end) ;;
  loaded <- lift (Json.loads (fst row)) ;;
  decks_data <- lift (match loaded with
                      | None => Raised AttributeError
                      | Some items => Return items
                      end) ;;
  found <- lift (find_deck name decks_data) ;;
  match found with
  | Some existing => ret existing
  | None =>
      ids <- lift (int_keys decks_data) ;;
      top <- lift (match Py.max ids with
                   | None => Raised ValueError
                   | Some m => Return m
                   end) ;;
      let new_deck_id := top + 1 in
      now <- now_ms ;;
      let decks_data' :=
        dict_set (Py.str new_deck_id) (Deck new_deck_id (Some name) now)
                 decks_data in
      conn' <- lift (Sqlite.update_col_decks_mod
                       (Json.dumps decks_data') now conn) ;;
      Sqlite.commit conn' ;;;
      ret new_deck_id
  end.

(** [tags or []]. *)
Definition tags_or_empty (tags : option (list pystr)) : list pystr :=
  match tags with
  | None => []
  | Some l => l
  end.

(** [" " + " ".join(tags or []) + " "]. *)
Definition tags_str (tags : option (list pystr)) : pystr :=
  [32] ++ Py.join [32] (tags_or_empty tags) ++ [32].

(** [front[:64] if len(front) > 64 else front]. *)
Definition sfld_of (front : pystr) : pystr :=
  if Py.len front >? 64 then Py.slice_to 64 front else front.

(** [int(hashlib.sha1(sfld.encode()).hexdigest()[:8], 16)]. *)
Definition csum_of (sfld : pystr) : result Z :=
  match Py.encode sfld with
  | None => Raised UnicodeEncodeError
  | Some bs =>
      match Py.int_base 16 (Py.slice_to 8 (Hashlib.sha1_hexdigest bs)) with
      | None => Raised ValueError
      | Some n => Return n
      end
  end.

(** [hashlib.sha256(f"{note_id}{front}{back}".encode()).hexdigest()[:8]]. *)
Definition guid_of (note_id : Z) (front back : pystr) : result pystr :=
  match Py.encode (Py.str note_id ++ front ++ back) with
  | None => Raised UnicodeEncodeError
  | Some bs => Return (Py.slice_to 8 (Hashlib.sha256_hexdigest bs))
  end.

(** [add_note]. *)
Definition add_note (front back deck_name : pystr)
           (tags : option (list pystr)) : M Z :=
  deck_id <- create_deck deck_name ;;
  conn <- Sqlite.connect ;;
  t <- now_ms ;;
  r <- randint ;;
  let note_id := t + r in
  let card_id := note_id + 1 in
  guid <- lift (guid_of note_id front back) ;;
  let fields := front ++ [31] ++ back in
  let tags_s := tags_str tags in
  now <- now_ms ;;
  let sfld := sfld_of front in
  csum <- lift (csum_of sfld) ;;
  conn1 <- lift (Sqlite.insert_note
                   (NoteRow note_id guid 1 now 0 tags_s fields sfld csum 0 [])
                   conn) ;;
  conn2 <- lift (Sqlite.insert_card
                   (CardRow card_id note_id deck_id 0 now 0
                            0 0 0 0 0 0 0 0 0 0 0 [])
                   conn1) ;;
  conn3 <- lift (Sqlite.update_col_mod now conn2) ;;
  Sqlite.commit conn3 ;;;
  ret note_id.

(** The arguments [add_notes_batch] reads from one dict, in the order
    it reads them. *)
Definition note_args (note : note_dict)
  : result (pystr * pystr * pystr * option (list pystr)) :=
  match nd_front note with
  | None => Raised KeyError
  | Some front =>
      match nd_back note with
      | None => Raised KeyError
      | Some back =>
          Return (front, back,
                  match nd_deck_name note with
                  | None => Py.lit "Default"
                  | Some d => d
                  end,
                  nd_tags note)
      end
  end.

(** [add_notes_batch]: [note_ids] is the list built so far. *)
Fixpoint add_notes_loop (note_ids : list Z) (notes : list note_dict)
  : M (list Z) :=
  match notes with
  | [] => ret note_ids
  | note :: rest =>
      args <- lift (note_args note) ;;
      let '(front, back, deck_name, tags) := args in
      note_id <- add_note front back deck_name tags ;;
      add_notes_loop (note_ids ++ [note_id]) rest
  end.

Definition add_notes_batch (notes : list note_dict) : M (list Z) :=
  add_notes_loop [] notes.

(** [AnkiHandler(collection_path)] *)
Definition init : M unit := ensure_collection_exists.

End AnkiHandler.

(* ================================================================== *)
(** * Vocabulary of the properties *)
(* ================================================================== *)

(** Lexicographic order on code-point sequences. *)
Inductive lex_le : pystr -> pystr -> Prop :=
  | lex_le_nil : forall b, lex_le [] b
  | lex_le_lt : forall x y a b, x < y -> lex_le (x :: a) (y :: b)
  | lex_le_eq : forall x a b, lex_le a b -> lex_le (x :: a) (x :: b).

Definition is_digit (d : Z) : Prop := 0 <= d < 10.

(** Value of a list of digits, least significant first. *)
Fixpoint le_val (ds : list Z) : Z :=
  match ds with
  | [] => 0
  | d :: r => d + 10 * le_val r
  end.

Definition is_nibble (n : Z) : Prop := 0 <= n < 16.

Definition is_word32 (x : Z) : Prop := 0 <= x < 4294967296.

(** The world after [sqlite3.connect] alone: an absent file now exists. *)
Definition connected (w : world) : world :=
  World (match disk w with Missing => Blank | s => s end)
        (clock_reads w) (rand_draws w).

(** The deck document of a world: the decoded [decks] column of the
    collection row, when the file has one that decodes to a dict. *)
Definition deck_document (w : world) : option pydict :=
  match disk w with
  | Tables db =>
      match find (fun r => col_id r =? 1) (col db) with
      | Some row =>
          match decks row with
          | Object items => Some items
          | _ => None
          end
      | None => None
      end
  | _ => None
  end.

(** The world [create_deck] leaves after adding deck [new_id] at time
    [now]. *)
Definition with_new_deck (name : pystr) (new_id now : Z) (items : pydict)
           (db : database) (w : world) : world :=
  World (Tables (Database
                   (Sqlite.update_where_id_1
                      (Sqlite.set_decks_mod
                         (Object (dict_set (Py.str new_id)
                                           (Deck new_id (Some name) now) items))
                         now)
                      (col db))
                   (notes db) (cards db)))
        (S (clock_reads w)) (rand_draws w).

(** An entry as the data model has it: stored under its id, with a name. *)
Definition entry_ok (e : pystr * deck) : Prop :=
  Py.int (fst e) = Some (deck_id (snd e)) /\ deck_name (snd e) <> None.

(** A deck document as the data model has it: at least one deck, every
    entry well formed. *)
Definition decks_ok (items : pydict) : Prop :=
  items <> [] /\ Forall entry_ok items.

(** No deck of the document bears this name. *)
Definition name_absent (name : pystr) (items : pydict) : Prop :=
  Forall (fun e => deck_name (snd e) <> Some name) items.

(** A deck of the document bears this name. *)
Definition name_present (name : pystr) (items : pydict) : Prop :=
  exists e, In e items /\ deck_name (snd e) = Some name.

(** [m] is the greatest element of [l]. *)
Definition is_max (m : Z) (l : list Z) : Prop :=
  In m l /\ Forall (fun i => i <= m) l.

(** The note a world stores under an id. *)
Definition stored_note (w : world) (n : note_row) : Prop :=
  exists db, disk w = Tables db /\ In n (notes db).

Section BatchDefinitions.

Variable time_ms : nat -> Z.
Variable randint_0_999 : nat -> Z.

(** [runs rs w ids w']: calling [add_note] once for each record of
    [rs], in order, from world [w], every call returns; [ids] are the
    returned ids in that order and [w'] is the world after the last
    call. *)
Inductive runs : list note_dict -> world -> list Z -> world -> Prop :=
  | runs_nil : forall w, runs [] w [] w
  | runs_cons : forall r rest w front back dn tags id w1 ids w2,
      note_args r = Return (front, back, dn, tags) ->
      add_note time_ms randint_0_999 front back dn tags w = Ok id w1 ->
      runs rest w1 ids w2 ->
      runs (r :: rest) w (id :: ids) w2.

(** Record [r] fails in world [w] with exception [e], leaving [w']:
    a required key is absent, or [add_note] raises. *)
Definition record_fails (r : note_dict) (w : world) (e : exn) (w' : world)
  : Prop :=
  (note_args r = Raised e /\ w' = w)
  \/ (exists front back dn tags,
         note_args r = Return (front, back, dn, tags)
         /\ add_note time_ms randint_0_999 front back dn tags w = Raise e w').

(** A note with this id is in the file. *)
Definition note_committed (w : world) (id : Z) : Prop :=
  exists n, stored_note w n /\ note_id n = id.

End BatchDefinitions.

(** Table [col] holds exactly one row. *)
Definition one_collection_row (w : world) : Prop :=
  exists db r, disk w = Tables db /\ col db = [r].

(** The modification time of that row. *)
Definition collection_mod (w : world) : option Z :=
  match disk w with
  | Tables db =>
      match col db with
      | [r] => Some (col_mod r)
      | _ => None
      end
  | _ => None
  end.

Module Demo.

Definition clock (k : nat) : Z := 1700000000000 + Z.of_nat k.
Definition dice (k : nat) : Z := 7.

(** A new file, after [AnkiHandler(path)]. *)
Definition fresh : world :=
  Eval vm_compute in world_of (init clock (World Missing 0 0)).

Definition fresh_decks : pydict :=
  [(Py.lit "1", Deck 1 (Some (Py.lit "Default")) 1700000000000)].

Definition question : pystr := Py.lit "What is 2+2?".
Definition answer : pystr := Py.lit "4".
Definition math : pystr := Py.lit "Math".
Definition arithmetic : option (list pystr) := Some [Py.lit "arithmetic"].

Definition with_note : world :=
  Eval vm_compute in
    world_of (add_note clock dice question answer math arithmetic fresh).

Definition with_math : world :=
  Eval vm_compute in world_of (create_deck clock math fresh).

Definition with_untagged_note : world :=
  Eval vm_compute in
    world_of (add_note clock dice question answer math None fresh).

(** A file whose deck document has an entry under a key that is not a
    number. *)
Definition odd_key : world :=
  World (Tables (Database
           [ColRow 1 0 0 0 11 0 0 0 (Py.lit "{}") []
                   (Object [(Py.lit "1", Deck 1 (Some (Py.lit "Default")) 0);
                            (Py.lit "x", Deck 2 (Some (Py.lit "Broken")) 0)])
                   (Py.lit "{}") (Py.lit "{}")]
           [] []))
        0 0.

Definition card (front : string) (deck : string) : note_dict :=
  NoteDict (Some (Py.lit front)) (Some (Py.lit "back")) (Some (Py.lit deck))
           None.

Definition batch : list note_dict :=
  [card "one" "Default"; card "two" "Default"; card "three" "Default";
   card "four" "Broken"; card "five" "Default"].

Definition after_batch : world :=
  Eval vm_compute in world_of (add_notes_batch clock dice batch odd_key).

End Demo.

Ltac zbool :=
  repeat match goal with
         | |- context [?a <=? ?b] => destruct (Z.leb_spec a b)
         | |- context [?a <? ?b] => destruct (Z.ltb_spec a b)
         | |- context [?a =? ?b] => destruct (Z.eqb_spec a b)
         end;
  cbn [andb orb negb]; try lia; try reflexivity.

(* ================================================================== *)
(** * More Python builtins *)
(* ================================================================== *)

Module PyMore.

(** [s.startswith(prefix)]. *)
Fixpoint startswith (s prefix : pystr) : bool :=
  match prefix, s with
  | [], _ => true
  | _ :: _, [] => false
  | p :: prefix', c :: s' => (c =? p) && startswith s' prefix'
  end.

(** [s.endswith(suffix)]. *)
Definition endswith (s suffix : pystr) : bool :=
  startswith (rev s) (rev suffix).

(** [s.split(sep)] for a separator of one character. *)
Fixpoint split (sep : Z) (s : pystr) : list pystr :=
  match s with
  | [] => [[]]
  | c :: r =>
      if c =? sep then [] :: split sep r
      else match split sep r with
           | p :: ps => (c :: p) :: ps
           | [] => [[c]]
           end
  end.

(** [s.split(sep, 1)] for a separator of one character. *)
Fixpoint split_once (sep : Z) (s : pystr) : list pystr :=
  match s with
  | [] => [[]]
  | c :: r =>
      if c =? sep then [[]; r]
      else match split_once sep r with
           | p :: ps => (c :: p) :: ps
           | [] => [[c]]
           end
  end.

(** [len(l)] for a list. *)
Definition len_list {A} (l : list A) : Z := Z.of_nat (List.length l).

(** [l[1:-1]]. *)
Definition inner {A} (l : list A) : list A := removelast (tl l).

(** [posixpath.join(a, *p)]. *)
Definition join_step (path b : pystr) : pystr :=
  if startswith b [47] then b
  else if (match path with [] => true | _ => false end) || endswith path [47]
       then path ++ b
       else path ++ [47] ++ b.

Definition path_join (a : pystr) (p : list pystr) : pystr :=
  fold_left join_step p a.

End PyMore.

(* ================================================================== *)
(** * [class Config] ([mcp-server/config.py]) *)
(* ================================================================== *)

(** The class attributes, as reading the environment has set them. *)
Record config := Config {
  ANTHROPIC_API_KEY : pystr;
  MCP_PORT : Z;
  AUTO_GENERATE : bool;
  SYNC_BASE : pystr;
  SYNC_USER1 : pystr;
  SYNC_USER2 : pystr;
  SYNC_USER3 : pystr;
  SYNC_USER4 : pystr;
  SYNC_USER5 : pystr
}.

(** [Config.get_primary_user]. *)
Definition get_primary_user (cls : config) : result (pystr * pystr) :=
  match SYNC_USER1 cls with
  | [] => Raised ValueError
  | _ =>
      match PyMore.split_once 58 (SYNC_USER1 cls) with
      | [username; password] => Return (username, password)
      | _ => Raised ValueError
      end
  end.

(** [Config.get_user_collection_path]. *)
Definition get_user_collection_path (cls : config) (username : option pystr)
  : result pystr :=
  match (match username with
         | None =>
             match get_primary_user cls with
             | Return (u, _) => Return u
             | Raised e => Raised e
             end
         | Some u => Return u
         end) with
  | Raised e => Raised e
  | Return u =>
      Return (PyMore.path_join (SYNC_BASE cls)
                               [u; Py.lit "collection.anki2"])
  end.

(** [Config.validate]. *)
Definition validate (cls : config) : result unit :=
  match ANTHROPIC_API_KEY cls with
  | [] => Raised ValueError
  | _ =>
      match SYNC_USER1 cls with
      | [] => Raised ValueError
      | _ =>
          match get_primary_user cls with
          | Return _ => Return tt
          | Raised e => Raised e
          end
      end
  end.

(* ================================================================== *)
(** * [FlashcardGenerator._parse_flashcards]
      ([mcp-server/flashcard_generator.py]) *)
(* ================================================================== *)

(** A value [json.loads] returns. A float is kept by its text. *)
#[warnings="-register-all"]
Inductive jvalue : Type :=
  | JNull
  | JBool (b : bool)
  | JInt (n : Z)
  | JFloat (text : pystr)
  | JStr (s : pystr)
  | JList (l : list jvalue)
  | JDict (items : list (pystr * jvalue)).

(** A card as [_parse_flashcards] returns it. *)
Record flashcard := Flashcard {
  fc_front : pystr;
  fc_back : pystr;
  fc_deck_name : pystr;
  fc_tags : list jvalue
}.

(** [key in d] and [d.get(key)] for a dict with [str] keys. *)
Fixpoint dict_get (key : pystr) (items : list (pystr * jvalue))
  : option jvalue :=
  match items with
  | [] => None
  | (k, v) :: rest => if Py.str_eqb k key then Some v else dict_get key rest
  end.

(** The text [_parse_flashcards] hands to [json.loads]: the response
    stripped, and when it opens with a code fence, without its first and
    last lines and without a leading [json]. *)
Definition fenced_text (response_text : pystr) : pystr :=
  let response_text := Py.strip response_text in
  if PyMore.startswith response_text (Py.lit "```") then
    let lines := PyMore.split 10 response_text in
    let response_text := Py.join [10] (PyMore.inner lines) in
    if PyMore.startswith response_text (Py.lit "json") then
      Py.strip (skipn 4 response_text)
    else response_text
  else response_text.

Section ParseFlashcards.

(** [json.loads] on a text, and [str] on a decoded value that is not a
    string. *)
Variable json_loads : pystr -> result jvalue.
Variable repr : jvalue -> pystr.

(** [str(v)]. *)
Definition str_of (v : jvalue) : pystr :=
  match v with
  | JStr s => s
  | _ => repr v
  end.

(** The body of the loop over the decoded array: [None] for an element
    that is skipped. *)
Definition validated_card (card : jvalue) : option flashcard :=
  match card with
  | JDict items =>
      match dict_get (Py.lit "front") items, dict_get (Py.lit "back") items with
      | Some front, Some back =>
          Some (Flashcard
                  (str_of front) (str_of back)
                  (match dict_get (Py.lit "deck_name") items with
                   | Some d => str_of d
                   | None => Py.lit "Default"
                   end)
                  (match dict_get (Py.lit "tags") items with
                   | Some (JList tags) => tags
                   | _ => []
                   end))
      | _, _ => None
      end
  | _ => None
  end.

Fixpoint validated_cards (flashcards : list jvalue) : list flashcard :=
  match flashcards with
  | [] => []
  | card :: rest =>
      match validated_card card with
      | Some c => c :: validated_cards rest
      | None => validated_cards rest
      end
  end.

(** [_parse_flashcards]. *)
Definition _parse_flashcards (response_text : pystr)
  : result (list flashcard) :=
  match json_loads (fenced_text response_text) with
  | Raised JSONDecodeError => Raised ValueError
  | Raised e => Raised e
  | Return (JList flashcards) => Return (validated_cards flashcards)
  | Return _ => Raised ValueError
  end.

End ParseFlashcards.

(* ================================================================== *)
(** * The tool handlers of [AnkiFlashcardMCP] ([mcp-server/server.py]) *)
(* ================================================================== *)

(** An entry of [added_cards]. *)
Record added_card := AddedCard {
  ad_id : Z;
  ad_deck : pystr;
  ad_front : pystr
}.

(** The [arguments] of [generate_flashcards], key by key. *)
Record generate_arguments := GenerateArguments {
  arg_content : option pystr;
  arg_context : option pystr;
  arg_max_cards : option Z
}.

(** [card["front"][:60] + "..." if len(card["front"]) > 60 else
    card["front"]]. *)
Definition front_preview (front : pystr) : pystr :=
  if Py.len front >? 60 then Py.slice_to 60 front ++ Py.lit "..." else front.

(** The grouping loop: [cards_by_deck[deck].append(card)], with a new
    list for a deck not seen before. *)
Fixpoint group_append (card : added_card)
         (groups : list (pystr * list added_card))
  : list (pystr * list added_card) :=
  match groups with
  | [] => [(ad_deck card, [card])]
  | (deck, cards) :: rest =>
      if Py.str_eqb deck (ad_deck card) then (deck, cards ++ [card]) :: rest
      else (deck, cards) :: group_append card rest
  end.

Definition cards_by_deck (added_cards : list added_card)
  : list (pystr * list added_card) :=
  fold_left (fun groups card => group_append card groups) added_cards [].

(** The lines of the response, one deck after the other. *)
Definition deck_lines (group : pystr * list added_card) : list pystr :=
  ([10; 128218] ++ Py.lit " Deck: " ++ fst group ++ Py.lit " ("
   ++ Py.str (PyMore.len_list (snd group)) ++ Py.lit " card(s))")
  :: map (fun card => Py.lit "   " ++ [8226; 32] ++ ad_front card) (snd group).

(** The text of the response for the cards that were added. *)
Definition response_text (added_cards : list added_card) : pystr :=
  Py.join [10]
    (([9989] ++ Py.lit " Successfully created "
      ++ Py.str (PyMore.len_list added_cards) ++ Py.lit " flashcard(s)!"
      ++ [10])
     :: flat_map deck_lines (cards_by_deck added_cards)).

Section Handlers.

Variable time_ms : nat -> Z.
Variable randint_0_999 : nat -> Z.

(** [self.generator.generate_flashcards(content, available_decks, context,
    max_cards)]: the call to the generation service. Its cards are taken
    as the dicts [add_notes_batch] takes, with tags that are strings. *)
Variable generate_flashcards :
  pystr -> list pystr -> pystr -> Z -> result (list note_dict).

(** The arguments of the call of [add_note] in the loop of
    [_handle_generate_flashcards]: the four keys are read with
    [card[...]]. *)
Definition card_args (card : note_dict)
  : result (pystr * pystr * pystr * option (list pystr)) :=
  match nd_front card with
  | None => Raised KeyError
  | Some front =>
      match nd_back card with
      | None => Raised KeyError
      | Some back =>
          match nd_deck_name card with
          | None => Raised KeyError
          | Some deck_name =>
              match nd_tags card with
              | None => Raised KeyError
              | Some tags => Return (front, back, deck_name, Some tags)
              end
          end
      end
  end.

(** The body of the [try] in that loop. *)
Definition add_card (card : note_dict) : M added_card :=
  args <- lift (card_args card) ;;
  let '(front, back, deck_name, tags) := args in
  note_id <- add_note time_ms randint_0_999 front back deck_name tags ;;
  ret (AddedCard note_id deck_name (front_preview front)).

(** The loop: a card whose [try] raises is skipped. *)
Fixpoint add_cards (added_cards : list added_card)
         (flashcards : list note_dict) : M (list added_card) :=
  match flashcards with
  | [] => ret added_cards
  | card :: rest =>
      fun w =>
        match add_card card w with
        | Ok a w' => add_cards (added_cards ++ [a]) rest w'
        | Raise _ w' => add_cards added_cards rest w'
        end
  end.

(** [_handle_generate_flashcards]: the text of the response. *)
Definition _handle_generate_flashcards (arguments : generate_arguments)
  : M pystr :=
  let context := match arg_context arguments with
                 | None => []
                 | Some c => c
                 end in
  let max_cards := match arg_max_cards arguments with
                   | None => 10
                   | Some n => n
                   end in
  match arg_content arguments with
  | None => raise ValueError
  | Some [] => raise ValueError
  | Some content =>
      available_decks <- get_decks ;;
      flashcards <- lift (generate_flashcards content available_decks
                                              context max_cards) ;;
      match flashcards with
      | [] =>
          ret (Py.lit "No flashcard-worthy content found in the provided text.")
      | _ =>
          added_cards <- add_cards [] flashcards ;;
          ret (response_text added_cards)
      end
  end.

(** [_handle_list_decks]: the text of the response. *)
Definition _handle_list_decks : M pystr :=
  decks <- get_decks ;;
  ret (Py.lit "Available Anki decks (" ++ Py.str (PyMore.len_list decks)
       ++ Py.lit "):" ++ [10]
       ++ Py.join [10] (map (fun deck => Py.lit "  - " ++ deck) decks)).

(** [_handle_create_deck]: the text of the response. *)
Definition _handle_create_deck (deck_name : option pystr) : M pystr :=
  match deck_name with
  | None => raise ValueError
  | Some [] => raise ValueError
  | Some name =>
      deck_id <- create_deck time_ms name ;;
      ret ([9989] ++ Py.lit " Created deck '" ++ name ++ Py.lit "' (ID: "
           ++ Py.str deck_id ++ Py.lit ")")
  end.

End Handlers.

(* ================================================================== *)
(** * Vocabulary of the further properties *)
(* ================================================================== *)

(** [s.encode()] does not raise. *)
Definition encodable (s : pystr) : Prop := exists bs, Py.encode s = Some bs.

Definition is_byte (b : Z) : Prop := 0 <= b < 256.

Definition is_ascii (c : Z) : Prop := 0 <= c < 128.

(** A lower-case hexadecimal digit. *)
Definition is_hex_char (c : Z) : Prop := 48 <= c <= 57 \/ 97 <= c <= 102.

(** The ids of the decks of a document, as [create_deck] reads them. *)
Definition deck_ids (items : pydict) : list Z :=
  map (fun e => deck_id (snd e)) items.

(** The names a document gives its decks. *)
Definition names_of (items : pydict) : list (option pystr) :=
  map (fun e => deck_name (snd e)) items.

(** The primary key of [notes], the unique [guid], and the primary key of
    [cards] hold in a database. *)
Definition keys_unique (db : database) : Prop :=
  NoDup (map note_id (notes db))
  /\ NoDup (map guid (notes db))
  /\ NoDup (map card_id (cards db)).

(** Every card of a world refers to a note of table [notes] and to a deck
    of the deck document. *)
Definition cards_linked (w : world) : Prop :=
  exists db items,
    disk w = Tables db /\ deck_document w = Some items
    /\ Forall (fun c => In (nid c) (map note_id (notes db))
                        /\ exists e, In e items
                                     /\ Py.int (fst e) = Some (did c))
              (cards db).

(* ================================================================== *)
(** * Sample data for the further properties *)
(* ================================================================== *)

Module Sample.

(** A text written with apostrophes for the double quotes of JSON. *)
Definition quoted (s : string) : pystr :=
  map (fun c => if c =? 39 then 34 else c) (Py.lit s).

Definition two_elements : pystr := quoted "[{'front': 'q', 'back': 'a'}, 1]".

(** A decoder that knows two texts. *)
Definition loads (text : pystr) : result jvalue :=
  if Py.str_eqb text two_elements then
    Return (JList [JDict [(Py.lit "front", JStr (Py.lit "q"));
                          (Py.lit "back", JStr (Py.lit "a"))];
                   JInt 1])
  else if Py.str_eqb text (Py.lit "[]") then Return (JList [])
  else Raised JSONDecodeError.

Definition repr (v : jvalue) : pystr :=
  match v with
  | JInt n => Py.str n
  | _ => Py.lit "?"
  end.

Definition settings : config :=
  Config (Py.lit "key") 3000 true (Py.lit "/syncserver")
         (Py.lit "bob:pa:ss") [] [] [] [].


Definition full_card (front deck : string) : note_dict :=
  NoteDict (Some (Py.lit front)) (Some (Py.lit "back")) (Some (Py.lit deck))
           (Some []).

Definition one_card : list note_dict := [full_card "one" "Default"].

(** A generator that answers one card whatever it is asked. *)
Definition generator (content : pystr) (decks : list pystr) (context : pystr)
           (max_cards : Z) : result (list note_dict) :=
  Return one_card.


(** The tables of the new file, and of the file after deck Math is
    created. *)
Definition fresh_db : database :=
  Eval vm_compute in
    match disk Demo.fresh with Tables db => db | _ => Database [] [] [] end.

Definition math_db : database :=
  Eval vm_compute in
    match disk Demo.with_math with
    | Tables db => db
    | _ => Database [] [] []
    end.

Definition surrogate : pystr := [55296].

Definition fenced : pystr :=
  [32] ++ Py.lit "```" ++ Py.lit "json" ++ [10] ++ two_elements ++ [10]
  ++ Py.lit "```" ++ [10].

Definition one_line : pystr := Py.lit "```[]```".

Definition three_added : list added_card :=
  [AddedCard 1 (Py.lit "A") (Py.lit "x"); AddedCard 2 (Py.lit "B") (Py.lit "y");
   AddedCard 3 (Py.lit "A") (Py.lit "z")].

End Sample.

(* ================================================================== *)
(** * Facts about the Python builtins *)
(* ================================================================== *)

Section PyFacts.

Lemma str_eqb_eq (a b : pystr) : Py.str_eqb a b = true <-> a = b.
Proof.
  revert b; induction a as [|x a IH]; intros [|y b]; simpl;
    try (split; [discriminate | congruence]); try tauto.
  rewrite andb_true_iff, Z.eqb_eq, IH.
  split; [intros [-> ->]; reflexivity | intros H; inversion H; auto].
Qed.

Lemma str_eqb_refl (a : pystr) : Py.str_eqb a a = true.
Proof. apply str_eqb_eq; reflexivity. Qed.

Lemma str_eqb_neq (a b : pystr) : Py.str_eqb a b = false <-> a <> b.
Proof.
  rewrite <- str_eqb_eq. destruct (Py.str_eqb a b); split; congruence.
Qed.

(** ** [str(n)]: shape of the digits *)

Lemma rev_digits_digit fuel n :
  0 <= n -> Forall is_digit (Py.rev_digits fuel n).
Proof.
  revert n; induction fuel as [|f IH]; intros n Hn; simpl; [constructor|].
  constructor.
  - unfold is_digit. apply Z.mod_pos_bound; lia.
  - destruct (n <? 10); [constructor|].
    apply IH. apply Z.div_pos; lia.
Qed.

Lemma rev_digits_val fuel n :
  0 <= n < 2 ^ Z.of_nat fuel -> le_val (Py.rev_digits fuel n) = n.
Proof.
  revert n; induction fuel as [|f IH]; intros n Hn.
  - simpl in *. lia.
  - cbn [Py.rev_digits].
    destruct (Z.ltb_spec n 10) as [Hlt|Hge]; cbn [le_val].
    + rewrite Z.mod_small by lia. lia.
    + rewrite IH.
      * pose proof (Z.div_mod n 10). lia.
      * rewrite Nat2Z.inj_succ, Z.pow_succ_r in Hn by lia.
        split; [apply Z.div_pos; lia|].
        apply Z.div_lt_upper_bound; lia.
Qed.

Lemma rev_digits_nonempty fuel n : Py.rev_digits (S fuel) n <> [].
Proof. simpl. discriminate. Qed.

Lemma log2_fuel n : 0 <= n -> 0 <= n < 2 ^ Z.of_nat (S (Z.to_nat (Z.log2 n))).
Proof.
  intros Hn. split; [assumption|].
  rewrite Nat2Z.inj_succ, Z2Nat.id by apply Z.log2_nonneg.
  destruct (Z.eq_dec n 0) as [->|Hz]; [reflexivity|].
  apply Z.log2_spec. lia.
Qed.

(** ** [int(s)] on a string of digits *)

Lemma digit_of_10 d : is_digit d -> Py.digit_of 10 (Py.digit_char d) = Some d.
Proof.
  unfold is_digit, Py.digit_of, Py.digit_char. intros H.
  replace ((48 <=? 48 + d) && (48 + d <=? 57)) with true
    by (symmetry; apply andb_true_iff; split; apply Z.leb_le; lia).
  replace (48 + d - 48) with d by lia.
  destruct (Z.ltb_spec d 10); [reflexivity | lia].
Qed.

Lemma digits_val_10 ds acc :
  Forall is_digit ds ->
  Py.digits_val 10 acc false (map Py.digit_char ds)
  = Some (fold_left (fun a d => a * 10 + d) ds acc).
Proof.
  intros H; revert acc; induction H as [|d ds Hd _ IH]; intros acc; simpl.
  - reflexivity.
  - replace (Py.digit_char d =? 95) with false
      by (symmetry; apply Z.eqb_neq; unfold Py.digit_char, is_digit in *; lia).
    rewrite digit_of_10 by assumption. apply IH.
Qed.

Lemma fold_left_rev_le_val ds :
  fold_left (fun a d => a * 10 + d) (rev ds) 0 = le_val ds.
Proof.
  induction ds as [|d r IH]; [reflexivity|].
  cbn [rev le_val]. rewrite fold_left_app. cbn [fold_left].
  rewrite IH. lia.
Qed.

(** ** [strip] leaves a string without white space alone *)

Lemma lstrip_head c r : Py.isspace c = false -> Py.lstrip (c :: r) = c :: r.
Proof. intros H; simpl; rewrite H; reflexivity. Qed.

Lemma lstrip_nospace s :
  Forall (fun c => Py.isspace c = false) s -> Py.lstrip s = s.
Proof. intros [|c r H _]; [reflexivity | apply lstrip_head; assumption]. Qed.

Lemma strip_nospace s :
  Forall (fun c => Py.isspace c = false) s -> Py.strip s = s.
Proof.
  intros H. unfold Py.strip.
  rewrite (lstrip_nospace s H), lstrip_nospace, rev_involutive; [reflexivity|].
  apply Forall_rev; assumption.
Qed.

Lemma isspace_above c : 33 <= c < 133 -> Py.isspace c = false.
Proof.
  intros H. unfold Py.isspace.
  repeat match goal with
         | |- context [?a <=? ?b] =>
             destruct (Z.leb_spec a b); try lia
         | |- context [?a =? ?b] =>
             destruct (Z.eqb_spec a b); try lia
         end; reflexivity.
Qed.

Lemma nat_digits_shape n :
  0 <= n ->
  exists ds, ds <> [] /\ Forall is_digit ds
             /\ Py.nat_digits n = map Py.digit_char ds
             /\ fold_left (fun a d => a * 10 + d) ds 0 = n.
Proof.
  intros Hn. unfold Py.nat_digits.
  set (fuel := Z.to_nat (Z.log2 n)).
  exists (rev (Py.rev_digits (S fuel) n)). repeat split.
  - intros E. apply (f_equal (@rev Z)) in E. rewrite rev_involutive in E.
    exact (rev_digits_nonempty _ _ E).
  - apply Forall_rev, rev_digits_digit; assumption.
  - rewrite fold_left_rev_le_val. apply rev_digits_val, log2_fuel; assumption.
Qed.

Lemma digit_chars_nospace ds :
  Forall is_digit ds ->
  Forall (fun c => Py.isspace c = false) (map Py.digit_char ds).
Proof.
  intros H. apply Forall_map. eapply Forall_impl; [|exact H].
  intros d Hd. apply isspace_above. unfold Py.digit_char, is_digit in *; lia.
Qed.

Lemma unsigned_val_digits ds :
  ds <> [] -> Forall is_digit ds ->
  Py.unsigned_val 10 (map Py.digit_char ds)
  = Some (fold_left (fun a d => a * 10 + d) ds 0).
Proof.
  intros Hne H. unfold Py.unsigned_val.
  assert (Hskip : Py.skip_prefix 10 (map Py.digit_char ds)
                  = map Py.digit_char ds).
  { unfold Py.skip_prefix. destruct (map Py.digit_char ds) as [|z [|x r]];
      try reflexivity.
    change (10 =? 16) with false. rewrite andb_false_r. reflexivity. }
  rewrite Hskip. rewrite <- digits_val_10 by assumption.
  destruct ds as [|d ds]; [congruence|]. cbn [map].
  inversion H; subst.
  replace (Py.digit_char d =? 95) with false
    by (symmetry; apply Z.eqb_neq; unfold Py.digit_char, is_digit in *; lia).
  reflexivity.
Qed.

(** [int(str(n)) == n]. *)
Lemma int_str (n : Z) : Py.int (Py.str n) = Some n.
Proof.
  unfold Py.int, Py.int_base, Py.str.
  destruct (Z.ltb_spec n 0) as [Hneg|Hpos].
  - destruct (nat_digits_shape (- n)) as (ds & Hne & Hd & -> & Hv); [lia|].
    rewrite strip_nospace.
    + change (45 =? 45) with true. cbv iota.
      rewrite unsigned_val_digits by assumption. simpl. f_equal. lia.
    + constructor; [reflexivity | apply digit_chars_nospace; assumption].
  - destruct (nat_digits_shape n) as (ds & Hne & Hd & -> & Hv); [lia|].
    rewrite strip_nospace by (apply digit_chars_nospace; assumption).
    rewrite <- Hv. rewrite <- unsigned_val_digits by assumption.
    destruct ds as [|d ds]; [congruence|]. cbn [map].
    inversion Hd; subst.
    replace (Py.digit_char d =? 45) with false
      by (symmetry; apply Z.eqb_neq; unfold Py.digit_char, is_digit in *; lia).
    replace (Py.digit_char d =? 43) with false
      by (symmetry; apply Z.eqb_neq; unfold Py.digit_char, is_digit in *; lia).
    reflexivity.
Qed.

End PyFacts.

(* ================================================================== *)
(** * Facts about the digests *)
(* ================================================================== *)

Section HashFacts.

Lemma digit_of_16 n : is_nibble n -> Py.digit_of 16 (Hashlib.hex_char n) = Some n.
Proof.
  unfold is_nibble, Py.digit_of, Hashlib.hex_char. intros H.
  destruct (Z.ltb_spec n 10).
  - replace ((48 <=? 48 + n) && (48 + n <=? 57)) with true by (zbool).
    replace (48 + n - 48) with n by lia. zbool.
  - replace ((48 <=? 87 + n) && (87 + n <=? 57)) with false by (zbool).
    replace ((97 <=? 87 + n) && (87 + n <=? 122)) with true by (zbool).
    replace (87 + n - 97 + 10) with n by lia. zbool.
Qed.

Lemma hex_char_range n :
  is_nibble n ->
  48 <= Hashlib.hex_char n <= 57 \/ 97 <= Hashlib.hex_char n <= 102.
Proof. unfold is_nibble, Hashlib.hex_char. intros H. zbool. Qed.

Lemma digits_val_16 ns acc :
  Forall is_nibble ns ->
  Py.digits_val 16 acc false (map Hashlib.hex_char ns)
  = Some (fold_left (fun a d => a * 16 + d) ns acc).
Proof.
  intros H; revert acc; induction H as [|n ns Hn _ IH]; intros acc;
    cbn [map Py.digits_val fold_left].
  - reflexivity.
  - pose proof (hex_char_range n Hn).
    replace (Hashlib.hex_char n =? 95) with false
      by (symmetry; apply Z.eqb_neq; lia).
    rewrite digit_of_16 by assumption. apply IH.
Qed.

(** [int(h, 16)] on a non-empty string of hexadecimal digits as
    [bytes.hex] writes them. *)
Lemma int_16_hex ns :
  ns <> [] -> Forall is_nibble ns ->
  Py.int_base 16 (map Hashlib.hex_char ns)
  = Some (fold_left (fun a d => a * 16 + d) ns 0).
Proof.
  intros Hne H. unfold Py.int_base.
  rewrite strip_nospace.
  2:{ apply Forall_map. eapply Forall_impl; [|exact H].
      intros n Hn. pose proof (hex_char_range n Hn).
      apply isspace_above; lia. }
  rewrite <- digits_val_16 by assumption.
  destruct ns as [|n ns]; [congruence|]. cbn [map].
  inversion H as [|? ? Hn Hns]; subst.
  pose proof (hex_char_range n Hn) as Rn.
  replace (Hashlib.hex_char n =? 45) with false
    by (symmetry; apply Z.eqb_neq; lia).
  replace (Hashlib.hex_char n =? 43) with false
    by (symmetry; apply Z.eqb_neq; lia).
  unfold Py.unsigned_val.
  assert (Hskip : Py.skip_prefix 16 (Hashlib.hex_char n :: map Hashlib.hex_char ns)
                  = Hashlib.hex_char n :: map Hashlib.hex_char ns).
  { destruct ns as [|m ns]; [reflexivity|]. cbn [map Py.skip_prefix].
    inversion Hns as [|? ? Hm _]; subst.
    pose proof (hex_char_range m Hm).
    replace (Hashlib.hex_char m =? 120) with false
      by (symmetry; apply Z.eqb_neq; lia).
    replace (Hashlib.hex_char m =? 88) with false
      by (symmetry; apply Z.eqb_neq; lia).
    cbn [orb]. rewrite andb_false_r. reflexivity. }
  rewrite Hskip.
  replace (Hashlib.hex_char n =? 95) with false
    by (symmetry; apply Z.eqb_neq; lia).
  reflexivity.
Qed.

(** The first eight hexadecimal digits of a digest spell its leading
    32-bit word. *)
Lemma int_16_leading_word (h : Z) (rest : pybytes) :
  Py.int_base 16 (Py.slice_to 8 (Hashlib.hex (Hashlib.be_bytes 4 h ++ rest)))
  = Some (h mod 4294967296).
Proof.
  unfold Py.slice_to. cbn [Hashlib.be_bytes app Hashlib.hex firstn].
  set (b3 := h mod 256). set (b2 := (h / 256) mod 256).
  set (b1 := (h / 256 / 256) mod 256).
  set (b0 := (h / 256 / 256 / 256) mod 256).
  change [Hashlib.hex_char (b0 / 16); Hashlib.hex_char (b0 mod 16);
          Hashlib.hex_char (b1 / 16); Hashlib.hex_char (b1 mod 16);
          Hashlib.hex_char (b2 / 16); Hashlib.hex_char (b2 mod 16);
          Hashlib.hex_char (b3 / 16); Hashlib.hex_char (b3 mod 16)]
    with (map Hashlib.hex_char
            [b0 / 16; b0 mod 16; b1 / 16; b1 mod 16;
             b2 / 16; b2 mod 16; b3 / 16; b3 mod 16]).
  assert (R0 : 0 <= b0 < 256) by (apply Z.mod_pos_bound; lia).
  assert (R1 : 0 <= b1 < 256) by (apply Z.mod_pos_bound; lia).
  assert (R2 : 0 <= b2 < 256) by (apply Z.mod_pos_bound; lia).
  assert (R3 : 0 <= b3 < 256) by (apply Z.mod_pos_bound; lia).
  rewrite int_16_hex; [|discriminate|].
  - f_equal. cbn [fold_left]. subst b0 b1 b2 b3.
    clear. Z.div_mod_to_equations. lia.
  - unfold is_nibble.
    repeat constructor; try (apply Z.mod_pos_bound; lia);
      try (apply Z.div_pos; lia); try (apply Z.div_lt_upper_bound; lia).
Qed.

Lemma w32_word x : is_word32 (Hashlib.w32 x).
Proof. apply Z.mod_pos_bound; lia. Qed.

Lemma sha1_block_h0 st blk :
  exists x, Hashlib.h0 (Hashlib.sha1_block st blk) = Hashlib.w32 x.
Proof. unfold Hashlib.sha1_block. eexists. reflexivity. Qed.

Lemma sha1_fold_h0 blks st :
  is_word32 (Hashlib.h0 st) ->
  is_word32 (Hashlib.h0 (fold_left Hashlib.sha1_block blks st)).
Proof.
  revert st; induction blks as [|blk blks IH]; intros st H;
    cbn [fold_left]; [assumption|].
  apply IH. destruct (sha1_block_h0 st blk) as [x ->]. apply w32_word.
Qed.

Lemma sha1_final_h0 msg : is_word32 (Hashlib.h0 (Hashlib.sha1_final msg)).
Proof. apply sha1_fold_h0. unfold is_word32. cbn. lia. Qed.

End HashFacts.

(* ================================================================== *)
(** * Sorting *)
(* ================================================================== *)

Section SortFacts.

Lemma str_leb_lex a b : Py.str_leb a b = true <-> lex_le a b.
Proof.
  revert b; induction a as [|x a IH]; intros b.
  - simpl. split; [intros _; constructor | reflexivity].
  - destruct b as [|y b]; simpl.
    + split; [discriminate | intros H; inversion H].
    + destruct (Z.ltb_spec x y) as [Hlt|Hge].
      * split; [intros _; constructor; assumption | reflexivity].
      * destruct (Z.ltb_spec y x) as [Hgt|Hle].
        -- split; [discriminate|]. intros H; inversion H; subst; lia.
        -- assert (x = y) by lia; subst y. rewrite IH.
           split; [intros H; constructor; assumption|].
           intros H; inversion H; subst; [lia | assumption].
Qed.

Lemma str_leb_total a b : Py.str_leb a b = false -> Py.str_leb b a = true.
Proof.
  revert b; induction a as [|x a IH]; intros [|y b]; simpl;
    try discriminate; try reflexivity.
  destruct (Z.ltb_spec x y); [discriminate|].
  destruct (Z.ltb_spec y x); [reflexivity|]. apply IH.
Qed.

Lemma insert_sorted_perm x l : Permutation (Py.insert_sorted x l) (x :: l).
Proof.
  induction l as [|y r IH]; simpl; [apply Permutation_refl|].
  destruct (Py.str_leb x y); [apply Permutation_refl|].
  eapply perm_trans; [apply perm_skip, IH | apply perm_swap].
Qed.

Lemma sorted_perm l : Permutation (Py.sorted l) l.
Proof.
  induction l as [|x r IH]; simpl; [constructor|].
  eapply perm_trans; [apply insert_sorted_perm | apply perm_skip, IH].
Qed.

Lemma insert_sorted_hd x y l :
  lex_le y x -> HdRel lex_le y l -> HdRel lex_le y (Py.insert_sorted x l).
Proof.
  intros Hyx H. destruct l as [|z r]; simpl; [constructor; assumption|].
  destruct (Py.str_leb x z); constructor; [assumption|].
  inversion H; assumption.
Qed.

Lemma insert_sorted_sorted x l :
  Sorted lex_le l -> Sorted lex_le (Py.insert_sorted x l).
Proof.
  induction 1 as [|y r Hs IH Hhd]; simpl; [repeat constructor|].
  destruct (Py.str_leb x y) eqn:E.
  - constructor; [constructor; assumption|].
    constructor. apply str_leb_lex; assumption.
  - constructor; [assumption|].
    apply insert_sorted_hd; [|assumption].
    apply str_leb_lex, str_leb_total; assumption.
Qed.

Lemma sorted_sorted l : Sorted lex_le (Py.sorted l).
Proof.
  induction l as [|x r IH]; simpl; [constructor|].
  apply insert_sorted_sorted; assumption.
Qed.

End SortFacts.

(* ================================================================== *)
(** * The sort field and its checksum *)
(* ================================================================== *)

Section ChecksumFacts.

Lemma sfld_of_firstn front : sfld_of front = firstn 64 front.
Proof.
  unfold sfld_of, Py.slice_to, Py.len.
  destruct (Z.gtb_spec (Z.of_nat (List.length front)) 64) as [Hgt|Hle];
    [reflexivity|].
  symmetry. apply firstn_all2. lia.
Qed.

Lemma sfld_of_length front : (List.length (sfld_of front) <= 64)%nat.
Proof. rewrite sfld_of_firstn. apply firstn_le_length. Qed.

(** The checksum is the leading 32-bit word of the SHA-1 state. *)
Lemma csum_of_leading_word s :
  csum_of s = match Py.encode s with
              | None => Raised UnicodeEncodeError
              | Some bs => Return (Hashlib.h0 (Hashlib.sha1_final bs))
              end.
Proof.
  unfold csum_of. destruct (Py.encode s) as [bs|]; [|reflexivity].
  unfold Hashlib.sha1_hexdigest, Hashlib.sha1_digest.
  rewrite int_16_leading_word.
  pose proof (sha1_final_h0 bs) as R. unfold is_word32 in R.
  rewrite Z.mod_small by exact R. reflexivity.
Qed.

Lemma csum_of_Return s n :
  csum_of s = Return n ->
  exists bs, Py.encode s = Some bs
             /\ Py.int_base 16 (Py.slice_to 8 (Hashlib.sha1_hexdigest bs)) = Some n
             /\ n = Hashlib.h0 (Hashlib.sha1_final bs)
             /\ 0 <= n < 4294967296.
Proof.
  intros H. pose proof H as H'. rewrite csum_of_leading_word in H'.
  unfold csum_of in H. destruct (Py.encode s) as [bs|]; [|discriminate].
  exists bs. inversion H'; subst n.
  destruct (Py.int_base 16 _) as [m|]; [|discriminate].
  inversion H; subst m.
  repeat split; try reflexivity; apply (sha1_final_h0 bs).
Qed.

End ChecksumFacts.

(* ================================================================== *)
(** * The deck registry: [create_deck] *)
(* ================================================================== *)

Section CreateDeckFacts.

Variable time_ms : nat -> Z.

(** [create_deck] on a file that holds the tables, branch by branch. *)
Lemma create_deck_tables name w db :
  disk w = Tables db ->
  create_deck time_ms name w =
  match find (fun r => col_id r =? 1) (col db) with
  | None => Raise TypeError w
  | Some row =>
      match decks row with
      | Malformed => Raise JSONDecodeError w
      | NotObject => Raise AttributeError w
      | Object items =>
          match find_deck name items with
          | Raised e => Raise e w
          | Return (Some i) => Ok i w
          | Return None =>
              match int_keys items with
              | Raised e => Raise e w
              | Return ids =>
                  match Py.max ids with
                  | None => Raise ValueError w
                  | Some m =>
                      Ok (m + 1)
                         (with_new_deck name (m + 1)
                            (time_ms (clock_reads w)) items db w)
                  end
              end
          end
      end
  end.
Proof.
  destruct w as [d c r]. cbn [disk]. intros ->.
  unfold create_deck, bind, lift, Sqlite.connect, Sqlite.select_decks_mod.
  cbn [disk Sqlite.view].
  destruct (find (fun r0 => col_id r0 =? 1) (col db)) as [row|];
    cbn [option_map fst]; [|reflexivity].
  destruct (decks row) as [| |items]; cbn [Json.loads]; try reflexivity.
  destruct (find_deck name items) as [[i|]|e]; try reflexivity.
  destruct (int_keys items) as [ids|e]; [|reflexivity].
  destruct (Py.max ids) as [m|]; reflexivity.
Qed.

(** [create_deck] on a file without the tables. *)
Lemma create_deck_no_tables name w :
  (forall db, disk w <> Tables db) ->
  exists e, create_deck time_ms name w = Raise e (World
    (match disk w with Missing => Blank | s => s end)
    (clock_reads w) (rand_draws w)).
Proof.
  destruct w as [[| | |db] c r]; cbn [disk clock_reads rand_draws]; intros H.
  - exists OperationalError. reflexivity.
  - exists OperationalError. reflexivity.
  - exists DatabaseError. reflexivity.
  - exfalso. apply (H db). reflexivity.
Qed.

(** The document a world holds, when it holds one. *)
Lemma create_deck_Ok_tables name w id w1 :
  create_deck time_ms name w = Ok id w1 -> exists db, disk w = Tables db.
Proof.
  intros H. destruct (disk w) as [| | |db] eqn:E; [| | |eauto];
    destruct (create_deck_no_tables name w) as [e He];
    try (intros db'; rewrite E; discriminate);
    rewrite He in H; discriminate.
Qed.

End CreateDeckFacts.

Section DeckDocumentFacts.

Lemma max_is_max l m : Py.max l = Some m -> is_max m l.
Proof.
  destruct l as [|x r]; [discriminate|]. cbn [Py.max]. intros H.
  inversion H as [Hm]; clear H.
  assert (G : forall r x, In (fold_left Z.max r x) (x :: r)
                          /\ Forall (fun i => i <= fold_left Z.max r x) (x :: r)).
  { clear. induction r as [|y r IH]; intros x; cbn [fold_left].
    - split; [left; reflexivity | repeat constructor; lia].
    - destruct (IH (Z.max x y)) as [Hin Hall]. split.
      + destruct Hin as [E|Hin]; [|right; right; assumption].
        rewrite <- E. destruct (Z.max_spec x y) as [[_ ->]|[_ ->]];
          [right; left | left]; reflexivity.
      + inversion Hall as [|? ? Hhd Htl]; subst.
        constructor; [lia|]. constructor; [lia | assumption]. }
  exact (G r x).
Qed.

Lemma find_deck_None name items :
  find_deck name items = Return None ->
  Forall (fun e => exists n, deck_name (snd e) = Some n /\ n <> name) items.
Proof.
  induction items as [|[k d] rest IH]; cbn [find_deck]; intros H;
    [constructor|].
  destruct (deck_name d) as [n|] eqn:En; [|discriminate].
  destruct (Py.str_eqb n name) eqn:E.
  - destruct (Py.int k); discriminate.
  - constructor; [|apply IH; assumption].
    exists n. split; [assumption | apply str_eqb_neq; assumption].
Qed.

Lemma find_deck_None_absent name items :
  find_deck name items = Return None -> name_absent name items.
Proof.
  intros H. eapply Forall_impl; [|apply find_deck_None; exact H].
  intros e (n & En & Hn). rewrite En. congruence.
Qed.

Lemma find_deck_Some name items i :
  find_deck name items = Return (Some i) ->
  exists key d, In (key, d) items /\ deck_name d = Some name
                /\ Py.int key = Some i.
Proof.
  induction items as [|[k d] rest IH]; cbn [find_deck]; intros H;
    [discriminate|].
  destruct (deck_name d) as [n|] eqn:En; [|discriminate].
  destruct (Py.str_eqb n name) eqn:E.
  - apply str_eqb_eq in E; subst n.
    destruct (Py.int k) as [j|] eqn:Ek; [|discriminate].
    inversion H; subst j. exists k, d. repeat split; auto. left; reflexivity.
  - destruct (IH H) as (key & d' & Hin & Hn & Hk).
    exists key, d'. repeat split; auto. right; assumption.
Qed.

(** On a well-formed document the search cannot raise, and finds a deck
    of that name when there is one. *)
Lemma find_deck_ok name items :
  Forall entry_ok items ->
  (name_absent name items /\ find_deck name items = Return None)
  \/ (exists key d, In (key, d) items /\ deck_name d = Some name
                    /\ find_deck name items = Return (Some (deck_id d))).
Proof.
  induction 1 as [|[k d] rest [Hk Hn] _ IH]; cbn [find_deck].
  - left. split; [constructor | reflexivity].
  - cbn [fst snd] in *. destruct (deck_name d) as [n|] eqn:En; [|congruence].
    destruct (Py.str_eqb n name) eqn:E.
    + right. apply str_eqb_eq in E; subst n. rewrite Hk.
      exists k, d. repeat split; auto. left; reflexivity.
    + apply str_eqb_neq in E. destruct IH as [[Ha Hf]|(key & d' & Hin & Hd & Hf)].
      * left. split; [|assumption]. constructor; [|assumption].
        cbn [snd]. rewrite En. congruence.
      * right. exists key, d'. repeat split; auto. right; assumption.
Qed.

Lemma find_deck_app_new name items key d i :
  find_deck name items = Return None ->
  deck_name d = Some name -> Py.int key = Some i ->
  find_deck name (items ++ [(key, d)]) = Return (Some i).
Proof.
  intros H Hd Hk. induction items as [|[k' d'] rest IH]; cbn [app find_deck].
  - rewrite Hd, str_eqb_refl, Hk. reflexivity.
  - cbn [find_deck] in H.
    destruct (deck_name d') as [n|]; [|discriminate].
    destruct (Py.str_eqb n name); [destruct (Py.int k'); discriminate|].
    apply IH; assumption.
Qed.

Lemma int_keys_Return items ids :
  int_keys items = Return ids ->
  Forall (fun e => exists i, In i ids /\ Py.int (fst e) = Some i) items.
Proof.
  revert ids; induction items as [|[k d] rest IH]; cbn [int_keys];
    intros ids H; [constructor|].
  destruct (Py.int k) as [i|] eqn:Ek; [|discriminate].
  destruct (int_keys rest) as [l|e]; [|discriminate].
  inversion H; subst ids. constructor.
  - exists i. split; [left; reflexivity | assumption].
  - eapply Forall_impl; [|apply IH; reflexivity].
    intros e (j & Hj & Hi). exists j. split; [right|]; assumption.
Qed.

Lemma int_keys_ok items :
  Forall entry_ok items ->
  int_keys items = Return (map (fun e => deck_id (snd e)) items).
Proof.
  induction 1 as [|[k d] rest [Hk _] _ IH]; cbn [int_keys map];
    [reflexivity|].
  cbn [fst snd] in *. rewrite Hk, IH. reflexivity.
Qed.

Lemma dict_set_fresh key value items :
  Forall (fun e => fst e <> key) items ->
  dict_set key value items = items ++ [(key, value)].
Proof.
  induction 1 as [|[k v] rest Hk _ IH]; cbn [dict_set app]; [reflexivity|].
  cbn [fst] in Hk. apply str_eqb_neq in Hk. rewrite Hk, IH. reflexivity.
Qed.

(** The key that [create_deck] makes up is not in the document. *)
Lemma new_key_fresh items ids m :
  int_keys items = Return ids -> Py.max ids = Some m ->
  Forall (fun e => fst e <> Py.str (m + 1)) items.
Proof.
  intros Hk Hm. apply max_is_max in Hm. destruct Hm as [_ Hall].
  eapply Forall_impl; [|apply int_keys_Return; exact Hk].
  intros e (i & Hin & Hi) E. rewrite E, int_str in Hi.
  inversion Hi; subst i.
  rewrite Forall_forall in Hall. specialize (Hall _ Hin). lia.
Qed.

Lemma find_update_where_id_1 f rows :
  (forall r, col_id (f r) = col_id r) ->
  find (fun r => col_id r =? 1) (Sqlite.update_where_id_1 f rows)
  = option_map f (find (fun r => col_id r =? 1) rows).
Proof.
  intros Hf. unfold Sqlite.update_where_id_1.
  induction rows as [|r rest IH]; cbn [map find]; [reflexivity|].
  destruct (col_id r =? 1) eqn:E.
  - rewrite Hf, E. reflexivity.
  - rewrite E. apply IH.
Qed.

Lemma update_where_id_1_length f rows :
  List.length (Sqlite.update_where_id_1 f rows) = List.length rows.
Proof. apply length_map. Qed.

Lemma deck_document_with_new_deck name new_id now items db w :
  disk w = Tables db -> deck_document w = Some items ->
  deck_document (with_new_deck name new_id now items db w)
  = Some (dict_set (Py.str new_id) (Deck new_id (Some name) now) items).
Proof.
  unfold deck_document, with_new_deck. intros -> H. cbn [disk col].
  rewrite find_update_where_id_1 by reflexivity.
  destruct (find (fun r => col_id r =? 1) (col db)) as [row|];
    [|discriminate].
  reflexivity.
Qed.

End DeckDocumentFacts.

Section CreateDeckOutcomes.

Variable time_ms : nat -> Z.

Lemma deck_document_tables w items :
  deck_document w = Some items ->
  exists db row, disk w = Tables db
                 /\ find (fun r => col_id r =? 1) (col db) = Some row
                 /\ decks row = Object items.
Proof.
  unfold deck_document. destruct (disk w) as [| | |db]; try discriminate.
  destruct (find _ (col db)) as [row|] eqn:Er; [|discriminate].
  destruct (decks row) as [| |its] eqn:E; try discriminate.
  intros H; inversion H; subst. exists db, row. auto.
Qed.

(** What a call that returns has done. *)
Lemma create_deck_Ok name w id w1 :
  create_deck time_ms name w = Ok id w1 ->
  exists db items,
    disk w = Tables db /\ deck_document w = Some items
    /\ ((find_deck name items = Return (Some id) /\ w1 = w)
        \/ (find_deck name items = Return None
            /\ exists ids m,
                int_keys items = Return ids /\ Py.max ids = Some m
                /\ id = m + 1
                /\ w1 = with_new_deck name (m + 1) (time_ms (clock_reads w))
                                      items db w)).
Proof.
  intros H. destruct (create_deck_Ok_tables _ _ _ _ _ H) as [db Hdb].
  rewrite (create_deck_tables _ _ _ _ Hdb) in H.
  unfold deck_document. rewrite Hdb.
  destruct (find _ (col db)) as [row|]; [|discriminate].
  destruct (decks row) as [| |items]; try discriminate.
  exists db, items. split; [reflexivity|]. split; [reflexivity|].
  destruct (find_deck name items) as [[i|]|e]; [| |discriminate].
  - left. inversion H; subst. split; reflexivity.
  - right. split; [reflexivity|].
    destruct (int_keys items) as [ids|e] eqn:Ek; [|discriminate].
    destruct (Py.max ids) as [m|] eqn:Em; [|discriminate].
    inversion H; subst. exists ids, m. repeat split; auto.
Qed.

(** A call that raises has written nothing. *)
Lemma create_deck_Raise name w e w1 :
  create_deck time_ms name w = Raise e w1 -> w1 = connected w.
Proof.
  intros H. destruct (disk w) as [| | |db] eqn:Hdb.
  1-3: destruct (create_deck_no_tables time_ms name w) as [e' He];
    [intros db'; rewrite Hdb; discriminate|];
    rewrite He in H; inversion H; unfold connected; reflexivity.
  rewrite (create_deck_tables _ _ _ _ Hdb) in H.
  assert (Hc : connected w = w)
    by (destruct w; unfold connected; cbn in *; rewrite Hdb; reflexivity).
  rewrite Hc.
  destruct (find _ (col db)) as [row|]; [|inversion H; reflexivity].
  destruct (decks row) as [| |items]; try (inversion H; reflexivity).
  destruct (find_deck name items) as [[i|]|e'];
    try (inversion H; reflexivity); try discriminate.
  destruct (int_keys items) as [ids|e']; [|inversion H; reflexivity].
  destruct (Py.max ids) as [m|]; [discriminate | inversion H; reflexivity].
Qed.

(** A second call finds what the first one returned and writes
    nothing. *)
Lemma create_deck_again name w id w1 :
  create_deck time_ms name w = Ok id w1 ->
  create_deck time_ms name w1 = Ok id w1.
Proof.
  intros H.
  destruct (create_deck_Ok _ _ _ _ H)
    as (db & items & Hdb & Hdoc & [[Hf ->]|(Hf & ids & m & Hk & Hm & -> & ->)]);
    [assumption|].
  pose proof (deck_document_with_new_deck name (m + 1)
                (time_ms (clock_reads w)) items db w Hdb Hdoc) as Hdoc1.
  rewrite (dict_set_fresh _ _ _ (new_key_fresh _ _ _ Hk Hm)) in Hdoc1.
  destruct (deck_document_tables _ _ Hdoc1) as (db1 & row1 & Hdb1 & Hrow1 & Hd1).
  rewrite (create_deck_tables _ _ _ _ Hdb1), Hrow1, Hd1.
  rewrite (find_deck_app_new name items _ _ (m + 1) Hf);
    [reflexivity | reflexivity | apply int_str].
Qed.

(** On a well-formed document the call returns. *)
Lemma create_deck_total name w items :
  deck_document w = Some items -> decks_ok items ->
  exists id w1, create_deck time_ms name w = Ok id w1.
Proof.
  intros Hdoc [Hne Hok].
  destruct (deck_document_tables _ _ Hdoc) as (db & row & Hdb & Hrow & Hd).
  rewrite (create_deck_tables _ _ _ _ Hdb), Hrow, Hd.
  destruct (find_deck_ok name items Hok) as [[_ ->]|(k & d & _ & _ & ->)];
    [|eauto].
  rewrite (int_keys_ok items Hok).
  destruct items as [|e rest]; [congruence|]. cbn [map Py.max]. eauto.
Qed.

End CreateDeckOutcomes.

(* ================================================================== *)
(** * The record writer: [add_note] *)
(* ================================================================== *)

Section AddNoteOutcomes.

Variable time_ms : nat -> Z.
Variable randint_0_999 : nat -> Z.

Lemma create_deck_Ok_disk name w id w1 :
  create_deck time_ms name w = Ok id w1 -> exists db1, disk w1 = Tables db1.
Proof.
  intros H.
  destruct (create_deck_Ok _ _ _ _ _ H)
    as (db & items & Hdb & _ & [[_ ->]|(_ & ids & m & _ & _ & _ & ->)]);
    [eauto|].
  unfold with_new_deck. cbn [disk]. eauto.
Qed.

(** What a call that returns has done: one deck resolution, then one
    transaction that appends a note and a card and stamps the
    collection row. *)
Lemma add_note_Ok front back dn tags w noteid w2 :
  add_note time_ms randint_0_999 front back dn tags w = Ok noteid w2 ->
  exists did w1 db1 g cs,
    create_deck time_ms dn w = Ok did w1
    /\ disk w1 = Tables db1
    /\ noteid = time_ms (clock_reads w1) + randint_0_999 (rand_draws w1)
    /\ guid_of noteid front back = Return g
    /\ csum_of (sfld_of front) = Return cs
    /\ w2 = World
              (Tables (Database
                 (Sqlite.update_where_id_1
                    (Sqlite.set_mod (time_ms (S (clock_reads w1)))) (col db1))
                 (notes db1 ++
                    [NoteRow noteid g 1 (time_ms (S (clock_reads w1))) 0
                             (tags_str tags) (front ++ [31] ++ back)
                             (sfld_of front) cs 0 []])
                 (cards db1 ++
                    [CardRow (noteid + 1) noteid did 0
                             (time_ms (S (clock_reads w1))) 0
                             0 0 0 0 0 0 0 0 0 0 0 []])))
              (S (S (clock_reads w1))) (S (rand_draws w1)).
Proof.
  unfold add_note, bind. intros H.
  destruct (create_deck time_ms dn w) as [did w1|e w1] eqn:Hc; [|discriminate].
  destruct (create_deck_Ok_disk _ _ _ _ Hc) as [db1 Hdb1].
  exists did, w1, db1.
  destruct w1 as [d c r]. cbn [disk clock_reads rand_draws] in *. subst d.
  unfold Sqlite.connect, now_ms, randint, lift in H.
  cbn [disk clock_reads rand_draws] in H.
  destruct (guid_of _ front back) as [g|e] eqn:Hg; [|discriminate].
  destruct (csum_of (sfld_of front)) as [cs|e] eqn:Hcs; [|discriminate].
  exists g, cs.
  unfold Sqlite.insert_note in H.
  cbn [Sqlite.view guid note_tags flds sfld notes note_id] in H.
  destruct (Sqlite.bind_text g); [|discriminate].
  destruct (Sqlite.bind_text (tags_str tags)); [|discriminate].
  destruct (Sqlite.bind_text (front ++ [31] ++ back)); [|discriminate].
  destruct (Sqlite.bind_text (sfld_of front)); [|discriminate].
  destruct (existsb _ (notes db1)); [discriminate|].
  unfold Sqlite.insert_card in H. cbn [Sqlite.view cards card_id] in H.
  destruct (existsb _ (cards db1)); [discriminate|].
  unfold Sqlite.update_col_mod, Sqlite.commit, ret in H.
  cbn [Sqlite.view col notes cards clock_reads rand_draws] in H.
  inversion H; subst. repeat split; try reflexivity; assumption.
Qed.

(** A call that raises after the deck was resolved leaves the file as
    deck resolution left it. *)
Lemma add_note_Raise front back dn tags w e w2 :
  add_note time_ms randint_0_999 front back dn tags w = Raise e w2 ->
  create_deck time_ms dn w = Raise e w2
  \/ exists did w1, create_deck time_ms dn w = Ok did w1
                    /\ disk w2 = disk w1.
Proof.
  unfold add_note, bind. intros H.
  destruct (create_deck time_ms dn w) as [did w1|e' w1] eqn:Hc;
    [right | left; assumption].
  destruct (create_deck_Ok_disk _ _ _ _ Hc) as [db1 Hdb1].
  exists did, w1. split; [reflexivity|].
  destruct w1 as [d c r]. cbn [disk clock_reads rand_draws] in *. subst d.
  unfold Sqlite.connect, now_ms, randint, lift in H.
  cbn [disk clock_reads rand_draws] in H.
  destruct (guid_of _ front back) as [g|e1]; [|inversion H; reflexivity].
  destruct (csum_of (sfld_of front)) as [cs|e1]; [|inversion H; reflexivity].
  unfold Sqlite.insert_note in H.
  cbn [Sqlite.view guid note_tags flds sfld notes note_id] in H.
  destruct (Sqlite.bind_text g); [|inversion H; reflexivity].
  destruct (Sqlite.bind_text (tags_str tags)); [|inversion H; reflexivity].
  destruct (Sqlite.bind_text (front ++ [31] ++ back));
    [|inversion H; reflexivity].
  destruct (Sqlite.bind_text (sfld_of front)); [|inversion H; reflexivity].
  destruct (existsb _ (notes db1)); [inversion H; reflexivity|].
  unfold Sqlite.insert_card in H. cbn [Sqlite.view cards card_id] in H.
  destruct (existsb _ (cards db1)); [inversion H; reflexivity|].
  discriminate.
Qed.

End AddNoteOutcomes.

(* ================================================================== *)
(** * Properties of [add_note] *)
(* ================================================================== *)

Section AddNoteProperties.

Variable time_ms : nat -> Z.
Variable randint_0_999 : nat -> Z.

Lemma join_space_flat_map t ts :
  Py.join [32] (t :: ts) ++ [32] = flat_map (fun x => x ++ [32]) (t :: ts).
Proof.
  revert t; induction ts as [|u ts IH]; intros t.
  - cbn [Py.join flat_map]. rewrite app_nil_r. reflexivity.
  - change (Py.join [32] (t :: u :: ts))
      with (t ++ [32] ++ Py.join [32] (u :: ts)).
    change (flat_map (fun x => x ++ [32]) (t :: u :: ts))
      with ((t ++ [32]) ++ flat_map (fun x => x ++ [32]) (u :: ts)).
    rewrite <- IH, <- !app_assoc. reflexivity.
Qed.

Lemma add_note_stores front back dn tags w noteid w2 :
  add_note time_ms randint_0_999 front back dn tags w = Ok noteid w2 ->
  exists n cs,
    stored_note w2 n /\ note_id n = noteid /\ sfld n = sfld_of front
    /\ csum n = cs /\ csum_of (sfld_of front) = Return cs
    /\ note_tags n = tags_str tags.
Proof.
  intros H.
  destruct (add_note_Ok _ _ _ _ _ _ _ _ _ H)
    as (did & w1 & db1 & g & cs & _ & _ & _ & _ & Hcs & ->).
  eexists; exists cs. split.
  - eexists. split; [reflexivity|]. cbn [notes].
    apply in_or_app. right. left. reflexivity.
  - repeat split; try reflexivity; assumption.
Qed.

(** C1. [add_note] stores as sort field the front cut to 64 characters, and
    as checksum the first 8 hexadecimal digits of the SHA-1 digest of
    its UTF-8 encoding read as an unsigned integer, a number below 2^32.
    The checksum depends on the front through its first 64 characters
    only: every front with the same first 64 characters gets the same
    checksum, from the expression and from any other call that
    returns. *)
Theorem add_note_checksum front back dn tags w noteid w2 :
  add_note time_ms randint_0_999 front back dn tags w = Ok noteid w2 ->
  exists n bs,
    stored_note w2 n /\ note_id n = noteid
    /\ sfld n = firstn 64 front
    /\ Py.encode (firstn 64 front) = Some bs
    /\ Py.int_base 16 (firstn 8 (Hashlib.sha1_hexdigest bs)) = Some (csum n)
    /\ 0 <= csum n < 2 ^ 32
    /\ (forall front',
           firstn 64 front' = firstn 64 front ->
           csum_of (sfld_of front') = Return (csum n))
    /\ (forall front' back' dn' tags' w' noteid' w2',
           add_note time_ms randint_0_999 front' back' dn' tags' w'
           = Ok noteid' w2' ->
           firstn 64 front' = firstn 64 front ->
           exists n', stored_note w2' n' /\ note_id n' = noteid'
                      /\ csum n' = csum n).
Proof.
  intros H.
  destruct (add_note_stores _ _ _ _ _ _ _ H)
    as (n & cs & Hst & Hid & Hsf & Hcs & Hcsum & _).
  destruct (csum_of_Return _ _ Hcsum) as (bs & Henc & Hint & _ & Hrange).
  rewrite sfld_of_firstn in Henc, Hsf.
  exists n, bs. subst cs.
  repeat split; try assumption; try lia.
  - intros front' E. rewrite <- Hcsum, !sfld_of_firstn, E. reflexivity.
  - intros front' back' dn' tags' w' noteid' w2' H' E.
    destruct (add_note_stores _ _ _ _ _ _ _ H')
      as (n' & cs' & Hst' & Hid' & _ & Hcs' & Hcsum' & _).
    exists n'. repeat split; try assumption.
    rewrite !sfld_of_firstn in *. rewrite E in Hcsum'.
    rewrite Hcsum in Hcsum'. inversion Hcsum'. congruence.
Qed.

(** C3. A call of [add_note] that returns has appended exactly one
    row to [notes] and exactly one row to [cards]; the card refers to
    the returned note id and to the id resolved for the deck name, its
    own id is the note id plus one, and its scheduling fields are all
    zero. *)
Theorem add_note_one_note_one_card front back dn tags w noteid w2 :
  add_note time_ms randint_0_999 front back dn tags w = Ok noteid w2 ->
  exists db db2 resolved w1 n c,
    disk w = Tables db /\ disk w2 = Tables db2
    /\ create_deck time_ms dn w = Ok resolved w1
    /\ notes db2 = notes db ++ [n] /\ cards db2 = cards db ++ [c]
    /\ note_id n = noteid
    /\ nid c = noteid /\ did c = resolved /\ card_id c = noteid + 1
    /\ type c = 0 /\ queue c = 0 /\ due c = 0 /\ ivl c = 0
    /\ factor c = 0 /\ reps c = 0 /\ lapses c = 0 /\ left c = 0
    /\ odue c = 0 /\ odid c = 0.
Proof.
  intros H.
  destruct (add_note_Ok _ _ _ _ _ _ _ _ _ H)
    as (resolved & w1 & db1 & g & cs & Hc & Hdb1 & _ & _ & _ & ->).
  destruct (create_deck_Ok _ _ _ _ _ Hc)
    as (db & items & Hdb & _ & Hcase).
  assert (Hsame : notes db1 = notes db /\ cards db1 = cards db).
  { destruct Hcase as [[_ ->]|(_ & ids & m & _ & _ & _ & ->)].
    - rewrite Hdb in Hdb1. inversion Hdb1. auto.
    - unfold with_new_deck in Hdb1. cbn [disk] in Hdb1.
      inversion Hdb1. auto. }
  destruct Hsame as [Hn Hk].
  exists db. eexists. exists resolved, w1. eexists. eexists.
  split; [assumption|]. split; [reflexivity|]. split; [assumption|].
  cbn [notes cards]. rewrite Hn, Hk.
  split; [reflexivity|]. split; [reflexivity|].
  repeat split; reflexivity.
Qed.

(** C7. [add_note] stores the tags as one string: a space, then every
    tag followed by one space; with no tag, or with [tags] omitted,
    exactly two spaces. *)
Theorem add_note_tags_string front back dn tags w noteid w2 :
  add_note time_ms randint_0_999 front back dn tags w = Ok noteid w2 ->
  exists n,
    stored_note w2 n /\ note_id n = noteid
    /\ (tags_or_empty tags = [] -> note_tags n = [32; 32])
    /\ (tags_or_empty tags <> [] ->
        note_tags n
        = [32] ++ flat_map (fun t => t ++ [32]) (tags_or_empty tags))
    /\ (tags = Some [Py.lit "algorithm"; Py.lit "complexity"] ->
        note_tags n = Py.lit " algorithm complexity ").
Proof.
  intros H.
  destruct (add_note_stores _ _ _ _ _ _ _ H)
    as (n & cs & Hst & Hid & _ & _ & _ & Ht).
  exists n. rewrite Ht. unfold tags_str.
  repeat split; try assumption.
  - intros ->. reflexivity.
  - intros Hne. destruct (tags_or_empty tags) as [|t ts]; [congruence|].
    rewrite join_space_flat_map. reflexivity.
  - intros ->. reflexivity.
Qed.

(** C8. Once the deck is resolved, [add_note] either returns, and then
    the note row, the card row and the new modification time of the
    collection row are all in the file, or raises, and then the file
    is exactly as deck resolution left it. *)
Theorem add_note_all_or_nothing front back dn tags w resolved w1 :
  create_deck time_ms dn w = Ok resolved w1 ->
  (exists noteid w2 db1 db2 n c,
      add_note time_ms randint_0_999 front back dn tags w = Ok noteid w2
      /\ disk w1 = Tables db1 /\ disk w2 = Tables db2
      /\ notes db2 = notes db1 ++ [n] /\ note_id n = noteid
      /\ cards db2 = cards db1 ++ [c] /\ nid c = noteid
      /\ col db2 = Sqlite.update_where_id_1
                     (Sqlite.set_mod (note_mod n)) (col db1)
      /\ note_mod n = time_ms (S (clock_reads w1)))
  \/ (exists e w2,
         add_note time_ms randint_0_999 front back dn tags w = Raise e w2
         /\ disk w2 = disk w1).
Proof.
  intros Hc.
  destruct (add_note time_ms randint_0_999 front back dn tags w)
    as [noteid w2|e w2] eqn:H.
  - left.
    destruct (add_note_Ok _ _ _ _ _ _ _ _ _ H)
      as (did' & w1' & db1 & g & cs & Hc' & Hdb1 & _ & _ & _ & ->).
    rewrite Hc in Hc'. inversion Hc'; subst did' w1'.
    exists noteid. eexists. exists db1. eexists. eexists. eexists.
    split; [reflexivity|]. split; [assumption|].
    repeat split; reflexivity.
  - right. exists e, w2. split; [reflexivity|].
    destruct (add_note_Raise _ _ _ _ _ _ _ _ _ H) as [Hr|(d' & w1' & Hc' & Hd)].
    + rewrite Hc in Hr. discriminate.
    + rewrite Hc in Hc'. inversion Hc'; subst. assumption.
Qed.

(** C10. Leaving [tags] out is the same as giving the empty list: the
    two calls have the same outcome (same return value, same file), and
    the stored tags string is two spaces. *)
Theorem add_note_tags_omitted front back dn w :
  add_note time_ms randint_0_999 front back dn None w
  = add_note time_ms randint_0_999 front back dn (Some []) w
  /\ forall noteid w2,
      add_note time_ms randint_0_999 front back dn None w = Ok noteid w2 ->
      exists n, stored_note w2 n /\ note_id n = noteid
                /\ note_tags n = [32; 32].
Proof.
  split; [reflexivity|].
  intros noteid w2 H.
  destruct (add_note_stores _ _ _ _ _ _ _ H)
    as (n & cs & Hst & Hid & _ & _ & _ & Ht).
  exists n. repeat split; assumption.
Qed.

End AddNoteProperties.

(* ================================================================== *)
(** * Properties of [create_deck] *)
(* ================================================================== *)

Section CreateDeckProperties.

Variable time_ms : nat -> Z.

Lemma absent_not_present name items :
  name_absent name items -> name_present name items -> False.
Proof.
  intros Ha (e & Hin & Hn). unfold name_absent in Ha.
  rewrite Forall_forall in Ha. exact (Ha e Hin Hn).
Qed.

(** C2. Whenever [create_deck] returns, a second call for the same name
    returns the same id and writes nothing, and the document has gained at
    most one entry; when a deck of exactly that name was already in the
    document, the first call too has written nothing, and the id is that
    of such a deck. On a well-formed document [create_deck] does return,
    and for a name already there the id is that deck's [id] field. *)
Theorem create_deck_twice name w :
  (forall id w1,
      create_deck time_ms name w = Ok id w1 ->
      create_deck time_ms name w1 = Ok id w1
      /\ exists items items1,
          deck_document w = Some items
          /\ deck_document w1 = Some items1
          /\ (items1 = items \/ exists e, items1 = items ++ [e])
          /\ (name_present name items ->
              w1 = w
              /\ exists e, In e items /\ deck_name (snd e) = Some name
                           /\ Py.int (fst e) = Some id))
  /\ (forall items,
         deck_document w = Some items -> decks_ok items ->
         exists id w1,
           create_deck time_ms name w = Ok id w1
           /\ (name_present name items ->
               exists e, In e items /\ deck_name (snd e) = Some name
                         /\ deck_id (snd e) = id)).
Proof.
  split.
  - intros id w1 H. split; [apply (create_deck_again _ _ _ _ _ H)|].
    destruct (create_deck_Ok _ _ _ _ _ H)
      as (db & items & Hdb & Hdoc & Hcase).
    exists items.
    destruct Hcase as [[Hf ->]|(Hf & ids & m & Hk & Hm & -> & ->)].
    + exists items. split; [assumption|]. split; [assumption|].
      split; [left; reflexivity|]. intros _. split; [reflexivity|].
      destruct (find_deck_Some _ _ _ Hf) as (k & d & Hin & Hn & Hi).
      exists (k, d). auto.
    + eexists. split; [assumption|]. split.
      * rewrite (deck_document_with_new_deck _ _ _ _ _ _ Hdb Hdoc).
        rewrite (dict_set_fresh _ _ _ (new_key_fresh _ _ _ Hk Hm)).
        reflexivity.
      * split; [right; eexists; reflexivity|].
        intros Hp. exfalso. eapply absent_not_present;
          [apply find_deck_None_absent; exact Hf | exact Hp].
  - intros items Hdoc Hok.
    destruct (create_deck_total time_ms name w items Hdoc Hok)
      as (id & w1 & H).
    exists id, w1. split; [exact H|]. intros Hp.
    destruct (create_deck_Ok _ _ _ _ _ H)
      as (db & items' & Hdb & Hdoc' & Hcase).
    rewrite Hdoc in Hdoc'. inversion Hdoc'; subst items'; clear Hdoc'.
    destruct Hok as [Hne Hall].
    destruct Hcase as [[Hf _]|(Hf & _)].
    + destruct (find_deck_ok name items Hall)
        as [[_ Hf']|(k & d & Hin & Hn & Hf')];
        rewrite Hf in Hf'; [discriminate|].
      inversion Hf'; subst id. exists (k, d). auto.
    + exfalso. eapply absent_not_present;
        [apply find_deck_None_absent; exact Hf | exact Hp].
Qed.

(** C5. When [create_deck] returns for a name that no deck of the
    document bears, the id is the greatest of the document's ids (its
    keys read as integers) plus one, and the deck is appended under that
    id; on a well-formed document the call returns, and the ids are the
    [id] fields; on a newly initialised file, whose only deck is Default
    with id 1, [create_deck] of Spanish returns 2. *)
Theorem create_deck_new_id :
  (forall name w items id w1,
      deck_document w = Some items -> name_absent name items ->
      create_deck time_ms name w = Ok id w1 ->
      exists ids m,
        int_keys items = Return ids /\ is_max m ids /\ id = m + 1
        /\ deck_document w1
           = Some (items ++ [(Py.str id,
                              Deck id (Some name)
                                   (time_ms (clock_reads w)))]))
  /\ (forall name w items,
         deck_document w = Some items -> decks_ok items ->
         name_absent name items ->
         exists m w1,
           is_max m (map (fun e => deck_id (snd e)) items)
           /\ create_deck time_ms name w = Ok (m + 1) w1)
  /\ (forall w0,
         disk w0 = Missing ->
         exists w1 w2,
           init time_ms w0 = Ok tt w1
           /\ deck_document w1
              = Some [(Py.lit "1",
                       Deck 1 (Some (Py.lit "Default"))
                            (time_ms (clock_reads w0)))]
           /\ create_deck time_ms (Py.lit "Spanish") w1 = Ok 2 w2).
Proof.
  assert (General : forall name w items id w1,
      deck_document w = Some items -> name_absent name items ->
      create_deck time_ms name w = Ok id w1 ->
      exists ids m,
        int_keys items = Return ids /\ is_max m ids /\ id = m + 1
        /\ deck_document w1
           = Some (items ++ [(Py.str id,
                              Deck id (Some name)
                                   (time_ms (clock_reads w)))])).
  { intros name w items id w1 Hdoc Habs H.
    destruct (create_deck_Ok _ _ _ _ _ H)
      as (db & items' & Hdb & Hdoc' & Hcase).
    rewrite Hdoc in Hdoc'. inversion Hdoc'; subst items'; clear Hdoc'.
    destruct Hcase as [[Hf ->]|(Hf & ids & m & Hk & Hm & -> & ->)].
    - exfalso. destruct (find_deck_Some _ _ _ Hf) as (k & d & Hin & Hn & _).
      eapply absent_not_present; [exact Habs|]. exists (k, d). auto.
    - exists ids, m. split; [assumption|].
      split; [apply max_is_max; assumption|]. split; [reflexivity|].
      rewrite (deck_document_with_new_deck _ _ _ _ _ _ Hdb Hdoc).
      rewrite (dict_set_fresh _ _ _ (new_key_fresh _ _ _ Hk Hm)).
      reflexivity. }
  split; [exact General|]. split.
  - intros name w items Hdoc Hok Habs.
    destruct (create_deck_total time_ms name w items Hdoc Hok)
      as (id & w1 & H).
    destruct (General name w items id w1 Hdoc Habs H)
      as (ids & m & Hk & Hm & -> & _).
    destruct Hok as [_ Hall].
    rewrite (int_keys_ok items Hall) in Hk. inversion Hk; subst ids.
    exists m, w1. split; assumption.
  - intros [d c r]. cbn [disk]. intros ->.
    exists (world_of (init time_ms (World Missing c r))).
    exists (world_of (create_deck time_ms (Py.lit "Spanish")
                        (world_of (init time_ms (World Missing c r))))).
    split; [reflexivity|]. split; vm_compute; reflexivity.
Qed.

End CreateDeckProperties.

(* ================================================================== *)
(** * Properties of [get_decks] *)
(* ================================================================== *)

Section GetDecksProperties.

Lemma deck_names_Return items ns :
  deck_names items = Return ns <->
  map (fun e => deck_name (snd e)) items = map Some ns.
Proof.
  revert ns; induction items as [|[k d] rest IH]; intros ns;
    cbn [deck_names map snd].
  - destruct ns; cbn [map]; split; intros H; try discriminate;
      try reflexivity; inversion H.
  - destruct (deck_name d) as [n|].
    + destruct (deck_names rest) as [l|e].
      * split; intros H.
        -- inversion H; subst ns. cbn [map]. f_equal.
           apply IH. reflexivity.
        -- destruct ns as [|n' ns']; [discriminate|]. cbn [map] in H.
           inversion H; subst n'.
           assert (E : Return l = Return ns') by (apply <- IH; assumption).
           inversion E; reflexivity.
      * split; intros H; [discriminate|].
        destruct ns as [|n' ns']; [discriminate|]. cbn [map] in H.
        inversion H.
        assert (E : @Raised (list pystr) e = Return ns')
          by (apply <- IH; assumption).
        discriminate.
    + split; intros H; [discriminate|].
      destruct ns; discriminate.
Qed.

Lemma deck_names_Raised items e :
  deck_names items = Raised e ->
  exists entry, In entry items /\ deck_name (snd entry) = None.
Proof.
  induction items as [|[k d] rest IH]; cbn [deck_names]; [discriminate|].
  destruct (deck_name d) as [n|] eqn:En.
  - destruct (deck_names rest) as [l|e']; [discriminate|].
    intros H. destruct (IH H) as (x & Hin & Hx).
    exists x. split; [right|]; assumption.
  - intros _. exists (k, d). split; [left; reflexivity | assumption].
Qed.

Lemma deck_names_nameless items entry :
  In entry items -> deck_name (snd entry) = None ->
  deck_names items = Raised KeyError.
Proof.
  induction items as [|[k d] rest IH]; cbn [deck_names]; [contradiction|].
  intros [<-|Hin] Hn.
  - cbn [snd] in Hn. rewrite Hn. reflexivity.
  - destruct (deck_name d); [|reflexivity].
    rewrite (IH Hin Hn). reflexivity.
Qed.

(** The body of the [try], branch by branch. *)
Lemma get_decks_try_eq w :
  get_decks_try w =
  match disk w with
  | Tables db =>
      match find (fun r => col_id r =? 1) (col db) with
      | None => Ok [Py.lit "Default"] w
      | Some row =>
          match decks row with
          | Malformed => Raise JSONDecodeError w
          | NotObject => Raise AttributeError w
          | Object items =>
              match deck_names items with
              | Return ns => Ok (Py.sorted ns) w
              | Raised e => Raise e w
              end
          end
      end
  | Damaged => Raise DatabaseError w
  | _ => Raise OperationalError (connected w)
  end.
Proof.
  destruct w as [d c r]. unfold get_decks_try, bind, lift, connected,
    Sqlite.connect, Sqlite.select_decks.
  cbn [disk clock_reads rand_draws].
  destruct d as [| | |db]; cbn [Sqlite.view]; try reflexivity.
  destruct (find _ (col db)) as [row|]; cbn [option_map]; [|reflexivity].
  destruct (decks row) as [| |items]; cbn [Json.loads]; try reflexivity.
  destruct (deck_names items); reflexivity.
Qed.

(** C6. [get_decks] never raises. When the deck document can be read
    and every deck in it has a name, the answer is those names in
    lexicographic order; when the file cannot be read, the collection
    row is absent, the document does not decode to a dict, or a deck
    has no name, the answer is the single name Default. *)
Theorem get_decks_lenient w :
  exists names,
    get_decks w = Ok names (connected w)
    /\ (forall items ns,
           deck_document w = Some items ->
           map (fun e => deck_name (snd e)) items = map Some ns ->
           Sorted lex_le names /\ Permutation names ns)
    /\ (deck_document w = None -> names = [Py.lit "Default"])
    /\ (forall items entry,
           deck_document w = Some items -> In entry items ->
           deck_name (snd entry) = None -> names = [Py.lit "Default"])
    /\ (forall e w', get_decks_try w = Raise e w' ->
                     names = [Py.lit "Default"]).
Proof.
  unfold get_decks, deck_document. rewrite get_decks_try_eq.
  destruct w as [d c r]. unfold connected. cbn [disk clock_reads rand_draws].
  destruct d as [| | |db].
  1-3: exists [Py.lit "Default"]; split; [reflexivity|];
    repeat split; try reflexivity; try discriminate.
  destruct (find _ (col db)) as [row|].
  2:{ exists [Py.lit "Default"]. split; [reflexivity|].
      repeat split; try reflexivity; try discriminate. }
  destruct (decks row) as [| |items].
  1-2: exists [Py.lit "Default"]; split; [reflexivity|];
    repeat split; try reflexivity; try discriminate.
  destruct (deck_names items) as [ns|e] eqn:E.
  - exists (Py.sorted ns). split; [reflexivity|].
    split; [|split; [discriminate|split]].
    + intros items' ns' Hi Hm. inversion Hi; subst items'.
      apply deck_names_Return in Hm. rewrite E in Hm.
      inversion Hm; subst ns'.
      split; [apply sorted_sorted | apply sorted_perm].
    + intros items' entry Hi Hin Hn. inversion Hi; subst items'.
      rewrite (deck_names_nameless _ _ Hin Hn) in E. discriminate.
    + intros e w' H. discriminate.
  - exists [Py.lit "Default"]. split; [reflexivity|].
    split; [|split; [discriminate|split; reflexivity]].
    intros items' ns' Hi Hm. inversion Hi; subst items'.
    apply deck_names_Return in Hm. rewrite E in Hm. discriminate.
Qed.

End GetDecksProperties.

(* ================================================================== *)
(** * Properties of [add_notes_batch] *)
(* ================================================================== *)

Section BatchProperties.

Variable time_ms : nat -> Z.
Variable randint_0_999 : nat -> Z.


Lemma add_notes_loop_cons acc r rest w :
  add_notes_loop time_ms randint_0_999 acc (r :: rest) w =
  match note_args r with
  | Raised e => Raise e w
  | Return (front, back, dn, tags) =>
      match add_note time_ms randint_0_999 front back dn tags w with
      | Ok id w1 =>
          add_notes_loop time_ms randint_0_999 (acc ++ [id]) rest w1
      | Raise e w1 => Raise e w1
      end
  end.
Proof.
  cbn [add_notes_loop]. unfold bind at 1. unfold lift.
  destruct (note_args r) as [[[[front back] dn] tags]|e]; [|reflexivity].
  unfold bind. reflexivity.
Qed.

Lemma add_notes_loop_acc acc rs w :
  add_notes_loop time_ms randint_0_999 acc rs w =
  match add_notes_loop time_ms randint_0_999 [] rs w with
  | Ok ids w' => Ok (acc ++ ids) w'
  | Raise e w' => Raise e w'
  end.
Proof.
  revert acc w; induction rs as [|r rest IH]; intros acc w.
  - cbn. rewrite app_nil_r. reflexivity.
  - rewrite !add_notes_loop_cons.
    destruct (note_args r) as [[[[front back] dn] tags]|e]; [|reflexivity].
    destruct (add_note time_ms randint_0_999 front back dn tags w)
      as [id w1|e w1]; [|reflexivity].
    rewrite (IH (acc ++ [id])), (IH ([] ++ [id])).
    destruct (add_notes_loop time_ms randint_0_999 [] rest w1)
      as [ids w'|e w']; [|reflexivity].
    rewrite <- app_assoc. reflexivity.
Qed.

(** One step of the batch. *)
Lemma add_notes_batch_cons r rest w :
  add_notes_batch time_ms randint_0_999 (r :: rest) w =
  match note_args r with
  | Raised e => Raise e w
  | Return (front, back, dn, tags) =>
      match add_note time_ms randint_0_999 front back dn tags w with
      | Ok id w1 =>
          match add_notes_batch time_ms randint_0_999 rest w1 with
          | Ok ids w2 => Ok (id :: ids) w2
          | Raise e w2 => Raise e w2
          end
      | Raise e w1 => Raise e w1
      end
  end.
Proof.
  unfold add_notes_batch. rewrite add_notes_loop_cons.
  destruct (note_args r) as [[[[front back] dn] tags]|e]; [|reflexivity].
  destruct (add_note time_ms randint_0_999 front back dn tags w)
    as [id w1|e w1]; [|reflexivity].
  rewrite add_notes_loop_acc. reflexivity.
Qed.

(** Neither [create_deck] nor [add_note] removes a note, whatever
    their outcome. *)
Lemma create_deck_keeps_notes name w n :
  stored_note w n -> stored_note (world_of (create_deck time_ms name w)) n.
Proof.
  intros (db & Hdb & Hin).
  destruct (create_deck time_ms name w) as [id w1|e w1] eqn:H; cbn [world_of].
  - destruct (create_deck_Ok _ _ _ _ _ H)
      as (db' & items & Hdb' & _ & [[_ ->]|(_ & ids & m & _ & _ & _ & ->)]).
    + exists db. auto.
    + rewrite Hdb in Hdb'. inversion Hdb'; subst db'.
      eexists. split; [reflexivity|]. assumption.
  - rewrite (create_deck_Raise _ _ _ _ _ H). exists db.
    unfold connected. cbn [disk]. rewrite Hdb. auto.
Qed.

Lemma add_note_keeps_notes front back dn tags w n :
  stored_note w n ->
  stored_note
    (world_of (add_note time_ms randint_0_999 front back dn tags w)) n.
Proof.
  intros Hst.
  pose proof (create_deck_keeps_notes dn w n Hst) as Hc.
  destruct (add_note time_ms randint_0_999 front back dn tags w)
    as [id w2|e w2] eqn:H;
    cbn [world_of].
  - destruct (add_note_Ok _ _ _ _ _ _ _ _ _ H)
      as (did & w1 & db1 & g & cs & Hcd & Hdb1 & _ & _ & _ & ->).
    rewrite Hcd in Hc. cbn [world_of] in Hc.
    destruct Hc as (db & Hdb & Hin). rewrite Hdb1 in Hdb.
    inversion Hdb; subst db.
    eexists. split; [reflexivity|]. cbn [notes].
    apply in_or_app. left. assumption.
  - destruct (add_note_Raise _ _ _ _ _ _ _ _ _ H) as [Hr|(d' & w1 & Hcd & Hd)].
    + rewrite Hr in Hc. exact Hc.
    + rewrite Hcd in Hc. cbn [world_of] in Hc.
      destruct Hc as (db & Hdb & Hin). exists db. rewrite Hd. auto.
Qed.

Lemma runs_keeps_notes rs w ids w' n :
  runs time_ms randint_0_999 rs w ids w' ->
  stored_note w n -> stored_note w' n.
Proof.
  induction 1 as [|r rest w front back dn tags id w1 ids w2 _ Ha _ IH];
    intros Hst; [assumption|].
  apply IH.
  pose proof (add_note_keeps_notes front back dn tags w n Hst) as Hk.
  rewrite Ha in Hk. exact Hk.
Qed.

Lemma runs_committed rs w ids w' :
  runs time_ms randint_0_999 rs w ids w' -> Forall (note_committed w') ids.
Proof.
  induction 1 as [|r rest w front back dn tags id w1 ids w2 _ Ha Hr IH];
    constructor; [|assumption].
  destruct (add_note_stores _ _ _ _ _ _ _ _ _ Ha)
    as (n & cs & Hst & Hid & _).
  exists n. split; [|assumption].
  eapply runs_keeps_notes; eassumption.
Qed.

Lemma record_fails_keeps_notes r w e w' n :
  record_fails time_ms randint_0_999 r w e w' ->
  stored_note w n -> stored_note w' n.
Proof.
  intros [[_ ->]|(front & back & dn & tags & _ & Ha)] Hst; [assumption|].
  pose proof (add_note_keeps_notes front back dn tags w n Hst) as Hk.
  rewrite Ha in Hk. exact Hk.
Qed.

Lemma runs_length rs w ids w' :
  runs time_ms randint_0_999 rs w ids w' ->
  List.length ids = List.length rs.
Proof. induction 1; cbn [List.length]; congruence. Qed.

(** A batch whose records all succeed. *)
Lemma add_notes_batch_runs rs w ids w' :
  runs time_ms randint_0_999 rs w ids w' ->
  add_notes_batch time_ms randint_0_999 rs w = Ok ids w'.
Proof.
  induction 1 as [|r rest w front back dn tags id w1 ids w2 Hargs Ha _ IH];
    [reflexivity|].
  rewrite add_notes_batch_cons, Hargs, Ha, IH. reflexivity.
Qed.

(** A batch in which the record after [pre] fails: records after it
    play no part. *)
Lemma add_notes_batch_stops pre r post w ids w1 e w2 :
  runs time_ms randint_0_999 pre w ids w1 ->
  record_fails time_ms randint_0_999 r w1 e w2 ->
  add_notes_batch time_ms randint_0_999 (pre ++ r :: post) w = Raise e w2.
Proof.
  induction 1 as [|r0 rest w front back dn tags id w1 ids w3 Hargs Ha _ IH];
    intros Hf.
  - cbn [app]. rewrite add_notes_batch_cons.
    destruct Hf as [[-> ->]|(front & back & dn & tags & -> & ->)];
      reflexivity.
  - cbn [app]. rewrite add_notes_batch_cons, Hargs, Ha, (IH Hf).
    reflexivity.
Qed.

(** C4. [add_notes_batch] calls [add_note] once per record, in input
    order. Either every call returns, and the batch returns their ids in
    that order; or some record fails after a run of successes, and then
    the batch raises that record's exception, the notes of the earlier
    records are in the file, and the outcome is the same whatever
    records follow the failing one: none of them is attempted. *)
Theorem add_notes_batch_partial rs w :
  (exists ids w',
      add_notes_batch time_ms randint_0_999 rs w = Ok ids w'
      /\ runs time_ms randint_0_999 rs w ids w'
      /\ List.length ids = List.length rs
      /\ Forall (note_committed w') ids)
  \/ (exists pre r post ids w1 e w2,
         rs = pre ++ r :: post
         /\ runs time_ms randint_0_999 pre w ids w1
         /\ record_fails time_ms randint_0_999 r w1 e w2
         /\ add_notes_batch time_ms randint_0_999 rs w = Raise e w2
         /\ Forall (note_committed w2) ids
         /\ forall post',
             add_notes_batch time_ms randint_0_999 (pre ++ r :: post') w
             = Raise e w2).
Proof.
  revert w; induction rs as [|r rest IH]; intros w.
  - left. exists [], w. repeat split; constructor.
  - destruct (note_args r) as [[[[front back] dn] tags]|e] eqn:Hargs.
    2:{ right. exists [], r, rest, [], w, e, w.
        assert (Hf : record_fails time_ms randint_0_999 r w e w)
          by (left; auto).
        split; [reflexivity|]. split; [constructor|]. split; [exact Hf|].
        split; [apply (add_notes_batch_stops [] r rest w [] w e w);
                [constructor | exact Hf]|].
        split; [constructor|]. intros post'.
        apply (add_notes_batch_stops [] r post' w [] w e w);
          [constructor | exact Hf]. }
    destruct (add_note time_ms randint_0_999 front back dn tags w)
      as [id w1|e w1] eqn:Ha.
    2:{ right. exists [], r, rest, [], w, e, w1.
        assert (Hf : record_fails time_ms randint_0_999 r w e w1)
          by (right; exists front, back, dn, tags; auto).
        split; [reflexivity|]. split; [constructor|]. split; [exact Hf|].
        split; [apply (add_notes_batch_stops [] r rest w [] w e w1);
                [constructor | exact Hf]|].
        split; [constructor|]. intros post'.
        apply (add_notes_batch_stops [] r post' w [] w e w1);
          [constructor | exact Hf]. }
    destruct (IH w1) as [(ids & w' & Hb & Hr & Hl & Hc)
                        |(pre & r' & post & ids & w2 & e & w3
                          & -> & Hr & Hf & Hb & Hc & Hany)].
    + left. exists (id :: ids), w'.
      assert (Hr' : runs time_ms randint_0_999 (r :: rest) w
                         (id :: ids) w')
        by (econstructor; eassumption).
      split; [apply add_notes_batch_runs; exact Hr'|].
      split; [exact Hr'|]. split; [cbn [List.length]; congruence|].
      apply (runs_committed _ _ _ _ Hr').
    + right. exists (r :: pre), r', post, (id :: ids), w2, e, w3.
      assert (Hr' : runs time_ms randint_0_999 (r :: pre) w
                         (id :: ids) w2)
        by (econstructor; eassumption).
      split; [reflexivity|]. split; [exact Hr'|]. split; [exact Hf|].
      split; [apply (add_notes_batch_stops _ _ _ _ _ _ _ _ Hr' Hf)|].
      split.
      * eapply Forall_impl; [|apply (runs_committed _ _ _ _ Hr')].
        intros i (n & Hst & Hi). exists n. split; [|assumption].
        eapply record_fails_keeps_notes; eassumption.
      * intros post'. apply (add_notes_batch_stops _ _ _ _ _ _ _ _ Hr' Hf).
Qed.

End BatchProperties.

(* ================================================================== *)
(** * The collection row *)
(* ================================================================== *)

Section CollectionRow.

Variable time_ms : nat -> Z.
Variable randint_0_999 : nat -> Z.

Lemma update_one_row f r :
  exists r', Sqlite.update_where_id_1 f [r] = [r'].
Proof. unfold Sqlite.update_where_id_1. cbn [map]. eauto. Qed.

Lemma create_deck_one_row name w :
  one_collection_row w ->
  one_collection_row (world_of (create_deck time_ms name w)).
Proof.
  intros (db & r & Hdb & Hcol).
  destruct (create_deck time_ms name w) as [id w1|e w1] eqn:H; cbn [world_of].
  - destruct (create_deck_Ok _ _ _ _ _ H)
      as (db' & items & Hdb' & _ & [[_ ->]|(_ & ids & m & _ & _ & _ & ->)]).
    + exists db, r. auto.
    + rewrite Hdb in Hdb'. inversion Hdb'; subst db'.
      unfold with_new_deck, one_collection_row. cbn [disk]. rewrite Hcol.
      destruct (update_one_row
                  (Sqlite.set_decks_mod
                     (Object (dict_set (Py.str (m + 1))
                                (Deck (m + 1) (Some name)
                                      (time_ms (clock_reads w))) items))
                     (time_ms (clock_reads w))) r) as [r' Hr'].
      eexists. exists r'. split; [reflexivity|]. exact Hr'.
  - rewrite (create_deck_Raise _ _ _ _ _ H). exists db, r.
    unfold connected. cbn [disk]. rewrite Hdb. auto.
Qed.

Lemma add_note_one_row front back dn tags w :
  one_collection_row w ->
  one_collection_row
    (world_of (add_note time_ms randint_0_999 front back dn tags w)).
Proof.
  intros Hone.
  pose proof (create_deck_one_row dn w Hone) as Hc.
  destruct (add_note time_ms randint_0_999 front back dn tags w)
    as [id w2|e w2] eqn:H; cbn [world_of].
  - destruct (add_note_Ok _ _ _ _ _ _ _ _ _ H)
      as (did & w1 & db1 & g & cs & Hcd & Hdb1 & _ & _ & _ & ->).
    rewrite Hcd in Hc. cbn [world_of] in Hc.
    destruct Hc as (db & r & Hdb & Hcol). rewrite Hdb1 in Hdb.
    inversion Hdb; subst db. rewrite Hcol.
    destruct (update_one_row
                (Sqlite.set_mod (time_ms (S (clock_reads w1)))) r)
      as [r' Hr'].
    eexists. exists r'. split; [reflexivity|]. exact Hr'.
  - destruct (add_note_Raise _ _ _ _ _ _ _ _ _ H) as [Hr|(d' & w1 & Hcd & Hd)].
    + rewrite Hr in Hc. exact Hc.
    + rewrite Hcd in Hc. cbn [world_of] in Hc.
      destruct Hc as (db & r & Hdb & Hcol). exists db, r.
      rewrite Hd. auto.
Qed.

Lemma add_notes_batch_one_row rs w :
  one_collection_row w ->
  one_collection_row
    (world_of (add_notes_batch time_ms randint_0_999 rs w)).
Proof.
  revert w; induction rs as [|r rest IH]; intros w Hone; [exact Hone|].
  rewrite add_notes_batch_cons.
  destruct (note_args r) as [[[[front back] dn] tags]|e]; [|exact Hone].
  pose proof (add_note_one_row front back dn tags w Hone) as Ha.
  destruct (add_note time_ms randint_0_999 front back dn tags w)
    as [id w1|e w1]; [|exact Ha].
  cbn [world_of] in Ha. specialize (IH w1 Ha).
  destruct (add_notes_batch time_ms randint_0_999 rest w1); exact IH.
Qed.

(** A newly created file holds exactly one collection row. *)
Lemma init_one_row w0 :
  disk w0 = Missing -> one_collection_row (world_of (init time_ms w0)).
Proof.
  destruct w0 as [d c r]. cbn [disk]. intros ->.
  eexists. eexists. split; reflexivity.
Qed.

Lemma one_row_found w db r row :
  disk w = Tables db -> col db = [r] ->
  find (fun r => col_id r =? 1) (col db) = Some row ->
  row = r /\ (col_id r =? 1) = true.
Proof.
  intros _ -> H. cbn [find] in H.
  destruct (col_id r =? 1); [|discriminate]. inversion H. auto.
Qed.

(** C9. [create_deck], [add_note] and [add_notes_batch] keep table
    [col] at exactly one row, whatever their outcome. [create_deck] of
    a name the document lacks sets the row's modification time to the
    clock reading it takes; [create_deck] of a name the document has
    leaves the world, and so that time, as it was; [add_note] sets the
    modification time to the last clock reading it takes. *)
Theorem collection_row_kept w :
  one_collection_row w ->
  (forall name,
      one_collection_row (world_of (create_deck time_ms name w)))
  /\ (forall front back dn tags,
         one_collection_row
           (world_of (add_note time_ms randint_0_999 front back dn tags w)))
  /\ (forall rs,
         one_collection_row
           (world_of (add_notes_batch time_ms randint_0_999 rs w)))
  /\ (forall name id w1 items,
         create_deck time_ms name w = Ok id w1 ->
         deck_document w = Some items ->
         (name_absent name items ->
          clock_reads w1 = S (clock_reads w)
          /\ collection_mod w1 = Some (time_ms (clock_reads w)))
         /\ (name_present name items ->
             w1 = w /\ collection_mod w1 = collection_mod w))
  /\ (forall front back dn tags noteid w2,
         add_note time_ms randint_0_999 front back dn tags w = Ok noteid w2 ->
         exists k, clock_reads w2 = S k
                   /\ collection_mod w2 = Some (time_ms k)).
Proof.
  intros Hone.
  split; [intros; apply create_deck_one_row; assumption|].
  split; [intros; apply add_note_one_row; assumption|].
  split; [intros; apply add_notes_batch_one_row; assumption|].
  destruct Hone as (db & r & Hdb & Hcol).
  split.
  - intros name id w1 items H Hdoc.
    destruct (create_deck_Ok _ _ _ _ _ H)
      as (db' & items' & Hdb' & Hdoc' & Hcase).
    rewrite Hdoc in Hdoc'. inversion Hdoc'; subst items'; clear Hdoc'.
    rewrite Hdb in Hdb'. inversion Hdb'; subst db'; clear Hdb'.
    destruct (deck_document_tables _ _ Hdoc) as (db2 & row & Hdb2 & Hrow & _).
    rewrite Hdb in Hdb2. inversion Hdb2; subst db2; clear Hdb2.
    destruct (one_row_found _ _ _ _ Hdb Hcol Hrow) as [-> Hid].
    destruct Hcase as [[Hf ->]|(Hf & ids & m & _ & _ & -> & ->)]; split.
    + intros Habs. exfalso.
      destruct (find_deck_Some _ _ _ Hf) as (k & d & Hin & Hn & _).
      eapply absent_not_present; [exact Habs|]. exists (k, d). auto.
    + intros _. auto.
    + intros _. split; [reflexivity|].
      unfold collection_mod, with_new_deck. cbn [disk col].
      rewrite Hcol. unfold Sqlite.update_where_id_1. cbn [map].
      rewrite Hid. reflexivity.
    + intros Hp. exfalso. eapply absent_not_present;
        [apply find_deck_None_absent; exact Hf | exact Hp].
  - intros front back dn tags noteid w2 H.
    destruct (add_note_Ok _ _ _ _ _ _ _ _ _ H)
      as (did & w1 & db1 & g & cs & Hcd & Hdb1 & _ & _ & _ & ->).
    exists (S (clock_reads w1)). split; [reflexivity|].
    unfold collection_mod. cbn [disk col].
    destruct (create_deck_Ok _ _ _ _ _ Hcd)
      as (db' & items & Hdb' & Hdoc & Hcase).
    rewrite Hdb in Hdb'. inversion Hdb'; subst db'; clear Hdb'.
    destruct (deck_document_tables _ _ Hdoc) as (db2 & row & Hdb2 & Hrow & _).
    rewrite Hdb in Hdb2. inversion Hdb2; subst db2; clear Hdb2.
    destruct (one_row_found _ _ _ _ Hdb Hcol Hrow) as [-> Hid].
    destruct Hcase as [[_ ->]|(_ & ids & m & _ & _ & _ & ->)].
    + rewrite Hdb in Hdb1. inversion Hdb1; subst db1.
      rewrite Hcol. unfold Sqlite.update_where_id_1. cbn [map].
      rewrite Hid. reflexivity.
    + unfold with_new_deck in Hdb1. cbn [disk] in Hdb1.
      inversion Hdb1; subst db1. cbn [col]. rewrite Hcol.
      unfold Sqlite.update_where_id_1. cbn [map]. rewrite Hid.
      cbn [Sqlite.set_decks_mod col_id]. rewrite Hid. reflexivity.
Qed.

End CollectionRow.

(* ================================================================== *)
(** * The scenarios of the specification, run on the model *)
(* ================================================================== *)

Section Scenarios.

(** Published test vectors of the two digests (FIPS 180-4 examples). *)
Example sha1_abc :
  Hashlib.sha1_hexdigest (Py.lit "abc")
  = Py.lit "a9993e364706816aba3e25717850c26c9cd0d89d".
Proof. vm_compute. reflexivity. Qed.

Example sha1_empty :
  Hashlib.sha1_hexdigest []
  = Py.lit "da39a3ee5e6b4b0d3255bfef95601890afd80709".
Proof. vm_compute. reflexivity. Qed.

Example sha1_two_blocks :
  Hashlib.sha1_hexdigest
    (Py.lit "abcdbcdecdefdefgefghfghighijhijkijkljklmklmnlmnomnopnopq")
  = Py.lit "84983e441c3bd26ebaae4aa1f95129e5e54670f1".
Proof. vm_compute. reflexivity. Qed.

Example sha256_abc :
  Hashlib.sha256_hexdigest (Py.lit "abc")
  = Py.lit "ba7816bf8f01cfea414140de5dae2223b00361a396177a9cb410ff61f20015ad".
Proof. vm_compute. reflexivity. Qed.

Example sha256_two_blocks :
  Hashlib.sha256_hexdigest
    (Py.lit "abcdbcdecdefdefgefghfghighijhijkijkljklmklmnlmnomnopnopq")
  = Py.lit "248d6a61d20638b8e5c026930c3e6039a33ce45964ff2167f6ecedd419db06c1".
Proof. vm_compute. reflexivity. Qed.

(** [str] and [int] on a few values. *)
Example str_negative : Py.str (-120) = Py.lit "-120".
Proof. reflexivity. Qed.

Example int_spaces_underscore : Py.int (Py.lit " 1_000 ") = Some 1000.
Proof. reflexivity. Qed.

Example int_not_a_number : Py.int (Py.lit "x") = None.
Proof. reflexivity. Qed.

(** A front of 70 characters is cut to its first 64. *)
Example sfld_of_long :
  sfld_of (repeat 97 64 ++ repeat 98 6) = repeat 97 64.
Proof. reflexivity. Qed.

(** A character outside the ASCII range counts once, whatever the length
    of its encoding. *)
Example sfld_of_counts_code_points :
  sfld_of (repeat 8364 64 ++ [97]) = repeat 8364 64
  /\ option_map (@List.length Z) (Py.encode (repeat 8364 64)) = Some 192%nat.
Proof. split; reflexivity. Qed.

Example tags_str_two :
  tags_str (Some [Py.lit "algorithm"; Py.lit "complexity"])
  = Py.lit " algorithm complexity ".
Proof. reflexivity. Qed.

Lemma fresh_decks_ok : decks_ok Demo.fresh_decks.
Proof.
  split; [discriminate|].
  constructor; [|constructor].
  split; [vm_compute; reflexivity | discriminate].
Defined.

(** A fresh store lists the single deck Default. *)
Example fresh_get_decks :
  get_decks Demo.fresh = Ok [Py.lit "Default"] Demo.fresh.
Proof. vm_compute. reflexivity. Qed.

(** A store whose file is absent also answers Default. *)
Example missing_get_decks :
  get_decks (World Missing 0 0) = Ok [Py.lit "Default"] (World Blank 0 0).
Proof. vm_compute. reflexivity. Qed.

(** Deck names differing in case are different decks. *)
Example create_deck_case_sensitive :
  exists w1 w2,
    create_deck Demo.clock (Py.lit "Spanish") Demo.fresh = Ok 2 w1
    /\ create_deck Demo.clock (Py.lit "spanish") w1 = Ok 3 w2.
Proof.
  eexists. eexists.
  split; [vm_compute; reflexivity | vm_compute; reflexivity].
Qed.

(** The note of the scenario goes to deck Math, created with id 2. *)
Example add_note_math :
  add_note Demo.clock Demo.dice Demo.question Demo.answer Demo.math
           Demo.arithmetic Demo.fresh
  = Ok 1700000000009 Demo.with_note
  /\ exists db c, disk Demo.with_note = Tables db /\ cards db = [c]
                  /\ did c = 2 /\ nid c = 1700000000009.
Proof.
  split; [vm_compute; reflexivity|].
  eexists. eexists. split; [reflexivity|]. repeat split.
Qed.

(** A card whose id is taken makes the insertion of the card fail after
    that of the note went through: the note is not in the file. *)
Example add_note_card_id_taken :
  let w := World (Tables (Database
                    (match disk Demo.fresh with
                     | Tables db => col db
                     | _ => []
                     end)
                    []
                    [CardRow 1700000000008 5 1 0 0 0 0 0 0 0 0 0 0 0 0 0 0 []]))
                 0 0 in
  exists w',
    add_note Demo.clock Demo.dice Demo.question Demo.answer
             (Py.lit "Default") None w
    = Raise IntegrityError w'
    /\ disk w' = disk w.
Proof.
  eexists. split; [vm_compute; reflexivity | vm_compute; reflexivity].
Qed.

(** A failure inside the transaction leaves the deck that deck resolution
    created, and nothing of the note: here a tag that cannot be encoded
    makes the insertion of the note raise. *)
Example add_note_fails_deck_stays :
  exists w',
    add_note Demo.clock Demo.dice Demo.question Demo.answer Demo.math
             (Some [[55296]]) Demo.fresh
    = Raise UnicodeEncodeError w'
    /\ disk w' = disk Demo.with_math.
Proof.
  eexists. split; [vm_compute; reflexivity | vm_compute; reflexivity].
Qed.

(** Three records succeed, the fourth fails on its deck, the fifth is
    not attempted. *)
Example batch_stops_at_fourth :
  add_notes_batch Demo.clock Demo.dice Demo.batch Demo.odd_key
  = Raise ValueError Demo.after_batch
  /\ exists db, disk Demo.after_batch = Tables db
                /\ map flds (notes db)
                   = [Py.lit "one" ++ [31] ++ Py.lit "back";
                      Py.lit "two" ++ [31] ++ Py.lit "back";
                      Py.lit "three" ++ [31] ++ Py.lit "back"].
Proof.
  split; [vm_compute; reflexivity|].
  eexists. split; vm_compute; reflexivity.
Qed.

End Scenarios.

(* ================================================================== *)
(** * The theorems at the scenarios *)
(* ================================================================== *)

Section Witnesses.

Let run_note :
  add_note Demo.clock Demo.dice Demo.question Demo.answer Demo.math
           Demo.arithmetic Demo.fresh
  = Ok 1700000000009 Demo.with_note.
Proof. vm_compute. reflexivity. Defined.

Lemma add_note_checksum_witness :
  add_note Demo.clock Demo.dice Demo.question Demo.answer Demo.math
           Demo.arithmetic Demo.fresh
  = Ok 1700000000009 Demo.with_note
  /\ exists n bs,
      stored_note Demo.with_note n /\ note_id n = 1700000000009
      /\ sfld n = firstn 64 Demo.question
      /\ Py.encode (firstn 64 Demo.question) = Some bs
      /\ Py.int_base 16 (firstn 8 (Hashlib.sha1_hexdigest bs))
         = Some (csum n)
      /\ 0 <= csum n < 2 ^ 32.
Proof.
  split; [exact run_note|].
  destruct (add_note_checksum Demo.clock Demo.dice Demo.question
              Demo.answer Demo.math Demo.arithmetic Demo.fresh
              1700000000009 Demo.with_note run_note)
    as (n & bs & H1 & H2 & H3 & H4 & H5 & H6 & _).
  exists n, bs. repeat split; try assumption; apply H6.
Defined.

Lemma create_deck_twice_witness :
  deck_document Demo.fresh = Some Demo.fresh_decks
  /\ decks_ok Demo.fresh_decks
  /\ (exists id w1,
         create_deck Demo.clock (Py.lit "Spanish") Demo.fresh = Ok id w1
         /\ create_deck Demo.clock (Py.lit "Spanish") w1 = Ok id w1)
  /\ (name_present (Py.lit "Default") Demo.fresh_decks
      /\ exists id e,
          create_deck Demo.clock (Py.lit "Default") Demo.fresh
          = Ok id Demo.fresh
          /\ In e Demo.fresh_decks /\ deck_id (snd e) = id).
Proof.
  split; [reflexivity|]. split; [exact fresh_decks_ok|]. split.
  - destruct (proj2 (create_deck_twice Demo.clock (Py.lit "Spanish")
                       Demo.fresh)
                Demo.fresh_decks eq_refl fresh_decks_ok)
      as (id & w1 & H1 & _).
    exists id, w1. split; [exact H1|].
    apply (proj1 (create_deck_twice Demo.clock (Py.lit "Spanish")
                    Demo.fresh) id w1 H1).
  - assert (Hp : name_present (Py.lit "Default") Demo.fresh_decks).
    { eexists. split; [left; reflexivity | reflexivity]. }
    split; [exact Hp|].
    destruct (proj2 (create_deck_twice Demo.clock (Py.lit "Default")
                       Demo.fresh)
                Demo.fresh_decks eq_refl fresh_decks_ok)
      as (id & w1 & H1 & H2).
    destruct (H2 Hp) as (e & Hin & _ & Hid).
    destruct (proj1 (create_deck_twice Demo.clock (Py.lit "Default")
                       Demo.fresh) id w1 H1)
      as (_ & items & items1 & Hdoc & _ & _ & H5).
    assert (Hp' : name_present (Py.lit "Default") items).
    { assert (E : Some items = Some Demo.fresh_decks)
        by (rewrite <- Hdoc; reflexivity).
      inversion E. exact Hp. }
    destruct (H5 Hp') as [Ew _].
    exists id, e. split; [rewrite <- Ew at 2; exact H1|].
    split; assumption.
Defined.

Lemma add_note_one_note_one_card_witness :
  add_note Demo.clock Demo.dice Demo.question Demo.answer Demo.math
           Demo.arithmetic Demo.fresh
  = Ok 1700000000009 Demo.with_note
  /\ exists db db2 n c,
      disk Demo.fresh = Tables db /\ disk Demo.with_note = Tables db2
      /\ notes db2 = notes db ++ [n] /\ cards db2 = cards db ++ [c]
      /\ nid c = 1700000000009 /\ card_id c = 1700000000009 + 1.
Proof.
  split; [exact run_note|].
  destruct (add_note_one_note_one_card Demo.clock Demo.dice Demo.question
              Demo.answer Demo.math Demo.arithmetic Demo.fresh
              1700000000009 Demo.with_note run_note)
    as (db & db2 & resolved & w1 & n & c
        & H1 & H2 & _ & H4 & H5 & _ & H7 & _ & H9 & _).
  exists db, db2, n, c. repeat split; assumption.
Defined.

Lemma create_deck_new_id_witness :
  deck_document Demo.fresh = Some Demo.fresh_decks
  /\ decks_ok Demo.fresh_decks
  /\ name_absent (Py.lit "Spanish") Demo.fresh_decks
  /\ (exists m w1,
         is_max m [1]
         /\ create_deck Demo.clock (Py.lit "Spanish") Demo.fresh
            = Ok (m + 1) w1)
  /\ (exists w1 w2,
         init Demo.clock (World Missing 0 0) = Ok tt w1
         /\ create_deck Demo.clock (Py.lit "Spanish") w1 = Ok 2 w2).
Proof.
  assert (Ha : name_absent (Py.lit "Spanish") Demo.fresh_decks)
    by (constructor; [discriminate | constructor]).
  split; [reflexivity|]. split; [exact fresh_decks_ok|].
  split; [exact Ha|].
  destruct (create_deck_new_id Demo.clock) as (_ & Total & Fresh).
  split.
  - destruct (Total (Py.lit "Spanish") Demo.fresh Demo.fresh_decks
                eq_refl fresh_decks_ok Ha)
      as (m & w1 & H1 & H2).
    exists m, w1. split; assumption.
  - destruct (Fresh (World Missing 0 0) eq_refl) as (w1 & w2 & H1 & _ & H3).
    exists w1, w2. split; assumption.
Defined.

Lemma get_decks_lenient_witness :
  (exists names,
      get_decks Demo.fresh = Ok names (connected Demo.fresh)
      /\ Sorted lex_le names
      /\ Permutation names [Py.lit "Default"])
  /\ (exists names,
         get_decks (World Damaged 0 0) = Ok names (World Damaged 0 0)
         /\ names = [Py.lit "Default"]).
Proof.
  split.
  - destruct (get_decks_lenient Demo.fresh) as (names & H1 & H2 & _).
    exists names. split; [exact H1|].
    apply (H2 Demo.fresh_decks [Py.lit "Default"]); reflexivity.
  - destruct (get_decks_lenient (World Damaged 0 0))
      as (names & H1 & _ & H3 & _).
    exists names. split; [exact H1 | apply H3; reflexivity].
Defined.

Lemma add_note_tags_string_witness :
  add_note Demo.clock Demo.dice Demo.question Demo.answer Demo.math
           Demo.arithmetic Demo.fresh
  = Ok 1700000000009 Demo.with_note
  /\ exists n,
      stored_note Demo.with_note n /\ note_id n = 1700000000009
      /\ note_tags n = Py.lit " arithmetic ".
Proof.
  split; [exact run_note|].
  destruct (add_note_tags_string Demo.clock Demo.dice Demo.question
              Demo.answer Demo.math Demo.arithmetic Demo.fresh
              1700000000009 Demo.with_note run_note)
    as (n & H1 & H2 & _ & H4 & _).
  exists n. split; [exact H1|]. split; [exact H2|].
  apply H4. discriminate.
Defined.

Lemma add_note_all_or_nothing_witness :
  create_deck Demo.clock Demo.math Demo.fresh = Ok 2 Demo.with_math
  /\ ((exists noteid w2,
          add_note Demo.clock Demo.dice Demo.question Demo.answer Demo.math
                   Demo.arithmetic Demo.fresh = Ok noteid w2)
      \/ (exists e w2,
             add_note Demo.clock Demo.dice Demo.question Demo.answer
                      Demo.math Demo.arithmetic Demo.fresh = Raise e w2
             /\ disk w2 = disk Demo.with_math)).
Proof.
  assert (Hc : create_deck Demo.clock Demo.math Demo.fresh
               = Ok 2 Demo.with_math) by (vm_compute; reflexivity).
  split; [exact Hc|].
  destruct (add_note_all_or_nothing Demo.clock Demo.dice Demo.question
              Demo.answer Demo.math Demo.arithmetic Demo.fresh
              2 Demo.with_math Hc)
    as [(noteid & w2 & db1 & db2 & n & c & H & _)|(e & w2 & H & Hd)].
  - left. exists noteid, w2. exact H.
  - right. exists e, w2. split; assumption.
Defined.

Lemma collection_row_kept_witness :
  one_collection_row Demo.fresh
  /\ one_collection_row
       (world_of (add_notes_batch Demo.clock Demo.dice Demo.batch Demo.fresh))
  /\ exists k, clock_reads Demo.with_note = S k
               /\ collection_mod Demo.with_note = Some (Demo.clock k).
Proof.
  assert (H1 : one_collection_row Demo.fresh)
    by (eexists; eexists; split; reflexivity).
  split; [exact H1|].
  destruct (collection_row_kept Demo.clock Demo.dice Demo.fresh H1)
    as (_ & _ & Hb & _ & Hn).
  split; [apply Hb|].
  apply (Hn Demo.question Demo.answer Demo.math Demo.arithmetic
            1700000000009 Demo.with_note run_note).
Defined.

Lemma add_note_tags_omitted_witness :
  add_note Demo.clock Demo.dice Demo.question Demo.answer Demo.math None
           Demo.fresh
  = Ok 1700000000009 Demo.with_untagged_note
  /\ add_note Demo.clock Demo.dice Demo.question Demo.answer Demo.math
              (Some []) Demo.fresh
     = Ok 1700000000009 Demo.with_untagged_note
  /\ exists n, stored_note Demo.with_untagged_note n
               /\ note_id n = 1700000000009
               /\ note_tags n = [32; 32].
Proof.
  assert (H : add_note Demo.clock Demo.dice Demo.question Demo.answer
                       Demo.math None Demo.fresh
              = Ok 1700000000009 Demo.with_untagged_note)
    by (vm_compute; reflexivity).
  destruct (add_note_tags_omitted Demo.clock Demo.dice Demo.question
              Demo.answer Demo.math Demo.fresh) as [E Hn].
  split; [exact H|]. split; [rewrite <- E; exact H|].
  exact (Hn 1700000000009 Demo.with_untagged_note H).
Defined.

End Witnesses.

(* ================================================================== *)
(** * Further properties of the handler *)
(* ================================================================== *)

Section InitProperties.

Variable time_ms : nat -> Z.

Lemma init_missing w0 :
  disk w0 = Missing ->
  init time_ms w0 =
  Ok tt (World
           (Tables (Database
              [ColRow 1 (time_ms (clock_reads w0)) (time_ms (clock_reads w0))
                      0 11 0 0 0 (Py.lit "{}") default_model
                      (Object (default_decks (time_ms (clock_reads w0))))
                      (Py.lit "{}") (Py.lit "{}")]
              [] []))
           (S (clock_reads w0)) (rand_draws w0)).
Proof. destruct w0 as [d c r]. cbn [disk]. intros ->. reflexivity. Qed.



(** X2. A newly created collection holds one collection row whose
    creation and modification times are the clock reading taken, no note
    and no card, and a well-formed deck document with the one deck
    Default under id 1; [get_decks] then answers Default. *)
Theorem init_creates_default w0 :
  disk w0 = Missing ->
  exists w1 db r,
    init time_ms w0 = Ok tt w1
    /\ disk w1 = Tables db
    /\ col db = [r] /\ notes db = [] /\ cards db = []
    /\ col_id r = 1
    /\ crt r = time_ms (clock_reads w0)
    /\ col_mod r = time_ms (clock_reads w0)
    /\ deck_document w1
       = Some [(Py.lit "1",
                Deck 1 (Some (Py.lit "Default")) (time_ms (clock_reads w0)))]
    /\ decks_ok [(Py.lit "1",
                  Deck 1 (Some (Py.lit "Default"))
                       (time_ms (clock_reads w0)))]
    /\ get_decks w1 = Ok [Py.lit "Default"] w1.
Proof.
  intros H. rewrite (init_missing w0 H).
  eexists. eexists. eexists. split; [reflexivity|].
  split; [reflexivity|]. cbn [col notes cards].
  split; [reflexivity|]. split; [reflexivity|]. split; [reflexivity|].
  split; [reflexivity|]. split; [reflexivity|]. split; [reflexivity|].
  split; [reflexivity|]. split.
  - split; [discriminate|]. constructor; [|constructor].
    split; [reflexivity | discriminate].
  - reflexivity.
Qed.

End InitProperties.

Section DeckRegistryProperties.

Variable time_ms : nat -> Z.

(** What a returning [create_deck] has done to the document. *)
Lemma create_deck_document name w items id w1 :
  deck_document w = Some items ->
  create_deck time_ms name w = Ok id w1 ->
  (w1 = w
   /\ exists e, In e items /\ deck_name (snd e) = Some name
                /\ Py.int (fst e) = Some id)
  \/ (name_absent name items
      /\ (exists ids m, int_keys items = Return ids /\ is_max m ids
                        /\ id = m + 1)
      /\ deck_document w1
         = Some (items ++ [(Py.str id,
                            Deck id (Some name) (time_ms (clock_reads w)))])
      /\ exists db db1, disk w = Tables db /\ disk w1 = Tables db1
                        /\ notes db1 = notes db /\ cards db1 = cards db).
Proof.
  intros Hdoc H.
  destruct (create_deck_Ok _ _ _ _ _ H) as (db & items' & Hdb & Hdoc' & Hcase).
  rewrite Hdoc in Hdoc'. inversion Hdoc'; subst items'; clear Hdoc'.
  destruct Hcase as [[Hf ->]|(Hf & ids & m & Hk & Hm & -> & ->)].
  - left. split; [reflexivity|].
    destruct (find_deck_Some _ _ _ Hf) as (k & d & Hin & Hn & Hi).
    exists (k, d). auto.
  - right. split; [apply find_deck_None_absent; exact Hf|].
    split; [exists ids, m; split; [assumption|];
            split; [apply max_is_max; assumption | reflexivity]|].
    split.
    + rewrite (deck_document_with_new_deck _ _ _ _ _ _ Hdb Hdoc).
      rewrite (dict_set_fresh _ _ _ (new_key_fresh _ _ _ Hk Hm)).
      reflexivity.
    + exists db. eexists. split; [assumption|].
      split; [reflexivity|]. split; reflexivity.
Qed.

(** X3. [create_deck] keeps the deck document well formed and its ids
    pairwise distinct: the decks that were there stay, in place and
    unchanged, and a deck that is added comes last, under an id no other
    deck has. *)
Theorem create_deck_keeps_document name w items id w1 :
  deck_document w = Some items -> decks_ok items ->
  NoDup (deck_ids items) ->
  create_deck time_ms name w = Ok id w1 ->
  exists rest,
    deck_document w1 = Some (items ++ rest)
    /\ decks_ok (items ++ rest)
    /\ NoDup (deck_ids (items ++ rest))
    /\ In id (deck_ids (items ++ rest))
    /\ (rest = [] \/ exists e, rest = [e] /\ deck_id (snd e) = id
                               /\ deck_name (snd e) = Some name).
Proof.
  intros Hdoc [Hne Hall] Hnd H.
  destruct (create_deck_document _ _ _ _ _ Hdoc H)
    as [(-> & e & Hin & Hn & Hi)
       |(Habs & (ids & m & Hk & Hm & ->) & Hdoc1 & _)].
  - exists []. rewrite app_nil_r.
    split; [assumption|]. split; [split; assumption|].
    split; [assumption|]. split; [|left; reflexivity].
    rewrite Forall_forall in Hall. destruct (Hall e Hin) as [He _].
    rewrite He in Hi. inversion Hi. unfold deck_ids.
    apply in_map_iff. exists e. auto.
  - eexists. split; [exact Hdoc1|].
    rewrite (int_keys_ok items Hall) in Hk. inversion Hk; subst ids.
    destruct Hm as [_ Hle].
    split; [|split; [|split]].
    + split; [intros E; apply app_eq_nil in E; destruct E; discriminate|].
      apply Forall_app. split; [assumption|].
      constructor; [|constructor]. split; [apply int_str | discriminate].
    + unfold deck_ids in *. rewrite map_app. cbn [map snd deck_id].
      apply NoDup_app; [assumption | repeat constructor; intros [] |].
      intros i Hi [<-|[]]. rewrite Forall_forall in Hle.
      specialize (Hle _ Hi). lia.
    + unfold deck_ids. rewrite map_app. apply in_or_app. right.
      left. reflexivity.
    + right. eexists. split; [reflexivity|]. split; reflexivity.
Qed.

(** X4. A [create_deck] that raises has read no clock and written
    nothing: the file is what it was (an absent file now exists, without
    tables). *)
Theorem create_deck_raise_writes_nothing name w e w1 :
  create_deck time_ms name w = Raise e w1 ->
  w1 = connected w
  /\ clock_reads w1 = clock_reads w
  /\ (disk w <> Missing -> w1 = w).
Proof.
  intros H. rewrite (create_deck_Raise _ _ _ _ _ H).
  split; [reflexivity|]. split; [reflexivity|].
  intros Hd. destruct w as [[| | |db] c r]; cbn [disk] in Hd;
    [congruence| | |]; reflexivity.
Qed.


(** X6. Whatever its outcome, [create_deck] leaves tables [notes] and
    [cards] as they were. *)
Theorem create_deck_keeps_tables name w db :
  disk w = Tables db ->
  exists db1,
    disk (world_of (create_deck time_ms name w)) = Tables db1
    /\ notes db1 = notes db /\ cards db1 = cards db
    /\ List.length (col db1) = List.length (col db).
Proof.
  intros Hdb.
  destruct (create_deck time_ms name w) as [id w1|e w1] eqn:H; cbn [world_of].
  - destruct (create_deck_Ok _ _ _ _ _ H)
      as (db' & items & Hdb' & _ & [[_ ->]|(_ & ids & m & _ & _ & _ & ->)]).
    + exists db. auto.
    + rewrite Hdb in Hdb'. inversion Hdb'; subst db'.
      eexists. split; [reflexivity|]. cbn [notes cards col].
      rewrite update_where_id_1_length. auto.
  - rewrite (create_deck_Raise _ _ _ _ _ H). exists db.
    unfold connected. cbn [disk]. rewrite Hdb. auto.
Qed.

(** X7. After [create_deck] has returned on a well-formed document,
    [get_decks] lists the name: its answer holds exactly the names the
    document had and the name given, in lexicographic order, and reading
    it changes nothing. *)
Theorem create_deck_then_get_decks name w items id w1 :
  deck_document w = Some items -> decks_ok items ->
  create_deck time_ms name w = Ok id w1 ->
  exists names,
    get_decks w1 = Ok names w1
    /\ In name names
    /\ (forall n, In n names <-> n = name \/ In (Some n) (names_of items))
    /\ Sorted lex_le names.
Proof.
  intros Hdoc Hok H.
  assert (Hnames : forall its, Forall entry_ok its ->
            exists ns, deck_names its = Return ns
                       /\ map Some ns = names_of its).
  { clear. induction 1 as [|[k d] rest [_ Hn] _ (ns & IH & Hm)].
    - exists []. split; reflexivity.
    - cbn [snd] in Hn. cbn [deck_names]. unfold names_of in *.
      cbn [map snd]. destruct (deck_name d) as [n|]; [|congruence].
      rewrite IH. exists (n :: ns). cbn [map]. rewrite Hm. auto. }
  assert (Hget : forall w' its ns,
            deck_document w' = Some its -> deck_names its = Return ns ->
            get_decks w' = Ok (Py.sorted ns) w').
  { clear. intros w' its ns Hd Hn.
    destruct (deck_document_tables _ _ Hd) as (db & row & Hdb & Hrow & Hdk).
    unfold get_decks. rewrite get_decks_try_eq, Hdb, Hrow, Hdk, Hn.
    reflexivity. }
  destruct Hok as [Hne Hall].
  destruct (create_deck_document _ _ _ _ _ Hdoc H)
    as [(-> & e & Hin & Hn & Hi)
       |(Habs & _ & Hdoc1 & _)].
  - destruct (Hnames items Hall) as (ns & Hns & Hm).
    exists (Py.sorted ns). split; [exact (Hget _ _ _ Hdoc Hns)|].
    assert (Hmem : forall n, In n (Py.sorted ns) <-> In (Some n) (names_of items)).
    { intros n. rewrite <- Hm. split; intros Hx.
      - apply in_map. eapply Permutation_in; [apply sorted_perm | exact Hx].
      - apply in_map_iff in Hx. destruct Hx as (n' & E & Hx).
        inversion E; subst n'.
        eapply Permutation_in; [apply Permutation_sym, sorted_perm | exact Hx]. }
    assert (Hname : In (Some name) (names_of items)).
    { unfold names_of. apply in_map_iff. exists e. auto. }
    split; [apply Hmem; exact Hname|]. split; [|apply sorted_sorted].
    intros n. rewrite Hmem. split; [auto|]. intros [->|Hx]; assumption.
  - assert (Hall1 : Forall entry_ok
                      (items ++ [(Py.str id,
                                  Deck id (Some name)
                                       (time_ms (clock_reads w)))])).
    { apply Forall_app. split; [assumption|].
      constructor; [|constructor]. split; [apply int_str | discriminate]. }
    destruct (Hnames _ Hall1) as (ns & Hns & Hm).
    exists (Py.sorted ns). split; [exact (Hget _ _ _ Hdoc1 Hns)|].
    unfold names_of in Hm. rewrite map_app in Hm. cbn [map snd deck_name] in Hm.
    assert (Hmem : forall n, In n (Py.sorted ns)
                             <-> n = name \/ In (Some n) (names_of items)).
    { intros n. split; intros Hx.
      - assert (Hx' : In (Some n) (map Some ns)).
        { apply in_map.
          eapply Permutation_in; [apply sorted_perm | exact Hx]. }
        rewrite Hm in Hx'. apply in_app_or in Hx'.
        destruct Hx' as [Hx'|[E|[]]]; [right; exact Hx'|].
        left. inversion E. reflexivity.
      - assert (Hx' : In (Some n) (map Some ns)).
        { rewrite Hm. apply in_or_app.
          destruct Hx as [->|Hx]; [right; left; reflexivity | left; exact Hx]. }
        apply in_map_iff in Hx'. destruct Hx' as (n' & E & Hx').
        inversion E; subst n'.
        eapply Permutation_in; [apply Permutation_sym, sorted_perm | exact Hx']. }
    split; [apply Hmem; left; reflexivity|].
    split; [exact Hmem | apply sorted_sorted].
Qed.

End DeckRegistryProperties.

Section EncodingFacts.

Lemma encode_app a b :
  Py.encode (a ++ b)
  = match Py.encode a, Py.encode b with
    | Some x, Some y => Some (x ++ y)
    | _, _ => None
    end.
Proof.
  induction a as [|c a IH]; cbn [app Py.encode].
  - destruct (Py.encode b); reflexivity.
  - rewrite IH. destruct (Py.encode_char c) as [x|]; [|reflexivity].
    destruct (Py.encode a) as [xs|]; [|reflexivity].
    destruct (Py.encode b) as [ys|]; [|reflexivity].
    rewrite app_assoc. reflexivity.
Qed.

Lemma encodable_app a b : encodable (a ++ b) <-> encodable a /\ encodable b.
Proof.
  unfold encodable. rewrite encode_app.
  destruct (Py.encode a) as [x|]; destruct (Py.encode b) as [y|]; split;
    try (intros [bs H]; discriminate);
    try (intros [[? ?] [? ?]]; discriminate);
    eauto.
Qed.

Lemma encodable_firstn n s : encodable s -> encodable (firstn n s).
Proof.
  intros H. rewrite <- (firstn_skipn n s) in H.
  apply encodable_app in H. tauto.
Qed.

Lemma encode_ascii s : Forall is_ascii s -> Py.encode s = Some s.
Proof.
  induction 1 as [|c r Hc _ IH]; cbn [Py.encode]; [reflexivity|].
  rewrite IH. unfold Py.encode_char, is_ascii in *.
  destruct (Z.ltb_spec c 0); [lia|].
  destruct (Z.ltb_spec c 128); [reflexivity | lia].
Qed.

Lemma str_ascii n : Forall is_ascii (Py.str n).
Proof.
  assert (D : forall m, 0 <= m -> Forall is_ascii (Py.nat_digits m)).
  { intros m Hm. destruct (nat_digits_shape m Hm) as (ds & _ & Hd & -> & _).
    apply Forall_map. eapply Forall_impl; [|exact Hd].
    intros d. unfold is_digit, is_ascii, Py.digit_char. lia. }
  unfold Py.str. destruct (Z.ltb_spec n 0).
  - constructor; [unfold is_ascii; lia | apply D; lia].
  - apply D; assumption.
Qed.

Lemma hex_char_is_hex n : is_nibble n -> is_hex_char (Hashlib.hex_char n).
Proof. intros H. exact (hex_char_range n H). Qed.

Lemma hex_shape bs :
  Forall is_byte bs ->
  List.length (Hashlib.hex bs) = (2 * List.length bs)%nat
  /\ Forall is_hex_char (Hashlib.hex bs).
Proof.
  induction 1 as [|b r Hb _ [IHl IHf]]; cbn [Hashlib.hex List.length].
  - split; [reflexivity | constructor].
  - split; [rewrite IHl; lia|].
    unfold is_byte in Hb.
    constructor; [|constructor; [|assumption]]; apply hex_char_is_hex;
      unfold is_nibble.
    + split; [apply Z.div_pos; lia | apply Z.div_lt_upper_bound; lia].
    + apply Z.mod_pos_bound; lia.
Qed.

Lemma be_bytes_shape n x :
  List.length (Hashlib.be_bytes n x) = n /\ Forall is_byte (Hashlib.be_bytes n x).
Proof.
  revert x; induction n as [|k IH]; intros x; cbn [Hashlib.be_bytes].
  - split; [reflexivity | constructor].
  - destruct (IH (x / 256)) as [Hl Hf]. split.
    + rewrite length_app, Hl. cbn [List.length]. lia.
    + apply Forall_app. split; [assumption|].
      constructor; [|constructor]. apply Z.mod_pos_bound; lia.
Qed.

Lemma flat_be_bytes_shape ws :
  List.length (flat_map (Hashlib.be_bytes 4) ws) = (4 * List.length ws)%nat
  /\ Forall is_byte (flat_map (Hashlib.be_bytes 4) ws).
Proof.
  induction ws as [|x r [IHl IHf]]; cbn [flat_map List.length].
  - split; [reflexivity | constructor].
  - destruct (be_bytes_shape 4 x) as [Hl Hf]. split.
    + rewrite length_app, Hl, IHl. lia.
    + apply Forall_app. split; assumption.
Qed.

Lemma sha256_round_length st kw :
  List.length st = 8%nat -> List.length (Hashlib.sha256_round st kw) = 8%nat.
Proof.
  intros H. do 9 (destruct st as [|? st]; try discriminate H).
  reflexivity.
Qed.

Lemma sha256_rounds_length l st :
  List.length st = 8%nat ->
  List.length (fold_left Hashlib.sha256_round l st) = 8%nat.
Proof.
  revert st; induction l as [|kw l IH]; intros st H; cbn [fold_left];
    [assumption|].
  apply IH, sha256_round_length, H.
Qed.

Lemma sha256_block_length st blk :
  List.length st = 8%nat -> List.length (Hashlib.sha256_block st blk) = 8%nat.
Proof.
  intros H. unfold Hashlib.sha256_block.
  rewrite length_map, length_combine, sha256_rounds_length by assumption.
  rewrite H. reflexivity.
Qed.

Lemma sha256_blocks_length blks st :
  List.length st = 8%nat ->
  List.length (fold_left Hashlib.sha256_block blks st) = 8%nat.
Proof.
  revert st; induction blks as [|blk blks IH]; intros st H; cbn [fold_left];
    [assumption|].
  apply IH, sha256_block_length, H.
Qed.

(** A SHA-256 hex digest is 64 lower-case hexadecimal digits. *)
Lemma sha256_hexdigest_shape msg :
  List.length (Hashlib.sha256_hexdigest msg) = 64%nat
  /\ Forall is_hex_char (Hashlib.sha256_hexdigest msg).
Proof.
  unfold Hashlib.sha256_hexdigest.
  set (st := fold_left Hashlib.sha256_block (Hashlib.blocks msg)
                       Hashlib.sha256_init).
  assert (Hst : List.length st = 8%nat)
    by (apply sha256_blocks_length; reflexivity).
  destruct (flat_be_bytes_shape st) as [Hl Hf].
  destruct (hex_shape _ Hf) as [Hhl Hhf].
  split; [rewrite Hhl, Hl, Hst; reflexivity | assumption].
Qed.

Lemma hex_chars_ascii s : Forall is_hex_char s -> Forall is_ascii s.
Proof.
  intros H. eapply Forall_impl; [|exact H].
  intros c. unfold is_hex_char, is_ascii. lia.
Qed.

Lemma guid_of_shape id front back g :
  guid_of id front back = Return g ->
  List.length g = 8%nat /\ Forall is_hex_char g.
Proof.
  unfold guid_of. destruct (Py.encode _) as [bs|]; [|discriminate].
  intros H.
  assert (E : g = firstn 8 (Hashlib.sha256_hexdigest bs))
    by (unfold Py.slice_to in H; congruence).
  rewrite E. clear H E.
  destruct (sha256_hexdigest_shape bs) as [Hl Hf]. split.
  - rewrite length_firstn, Hl. reflexivity.
  - rewrite <- (firstn_skipn 8 (Hashlib.sha256_hexdigest bs)) in Hf.
    apply Forall_app in Hf. tauto.
Qed.

Lemma guid_of_encodable id front back :
  encodable front -> encodable back ->
  exists g, guid_of id front back = Return g.
Proof.
  intros [x Hx] [y Hy]. unfold guid_of.
  rewrite !encode_app, (encode_ascii _ (str_ascii id)), Hx, Hy. eauto.
Qed.

Lemma guid_of_unencodable id front back :
  ~ encodable front \/ ~ encodable back ->
  guid_of id front back = Raised UnicodeEncodeError.
Proof.
  intros H. unfold guid_of.
  rewrite !encode_app, (encode_ascii _ (str_ascii id)).
  destruct (Py.encode front) as [x|] eqn:Ex; [|reflexivity].
  destruct (Py.encode back) as [y|] eqn:Ey; [|reflexivity].
  exfalso. destruct H as [H|H]; apply H; eexists; eassumption.
Qed.

Lemma csum_of_encodable s : encodable s -> exists n, csum_of s = Return n.
Proof.
  intros [bs H]. rewrite csum_of_leading_word, H. eauto.
Qed.

Lemma bind_text_encodable s : encodable s -> Sqlite.bind_text s = Return tt.
Proof. intros [bs H]. unfold Sqlite.bind_text. rewrite H. reflexivity. Qed.

End EncodingFacts.

Section RecordWriterProperties.

Variable time_ms : nat -> Z.
Variable randint_0_999 : nat -> Z.

Lemma NoDup_snoc {A} (l : list A) (x : A) :
  NoDup l -> ~ In x l -> NoDup (l ++ [x]).
Proof.
  intros Hl Hx. induction Hl as [|y l Hy Hl IH]; cbn [app].
  - constructor; [intros [] | constructor].
  - constructor.
    + intros K. apply in_app_or in K. destruct K as [K|[K|[]]].
      * exact (Hy K).
      * apply Hx. left. symmetry. exact K.
    + apply IH. intros K. apply Hx. right. exact K.
Qed.

Lemma existsb_note_key id g rows :
  existsb (fun r => (note_id r =? id) || Py.str_eqb (guid r) g) rows = true
  <-> In id (map note_id rows) \/ In g (map guid rows).
Proof.
  rewrite existsb_exists. split.
  - intros (r & Hin & H). apply orb_true_iff in H. destruct H as [H|H].
    + left. apply Z.eqb_eq in H. subst id. apply in_map. assumption.
    + right. apply str_eqb_eq in H. subst g. apply in_map. assumption.
  - intros [H|H]; apply in_map_iff in H; destruct H as (r & E & Hin);
      exists r; (split; [assumption|]); apply orb_true_iff.
    + left. apply Z.eqb_eq. assumption.
    + right. apply str_eqb_eq. assumption.
Qed.

Lemma existsb_card_key id rows :
  existsb (fun r => card_id r =? id) rows = true <-> In id (map card_id rows).
Proof.
  rewrite existsb_exists. split.
  - intros (r & Hin & H). apply Z.eqb_eq in H. subst id.
    apply in_map. assumption.
  - intros H. apply in_map_iff in H. destruct H as (r & E & Hin).
    exists r. split; [assumption | apply Z.eqb_eq; assumption].
Qed.

Lemma insert_note_Return n db c :
  Sqlite.insert_note n (Sqlite.View db) = Return c ->
  c = Sqlite.View (Database (col db) (notes db ++ [n]) (cards db))
  /\ ~ In (note_id n) (map note_id (notes db))
  /\ ~ In (guid n) (map guid (notes db)).
Proof.
  unfold Sqlite.insert_note. cbn [Sqlite.view].
  destruct (Sqlite.bind_text (guid n)); [|discriminate].
  destruct (Sqlite.bind_text (note_tags n)); [|discriminate].
  destruct (Sqlite.bind_text (flds n)); [|discriminate].
  destruct (Sqlite.bind_text (sfld n)); [|discriminate].
  destruct (existsb _ (notes db)) eqn:E; [discriminate|].
  intros H. inversion H. split; [reflexivity|].
  assert (N : ~ (In (note_id n) (map note_id (notes db))
                 \/ In (guid n) (map guid (notes db)))).
  { intros K. apply existsb_note_key in K. congruence. }
  tauto.
Qed.

Lemma insert_card_Return k db c :
  Sqlite.insert_card k (Sqlite.View db) = Return c ->
  c = Sqlite.View (Database (col db) (notes db) (cards db ++ [k]))
  /\ ~ In (card_id k) (map card_id (cards db)).
Proof.
  unfold Sqlite.insert_card. cbn [Sqlite.view].
  destruct (existsb _ (cards db)) eqn:E; [discriminate|].
  intros H. inversion H. split; [reflexivity|].
  intros K. apply existsb_card_key in K. congruence.
Qed.

(** [add_note] once the deck is resolved, step by step. *)
Lemma add_note_after_deck front back dn tags w resolved w1 db1 :
  create_deck time_ms dn w = Ok resolved w1 ->
  disk w1 = Tables db1 ->
  add_note time_ms randint_0_999 front back dn tags w =
  let id := time_ms (clock_reads w1) + randint_0_999 (rand_draws w1) in
  let now := time_ms (S (clock_reads w1)) in
  let wa := World (Tables db1) (S (clock_reads w1)) (S (rand_draws w1)) in
  let wb := World (Tables db1) (S (S (clock_reads w1))) (S (rand_draws w1)) in
  match guid_of id front back with
  | Raised e => Raise e wa
  | Return g =>
      match csum_of (sfld_of front) with
      | Raised e => Raise e wb
      | Return cs =>
          match Sqlite.insert_note
                  (NoteRow id g 1 now 0 (tags_str tags)
                           (front ++ [31] ++ back) (sfld_of front) cs 0 [])
                  (Sqlite.View db1) with
          | Raised e => Raise e wb
          | Return c1 =>
              match Sqlite.insert_card
                      (CardRow (id + 1) id resolved 0 now 0
                               0 0 0 0 0 0 0 0 0 0 0 []) c1 with
              | Raised e => Raise e wb
              | Return c2 =>
                  match Sqlite.update_col_mod now c2 with
                  | Raised e => Raise e wb
                  | Return c3 =>
                      match Sqlite.commit c3 wb with
                      | Ok _ w2 => Ok id w2
                      | Raise e w2 => Raise e w2
                      end
                  end
              end
          end
      end
  end.
Proof.
  intros Hc Hdb1. unfold add_note, bind at 1. rewrite Hc.
  destruct w1 as [d c r]. cbn [disk clock_reads rand_draws] in *. subst d.
  unfold bind, Sqlite.connect, now_ms, randint, lift, ret.
  cbn [disk clock_reads rand_draws]. cbv zeta.
  destruct (guid_of _ front back) as [g|e]; [|reflexivity].
  destruct (csum_of (sfld_of front)) as [cs|e]; [|reflexivity].
  destruct (Sqlite.insert_note _ _) as [c1|e]; [|reflexivity].
  destruct (Sqlite.insert_card _ c1) as [c2|e]; [|reflexivity].
  destruct (Sqlite.update_col_mod _ c2) as [c3|e]; [|reflexivity].
  destruct (Sqlite.commit c3 _); reflexivity.
Qed.

(** X8. When the deck is resolved and front, back and tags can be
    encoded, [add_note] returns exactly when the id it draws is new to
    [notes], the guid is new to [notes] and the id plus one is new to
    [cards]; otherwise it raises [IntegrityError] and the file stays as
    deck resolution left it. *)
Theorem add_note_returns_iff_keys_new front back dn tags w resolved w1 db1 :
  create_deck time_ms dn w = Ok resolved w1 ->
  disk w1 = Tables db1 ->
  encodable front -> encodable back -> encodable (tags_str tags) ->
  exists g,
    guid_of (time_ms (clock_reads w1) + randint_0_999 (rand_draws w1))
            front back = Return g
    /\ ((~ In (time_ms (clock_reads w1) + randint_0_999 (rand_draws w1))
             (map note_id (notes db1))
         /\ ~ In g (map guid (notes db1))
         /\ ~ In (time_ms (clock_reads w1) + randint_0_999 (rand_draws w1) + 1)
                 (map card_id (cards db1))) ->
        exists w2,
          add_note time_ms randint_0_999 front back dn tags w
          = Ok (time_ms (clock_reads w1) + randint_0_999 (rand_draws w1)) w2)
    /\ ((In (time_ms (clock_reads w1) + randint_0_999 (rand_draws w1))
            (map note_id (notes db1))
         \/ In g (map guid (notes db1))
         \/ In (time_ms (clock_reads w1) + randint_0_999 (rand_draws w1) + 1)
               (map card_id (cards db1))) ->
        exists w2,
          add_note time_ms randint_0_999 front back dn tags w
          = Raise IntegrityError w2
          /\ disk w2 = disk w1).
Proof.
  intros Hc Hdb1 Hf Hb Ht.
  set (id := time_ms (clock_reads w1) + randint_0_999 (rand_draws w1)).
  destruct (guid_of_encodable id front back Hf Hb) as [g Hg].
  exists g. split; [exact Hg|].
  destruct (csum_of_encodable (sfld_of front)) as [cs Hcs].
  { rewrite sfld_of_firstn. apply encodable_firstn. exact Hf. }
  assert (Hflds : encodable (front ++ [31] ++ back)).
  { apply encodable_app. split; [assumption|].
    apply encodable_app. split; [eexists; reflexivity | assumption]. }
  assert (Hguid : encodable g).
  { eexists. apply encode_ascii, hex_chars_ascii.
    exact (proj2 (guid_of_shape _ _ _ _ Hg)). }
  assert (Hsf : encodable (sfld_of front)).
  { rewrite sfld_of_firstn. apply encodable_firstn. exact Hf. }
  rewrite (add_note_after_deck front back dn tags w resolved w1 db1 Hc Hdb1).
  cbv zeta. fold id. rewrite Hg, Hcs.
  unfold Sqlite.insert_note. cbn [Sqlite.view guid note_tags flds sfld note_id].
  rewrite (bind_text_encodable _ Hguid), (bind_text_encodable _ Ht),
    (bind_text_encodable _ Hflds), (bind_text_encodable _ Hsf).
  destruct (existsb _ (notes db1)) eqn:En.
  - apply existsb_note_key in En. split.
    + intros (N1 & N2 & _). exfalso. tauto.
    + intros _. eexists. split; [reflexivity|]. cbn [disk]. auto.
  - assert (Nn : ~ (In id (map note_id (notes db1))
                    \/ In g (map guid (notes db1)))).
    { intros K. apply existsb_note_key in K. congruence. }
    unfold Sqlite.insert_card. cbn [Sqlite.view cards card_id].
    destruct (existsb _ (cards db1)) eqn:Ec.
    + apply existsb_card_key in Ec. split.
      * intros (_ & _ & N3). exfalso. tauto.
      * intros _. eexists. split; [reflexivity|]. cbn [disk]. auto.
    + assert (Nc : ~ In (id + 1) (map card_id (cards db1))).
      { intros K. apply existsb_card_key in K. congruence. }
      split.
      * intros _. eexists. reflexivity.
      * intros [K|[K|K]]; exfalso; tauto.
Qed.

(** A returning [add_note], with what made its insertions go through. *)
Lemma add_note_Ok_keys front back dn tags w noteid w2 :
  add_note time_ms randint_0_999 front back dn tags w = Ok noteid w2 ->
  exists resolved w1 db1 db2 n c,
    create_deck time_ms dn w = Ok resolved w1
    /\ disk w1 = Tables db1 /\ disk w2 = Tables db2
    /\ notes db2 = notes db1 ++ [n] /\ cards db2 = cards db1 ++ [c]
    /\ note_id n = noteid /\ nid c = noteid /\ card_id c = noteid + 1
    /\ did c = resolved
    /\ guid_of noteid front back = Return (guid n)
    /\ note_mod n = card_mod c
    /\ ~ In (note_id n) (map note_id (notes db1))
    /\ ~ In (guid n) (map guid (notes db1))
    /\ ~ In (card_id c) (map card_id (cards db1)).
Proof.
  intros H.
  destruct (add_note_Ok _ _ _ _ _ _ _ _ _ H)
    as (resolved & w1 & db1 & g & cs & Hc & Hdb1 & Hid & Hg & Hcs & Hw2).
  pose proof H as H'.
  rewrite (add_note_after_deck front back dn tags w resolved w1 db1 Hc Hdb1)
    in H'.
  cbv zeta in H'. rewrite <- Hid, Hg, Hcs in H'.
  destruct (Sqlite.insert_note _ _) as [c1|e] eqn:E1; [|discriminate].
  destruct (insert_note_Return _ _ _ E1) as (-> & N1 & N2).
  destruct (Sqlite.insert_card _ _) as [c2|e] eqn:E2; [|discriminate].
  destruct (insert_card_Return _ _ _ E2) as (-> & N3).
  cbn [cards note_id guid card_id] in N1, N2, N3.
  exists resolved, w1, db1. eexists. eexists. eexists.
  split; [assumption|]. split; [assumption|].
  split; [rewrite Hw2; reflexivity|].
  cbn [notes cards note_id nid card_id did guid note_mod card_mod].
  repeat split; try reflexivity; assumption.
Qed.

Lemma add_note_keys_unique front back dn tags w db :
  disk w = Tables db -> keys_unique db ->
  exists db2,
    disk (world_of (add_note time_ms randint_0_999 front back dn tags w))
    = Tables db2
    /\ keys_unique db2.
Proof.
  intros Hdb (U1 & U2 & U3).
  destruct (create_deck_keeps_tables time_ms dn w db Hdb)
    as (db1 & Hdb1 & Hn1 & Hk1 & _).
  destruct (add_note time_ms randint_0_999 front back dn tags w)
    as [noteid w2|e w2] eqn:H; cbn [world_of].
  - destruct (add_note_Ok_keys _ _ _ _ _ _ _ H)
      as (resolved & w1 & db1' & db2 & n & c & Hc & Hd1 & Hd2 & Hn & Hk
          & _ & _ & _ & _ & _ & _ & N1 & N2 & N3).
    rewrite Hc in Hdb1. cbn [world_of] in Hdb1. rewrite Hd1 in Hdb1.
    inversion Hdb1; subst db1'.
    exists db2. split; [assumption|]. unfold keys_unique.
    rewrite Hn, Hk, !map_app, Hn1, Hk1 in *. cbn [map].
    repeat split; apply NoDup_snoc; assumption.
  - destruct (add_note_Raise _ _ _ _ _ _ _ _ _ H) as [Hr|(d' & w1 & Hc & Hd)].
    + rewrite Hr in Hdb1. cbn [world_of] in Hdb1.
      exists db1. split; [assumption|]. unfold keys_unique.
      rewrite Hn1, Hk1. auto.
    + rewrite Hc in Hdb1. cbn [world_of] in Hdb1.
      exists db1. split; [congruence|]. unfold keys_unique.
      rewrite Hn1, Hk1. auto.
Qed.


Lemma deck_document_disk w w' :
  disk w = disk w' -> deck_document w = deck_document w'.
Proof. unfold deck_document. intros ->. reflexivity. Qed.

Lemma deck_document_set_mod db now c r c' r' :
  deck_document
    (World (Tables (Database (Sqlite.update_where_id_1 (Sqlite.set_mod now)
                                                       (col db))
                             (notes db ++ c) (cards db ++ r))) c' r')
  = deck_document (World (Tables db) c' r').
Proof.
  unfold deck_document. cbn [disk col].
  rewrite find_update_where_id_1 by reflexivity.
  destruct (find _ (col db)) as [row|]; reflexivity.
Qed.

Lemma cards_linked_weaken db (items : pydict) db' (items' : pydict) :
  Forall (fun c => In (nid c) (map note_id (notes db))
                   /\ exists e, In e items /\ Py.int (fst e) = Some (did c))
         (cards db) ->
  incl (notes db) (notes db') -> incl items items' ->
  Forall (fun c => In (nid c) (map note_id (notes db'))
                   /\ exists e, In e items' /\ Py.int (fst e) = Some (did c))
         (cards db).
Proof.
  intros H Hn Hi. eapply Forall_impl; [|exact H].
  intros c (Hc & e & He & Hk). split.
  - apply in_map_iff in Hc. destruct Hc as (n & E & Hin).
    apply in_map_iff. exists n. split; [assumption | apply Hn; assumption].
  - exists e. split; [apply Hi; assumption | assumption].
Qed.

Lemma create_deck_linked name w :
  cards_linked w -> cards_linked (world_of (create_deck time_ms name w)).
Proof.
  intros (db & items & Hdb & Hdoc & Hall).
  destruct (create_deck time_ms name w) as [id w1|e w1] eqn:H; cbn [world_of].
  - destruct (create_deck_document _ _ _ _ _ _ Hdoc H)
      as [(-> & _)|(_ & _ & Hdoc1 & db0 & db1 & Hdb0 & Hdb1 & Hn & Hk)].
    + exists db, items. auto.
    + rewrite Hdb in Hdb0. inversion Hdb0; subst db0.
      exists db1. eexists. split; [assumption|]. split; [exact Hdoc1|].
      rewrite Hk.
      apply (cards_linked_weaken db items); [assumption| |].
      * rewrite Hn. apply incl_refl.
      * apply incl_appl, incl_refl.
  - rewrite (create_deck_Raise _ _ _ _ _ H).
    assert (Hc : connected w = w)
      by (destruct w; unfold connected; cbn in *; rewrite Hdb; reflexivity).
    rewrite Hc. exists db, items. auto.
Qed.

Lemma add_note_linked front back dn tags w :
  cards_linked w ->
  cards_linked (world_of (add_note time_ms randint_0_999 front back dn tags w)).
Proof.
  intros Hl. pose proof (create_deck_linked dn w Hl) as Hl1.
  destruct Hl as (db & items & Hdb & Hdoc & _).
  destruct (add_note time_ms randint_0_999 front back dn tags w)
    as [noteid w2|e w2] eqn:H; cbn [world_of].
  - destruct (add_note_Ok _ _ _ _ _ _ _ _ _ H)
      as (resolved & w1 & db1 & g & cs & Hc & Hdb1 & Hid & _ & _ & ->).
    rewrite Hc in Hl1. cbn [world_of] in Hl1.
    destruct Hl1 as (db1' & items1 & Hdb1' & Hdoc1 & Hall1).
    rewrite Hdb1 in Hdb1'. inversion Hdb1'; subst db1'.
    assert (Hres : exists e, In e items1 /\ Py.int (fst e) = Some resolved).
    { destruct (create_deck_document _ _ _ _ _ _ Hdoc Hc)
        as [(-> & e & Hin & _ & Hi)|(_ & _ & Hd1 & _)].
      - rewrite Hdoc in Hdoc1. inversion Hdoc1; subst items1. eauto.
      - rewrite Hd1 in Hdoc1. inversion Hdoc1; subst items1.
        eexists. split; [apply in_or_app; right; left; reflexivity|].
        apply int_str. }
    eexists. exists items1. split; [reflexivity|]. split.
    + rewrite deck_document_set_mod. rewrite <- Hdoc1.
      apply deck_document_disk. cbn [disk]. symmetry. assumption.
    + cbn [cards notes]. apply Forall_app. split.
      * eapply Forall_impl; [|exact Hall1].
        intros c (Hn & He). split; [|exact He].
        rewrite map_app. apply in_or_app. left. assumption.
      * constructor; [|constructor]. cbn [nid did]. split; [|exact Hres].
        rewrite map_app. apply in_or_app. right. left. reflexivity.
  - destruct (add_note_Raise _ _ _ _ _ _ _ _ _ H) as [Hr|(d' & w1 & Hc & Hd)].
    + rewrite Hr in Hl1. exact Hl1.
    + rewrite Hc in Hl1. cbn [world_of] in Hl1.
      destruct Hl1 as (db1 & items1 & Hdb1 & Hdoc1 & Hall1).
      exists db1, items1. split; [congruence|].
      split; [|assumption].
      rewrite <- Hdoc1. apply deck_document_disk. assumption.
Qed.

(** X9. [add_note] and [add_notes_batch] keep the keys unique, whatever
    their outcome: no two notes share an id or a guid and no two cards
    share an id after the call if none did before. *)
Theorem keys_stay_unique w db :
  disk w = Tables db -> keys_unique db ->
  (forall front back dn tags,
      exists db2,
        disk (world_of (add_note time_ms randint_0_999 front back dn tags w))
        = Tables db2
        /\ keys_unique db2)
  /\ (forall rs,
         exists db2,
           disk (world_of (add_notes_batch time_ms randint_0_999 rs w))
           = Tables db2
           /\ keys_unique db2).
Proof.
  intros Hdb Hu.
  split; [intros; apply (add_note_keys_unique _ _ _ _ w db); assumption|].
  intros rs. revert w db Hdb Hu.
  induction rs as [|r rest IH]; intros w db Hdb Hu.
  - exists db. auto.
  - rewrite add_notes_batch_cons.
    destruct (note_args r) as [[[[front back] dn] tags]|e];
      [|exists db; auto].
    destruct (add_note_keys_unique front back dn tags w db Hdb Hu)
      as (db1 & Hdb1 & Hu1).
    destruct (add_note time_ms randint_0_999 front back dn tags w)
      as [id w1|e w1]; [|exists db1; auto].
    cbn [world_of] in Hdb1.
    destruct (IH w1 db1 Hdb1 Hu1) as (db2 & Hdb2 & Hu2).
    exists db2. split; [|assumption].
    destruct (add_notes_batch time_ms randint_0_999 rest w1); exact Hdb2.
Qed.

(** X10. [create_deck], [add_note] and [add_notes_batch] keep the
    references sound, whatever their outcome: if every card refers to a
    note of table [notes] and to a deck of the deck document before the
    call, so does every card after it. *)
Theorem references_stay_sound w :
  cards_linked w ->
  (forall name, cards_linked (world_of (create_deck time_ms name w)))
  /\ (forall front back dn tags,
         cards_linked
           (world_of (add_note time_ms randint_0_999 front back dn tags w)))
  /\ (forall rs,
         cards_linked
           (world_of (add_notes_batch time_ms randint_0_999 rs w))).
Proof.
  intros Hl.
  split; [intros; apply create_deck_linked; assumption|].
  split; [intros; apply add_note_linked; assumption|].
  intros rs. revert w Hl. induction rs as [|r rest IH]; intros w Hl;
    [exact Hl|].
  rewrite add_notes_batch_cons.
  destruct (note_args r) as [[[[front back] dn] tags]|e]; [|exact Hl].
  pose proof (add_note_linked front back dn tags w Hl) as Ha.
  destruct (add_note time_ms randint_0_999 front back dn tags w)
    as [id w1|e w1]; [|exact Ha].
  cbn [world_of] in Ha. specialize (IH w1 Ha).
  destruct (add_notes_batch time_ms randint_0_999 rest w1); exact IH.
Qed.

(** X11. Text that cannot be encoded makes [add_note] raise
    [UnicodeEncodeError] once the deck is resolved: a front or a back with
    a lone surrogate stops it before any insertion, tags with one stop
    the insertion of the note. The file stays as deck resolution left
    it. *)
Theorem add_note_unencodable front back dn tags w resolved w1 :
  create_deck time_ms dn w = Ok resolved w1 ->
  (~ encodable front \/ ~ encodable back
   \/ (encodable front /\ encodable back /\ ~ encodable (tags_str tags))) ->
  exists w2,
    add_note time_ms randint_0_999 front back dn tags w
    = Raise UnicodeEncodeError w2
    /\ disk w2 = disk w1.
Proof.
  intros Hc Hbad.
  destruct (create_deck_Ok_disk _ _ _ _ _ Hc) as [db1 Hdb1].
  rewrite (add_note_after_deck front back dn tags w resolved w1 db1 Hc Hdb1).
  cbv zeta.
  set (id := time_ms (clock_reads w1) + randint_0_999 (rand_draws w1)).
  destruct Hbad as [Hf|[Hb|(Hf & Hb & Ht)]].
  - rewrite (guid_of_unencodable id front back (or_introl Hf)).
    eexists. split; [reflexivity | cbn [disk]; auto].
  - rewrite (guid_of_unencodable id front back (or_intror Hb)).
    eexists. split; [reflexivity | cbn [disk]; auto].
  - destruct (guid_of_encodable id front back Hf Hb) as [g Hg]. rewrite Hg.
    destruct (csum_of_encodable (sfld_of front)) as [cs Hcs].
    { rewrite sfld_of_firstn. apply encodable_firstn. exact Hf. }
    rewrite Hcs. unfold Sqlite.insert_note.
    cbn [Sqlite.view guid note_tags flds sfld note_id].
    assert (Hguid : encodable g).
    { eexists. apply encode_ascii, hex_chars_ascii.
      exact (proj2 (guid_of_shape _ _ _ _ Hg)). }
    rewrite (bind_text_encodable _ Hguid).
    assert (Hbt : Sqlite.bind_text (tags_str tags) = Raised UnicodeEncodeError).
    { unfold Sqlite.bind_text.
      destruct (Py.encode (tags_str tags)) as [bs|] eqn:E; [|reflexivity].
      exfalso. apply Ht. eexists. exact E. }
    rewrite Hbt. eexists. split; [reflexivity | cbn [disk]; auto].
Qed.

(** X12. The guid [add_note] stores is eight lower-case hexadecimal
    digits, the first eight of the SHA-256 digest of the note id written
    in decimal followed by front and back; the note and its card carry the
    same modification time. *)
Theorem add_note_guid front back dn tags w noteid w2 :
  add_note time_ms randint_0_999 front back dn tags w = Ok noteid w2 ->
  exists db2 n c bs,
    disk w2 = Tables db2 /\ In n (notes db2) /\ In c (cards db2)
    /\ note_id n = noteid /\ nid c = noteid
    /\ Py.encode (Py.str noteid ++ front ++ back) = Some bs
    /\ guid n = firstn 8 (Hashlib.sha256_hexdigest bs)
    /\ List.length (guid n) = 8%nat
    /\ Forall is_hex_char (guid n)
    /\ note_mod n = card_mod c.
Proof.
  intros H.
  destruct (add_note_Ok_keys _ _ _ _ _ _ _ H)
    as (resolved & w1 & db1 & db2 & n & c & _ & _ & Hd2 & Hn & Hk
        & Hid & Hnid & _ & _ & Hg & Hm & _).
  destruct (guid_of_shape _ _ _ _ Hg) as [Hl Hh].
  unfold guid_of in Hg.
  destruct (Py.encode (Py.str noteid ++ front ++ back)) as [bs|] eqn:E;
    [|discriminate].
  exists db2, n, c, bs.
  split; [assumption|].
  split; [rewrite Hn; apply in_or_app; right; left; reflexivity|].
  split; [rewrite Hk; apply in_or_app; right; left; reflexivity|].
  split; [assumption|]. split; [assumption|]. split; [reflexivity|].
  split; [unfold Py.slice_to in Hg; congruence|].
  repeat split; assumption.
Qed.

(** X13. A batch over two lists run one after the other is the batch
    over the first list followed, when that one returns, by the batch
    over the second in the world the first one left; the ids come back in
    that order. *)
Theorem add_notes_batch_app xs ys w :
  add_notes_batch time_ms randint_0_999 (xs ++ ys) w =
  match add_notes_batch time_ms randint_0_999 xs w with
  | Ok ids w1 =>
      match add_notes_batch time_ms randint_0_999 ys w1 with
      | Ok ids' w2 => Ok (ids ++ ids') w2
      | Raise e w2 => Raise e w2
      end
  | Raise e w1 => Raise e w1
  end.
Proof.
  revert w; induction xs as [|r rest IH]; intros w.
  - assert (E : add_notes_batch time_ms randint_0_999 [] w = Ok [] w)
      by reflexivity.
    rewrite E. cbn [app].
    destruct (add_notes_batch time_ms randint_0_999 ys w); reflexivity.
  - cbn [app]. rewrite !add_notes_batch_cons.
    destruct (note_args r) as [[[[front back] dn] tags]|e]; [|reflexivity].
    destruct (add_note time_ms randint_0_999 front back dn tags w)
      as [id w1|e w1]; [|reflexivity].
    rewrite IH.
    destruct (add_notes_batch time_ms randint_0_999 rest w1)
      as [ids w2|e w2]; [|reflexivity].
    destruct (add_notes_batch time_ms randint_0_999 ys w2); reflexivity.
Qed.

(** What [add_notes_batch] does with keys a record lacks: without
    [front] or without [back] the record raises [KeyError] before
    anything is read or written, whatever its other keys; without
    [deck_name] the note goes to the deck named Default, and without
    [tags] it is added with no tags. *)
Lemma add_notes_batch_missing_keys r rest w :
  ((nd_front r = None \/ nd_back r = None) ->
   add_notes_batch time_ms randint_0_999 (r :: rest) w = Raise KeyError w)
  /\ (forall front back,
         nd_front r = Some front -> nd_back r = Some back ->
         nd_deck_name r = None ->
         add_notes_batch time_ms randint_0_999 [r] w =
         match add_note time_ms randint_0_999 front back (Py.lit "Default")
                        (nd_tags r) w with
         | Ok id w1 => Ok [id] w1
         | Raise e w1 => Raise e w1
         end)
  /\ (forall front back dn,
         nd_front r = Some front -> nd_back r = Some back ->
         nd_deck_name r = Some dn -> nd_tags r = None ->
         add_notes_batch time_ms randint_0_999 [r] w =
         match add_note time_ms randint_0_999 front back dn (Some []) w with
         | Ok id w1 => Ok [id] w1
         | Raise e w1 => Raise e w1
         end).
Proof.
  split; [|split].
  - intros H. rewrite add_notes_batch_cons. unfold note_args.
    destruct H as [-> | H]; [reflexivity|].
    destruct (nd_front r); [rewrite H|]; reflexivity.
  - intros front back Hf Hb Hd. rewrite add_notes_batch_cons.
    unfold note_args. rewrite Hf, Hb, Hd.
    destruct (add_note _ _ _ _ _ _ w); reflexivity.
  - intros front back dn Hf Hb Hd Ht. rewrite add_notes_batch_cons.
    unfold note_args. rewrite Hf, Hb, Hd, Ht.
    change (add_note time_ms randint_0_999 front back dn None w)
      with (add_note time_ms randint_0_999 front back dn (Some []) w).
    destruct (add_note _ _ _ _ _ _ w); reflexivity.
Qed.

End RecordWriterProperties.

(* ================================================================== *)
(** * Properties of [Config] *)
(* ================================================================== *)

Section ConfigProperties.

Lemma split_once_cases sep s :
  (~ In sep s /\ PyMore.split_once sep s = [s])
  \/ (exists a b, s = a ++ sep :: b /\ ~ In sep a
                  /\ PyMore.split_once sep s = [a; b]).
Proof.
  induction s as [|c r IH]; cbn [PyMore.split_once].
  - left. split; [intros [] | reflexivity].
  - destruct (Z.eqb_spec c sep) as [->|Hne].
    + right. exists [], r. repeat split. intros [].
    + destruct IH as [[Hn ->]|(a & b & -> & Hn & ->)].
      * left. split; [|reflexivity]. intros [E|K]; [congruence | exact (Hn K)].
      * right. exists (c :: a), b. repeat split.
        intros [E|K]; [congruence | exact (Hn K)].
Qed.

Lemma split_once_at sep a b :
  ~ In sep a -> PyMore.split_once sep (a ++ sep :: b) = [a; b].
Proof.
  intros Hn. induction a as [|c a IH]; cbn [app PyMore.split_once].
  - rewrite Z.eqb_refl. reflexivity.
  - destruct (Z.eqb_spec c sep) as [->|Hne]; [exfalso; apply Hn; left; reflexivity|].
    rewrite IH; [reflexivity|]. intros K. apply Hn. right. exact K.
Qed.

(** X14. [get_primary_user] cuts [SYNC_USER1] at its first colon: it
    returns [(u, p)] exactly when [SYNC_USER1] is [u], a colon, [p] with
    no colon in [u] (there may be some in [p], and either may be empty);
    it raises [ValueError] exactly when [SYNC_USER1] has no colon, and
    never anything else. *)
Theorem get_primary_user_cuts_at_colon cls :
  (forall u p,
      get_primary_user cls = Return (u, p)
      <-> SYNC_USER1 cls = u ++ [58] ++ p /\ ~ In 58 u)
  /\ (get_primary_user cls = Raised ValueError <-> ~ In 58 (SYNC_USER1 cls))
  /\ (forall e, get_primary_user cls = Raised e -> e = ValueError).
Proof.
  unfold get_primary_user.
  destruct (split_once_cases 58 (SYNC_USER1 cls))
    as [[Hn Hs]|(a & b & Hs & Hn & Hsplit)].
  - rewrite Hs.
    assert (E : match SYNC_USER1 cls with
                | [] => @Raised (pystr * pystr) ValueError
                | _ :: _ => Raised ValueError
                end = Raised ValueError)
      by (destruct (SYNC_USER1 cls); reflexivity).
    rewrite E. split; [|split].
    + intros u p. split; [discriminate|].
      intros [K _]. exfalso. apply Hn. rewrite K.
      apply in_or_app. right. left. reflexivity.
    + tauto.
    + intros e H. congruence.
  - rewrite Hsplit, Hs. cbv iota.
    assert (E : forall (T : Type) (X Y : T),
                match a ++ 58 :: b with
                | [] => X
                | _ :: _ => Y
                end = Y)
      by (intros; destruct a; reflexivity).
    rewrite !E. split; [|split].
    + intros u p. split.
      * intros H. inversion H; subst. auto.
      * intros [K Hu].
        assert (Hs' : PyMore.split_once 58 (a ++ 58 :: b) = [u; p]).
        { rewrite K. apply (split_once_at 58 u p Hu). }
        rewrite (split_once_at 58 a b Hn) in Hs'. congruence.
    + split; [discriminate|]. intros K. exfalso. apply K.
      apply in_or_app. right. left. reflexivity.
    + intros e H. discriminate.
Qed.

(** X15. [validate] returns exactly when the API key is not empty and
    [SYNC_USER1] has a colon; otherwise it raises [ValueError]. A name or
    a password that is empty passes. *)
Theorem validate_accepts cls :
  (validate cls = Return tt
   <-> ANTHROPIC_API_KEY cls <> [] /\ In 58 (SYNC_USER1 cls))
  /\ (validate cls <> Return tt -> validate cls = Raised ValueError).
Proof.
  unfold validate, get_primary_user.
  destruct (ANTHROPIC_API_KEY cls) as [|k key].
  - split; [split; [discriminate | intros [K _]; congruence] | reflexivity].
  - destruct (split_once_cases 58 (SYNC_USER1 cls))
      as [[Hn Hs]|(a & b & Hs & Hn & Hsplit)].
    + rewrite Hs. destruct (SYNC_USER1 cls) as [|c r].
      * split; [split; [discriminate | intros [_ []]] | reflexivity].
      * split; [split; [discriminate | intros [_ K]; tauto] | reflexivity].
    + rewrite Hsplit, Hs. destruct a as [|c a]; cbn [app].
      * split; [|congruence]. split; [|reflexivity].
        intros _. split; [discriminate | left; reflexivity].
      * split; [|congruence]. split; [|reflexivity].
        intros _. split; [discriminate|]. right.
        apply in_or_app. right. left. reflexivity.
Qed.

Lemma startswith_cons c s p :
  PyMore.startswith (c :: s) [p] = (c =? p).
Proof. cbn [PyMore.startswith]. destruct s; apply andb_true_r. Qed.

Lemma endswith_snoc s c p :
  PyMore.endswith (s ++ [c]) [p] = (c =? p).
Proof.
  unfold PyMore.endswith. rewrite rev_app_distr. cbn [rev app].
  apply startswith_cons.
Qed.

Lemma join_step_relative path b :
  PyMore.startswith b [47] = false ->
  exists sep, (sep = [] \/ sep = [47])
              /\ PyMore.join_step path b = path ++ sep ++ b.
Proof.
  intros H. unfold PyMore.join_step. rewrite H.
  destruct (_ || _).
  - exists []. split; [left; reflexivity | reflexivity].
  - exists [47]. split; [right; reflexivity | reflexivity].
Qed.

(** X16. The collection path of a user: it always ends with the file name
    [collection.anki2]; for a name that does not begin with a slash it
    begins with [SYNC_BASE], and when [SYNC_BASE] does not end with a
    slash and the name is not empty and has no slash, it is [SYNC_BASE],
    the name and the file name separated by slashes; a name that begins
    with a slash replaces [SYNC_BASE] altogether. With no name given the
    path is that of the primary user, or the [ValueError] of
    [get_primary_user]. *)
Theorem collection_path_of_user cls u :
  exists path,
    get_user_collection_path cls (Some u) = Return path
    /\ (exists dir, path = dir ++ Py.lit "collection.anki2")
    /\ (PyMore.startswith u [47] = false ->
        exists rest, path = SYNC_BASE cls ++ rest)
    /\ (SYNC_BASE cls <> [] ->
        PyMore.endswith (SYNC_BASE cls) [47] = false ->
        u <> [] -> ~ In 47 u ->
        path = SYNC_BASE cls ++ [47] ++ u ++ [47] ++ Py.lit "collection.anki2")
    /\ (PyMore.startswith u [47] = true ->
        path = PyMore.path_join u [Py.lit "collection.anki2"])
    /\ get_user_collection_path cls None
       = match get_primary_user cls with
         | Return (name, _) => get_user_collection_path cls (Some name)
         | Raised e => Raised e
         end.
Proof.
  unfold get_user_collection_path, PyMore.path_join. cbn [fold_left].
  eexists. split; [reflexivity|].
  assert (Hfile : PyMore.startswith (Py.lit "collection.anki2") [47] = false)
    by reflexivity.
  split; [|split; [|split; [|split]]].
  - destruct (join_step_relative (PyMore.join_step (SYNC_BASE cls) u)
                (Py.lit "collection.anki2") Hfile) as (sep & _ & ->).
    exists (PyMore.join_step (SYNC_BASE cls) u ++ sep).
    rewrite app_assoc. reflexivity.
  - intros Hu.
    destruct (join_step_relative (SYNC_BASE cls) u Hu) as (s1 & _ & ->).
    destruct (join_step_relative (SYNC_BASE cls ++ s1 ++ u)
                (Py.lit "collection.anki2") Hfile) as (s2 & _ & ->).
    eexists. rewrite <- !app_assoc. reflexivity.
  - intros Hb He Hu Hs.
    destruct (exists_last Hu) as (u' & c & ->).
    assert (Hc : c <> 47).
    { intros ->. apply Hs. apply in_or_app. right. left. reflexivity. }
    assert (Hstart : PyMore.startswith (u' ++ [c]) [47] = false).
    { destruct u' as [|d u']; cbn [app]; rewrite startswith_cons;
        apply Z.eqb_neq; [exact Hc|].
      intros ->. apply Hs. left. reflexivity. }
    unfold PyMore.join_step at 2. rewrite Hstart, He.
    destruct (SYNC_BASE cls) as [|b0 base] eqn:Eb; [congruence|].
    cbn [orb]. unfold PyMore.join_step. rewrite Hfile.
    replace ((b0 :: base) ++ [47] ++ u' ++ [c])
      with (((b0 :: base) ++ [47] ++ u') ++ [c])
      by (rewrite <- !app_assoc; reflexivity).
    rewrite endswith_snoc.
    replace (c =? 47) with false by (symmetry; apply Z.eqb_neq; exact Hc).
    cbn [app orb]. rewrite <- !app_assoc. reflexivity.
  - intros Hu. unfold PyMore.join_step at 2. rewrite Hu. reflexivity.
  - destruct (get_primary_user cls) as [[name pw]|e]; reflexivity.
Qed.

End ConfigProperties.

(* ================================================================== *)
(** * Properties of [_parse_flashcards] *)
(* ================================================================== *)

Section FenceFacts.

Lemma lstrip_spaces pre s :
  Forall (fun c => Py.isspace c = true) pre ->
  Py.lstrip (pre ++ s) = Py.lstrip s.
Proof.
  induction 1 as [|c pre Hc _ IH]; cbn [app]; [reflexivity|].
  cbn [Py.lstrip]. rewrite Hc. exact IH.
Qed.

Lemma strip_core pre post c m d :
  Forall (fun x => Py.isspace x = true) pre ->
  Forall (fun x => Py.isspace x = true) post ->
  Py.isspace c = false -> Py.isspace d = false ->
  Py.strip (pre ++ (c :: m ++ [d]) ++ post) = c :: m ++ [d].
Proof.
  intros Hpre Hpost Hc Hd. unfold Py.strip.
  rewrite (lstrip_spaces pre _ Hpre). cbn [app].
  rewrite (lstrip_head c _ Hc).
  change (c :: (m ++ [d]) ++ post) with ((c :: m ++ [d]) ++ post).
  rewrite rev_app_distr, lstrip_spaces by (apply Forall_rev; exact Hpost).
  change (c :: m ++ [d]) with ((c :: m) ++ [d]).
  rewrite rev_app_distr. cbn [rev app].
  rewrite (lstrip_head d _ Hd).
  change (d :: rev m ++ [c]) with ([d] ++ rev (c :: m)).
  rewrite rev_app_distr, rev_involutive. reflexivity.
Qed.

Lemma split_nonempty sep s : PyMore.split sep s <> [].
Proof.
  destruct s as [|c r]; cbn [PyMore.split]; [discriminate|].
  destruct (c =? sep); [discriminate|].
  destruct (PyMore.split sep r); discriminate.
Qed.

Lemma split_no_sep sep s : ~ In sep s -> PyMore.split sep s = [s].
Proof.
  induction s as [|c r IH]; intros Hn; cbn [PyMore.split]; [reflexivity|].
  destruct (Z.eqb_spec c sep) as [->|Hne];
    [exfalso; apply Hn; left; reflexivity|].
  rewrite IH; [reflexivity|]. intros K. apply Hn. right. exact K.
Qed.

Lemma split_app sep x z :
  PyMore.split sep (x ++ sep :: z) = PyMore.split sep x ++ PyMore.split sep z.
Proof.
  induction x as [|c x IH]; cbn [app PyMore.split].
  - rewrite Z.eqb_refl. reflexivity.
  - destruct (c =? sep).
    + rewrite IH. reflexivity.
    + rewrite IH.
      destruct (PyMore.split sep x) as [|p ps] eqn:E;
        [exfalso; exact (split_nonempty sep x E)|].
      reflexivity.
Qed.

Lemma join_cons_char sep c p ps :
  Py.join sep ((c :: p) :: ps) = c :: Py.join sep (p :: ps).
Proof. destruct ps; reflexivity. Qed.

(** [sep.join(s.split(sep)) == s]. *)
Lemma join_split sep s : Py.join [sep] (PyMore.split sep s) = s.
Proof.
  induction s as [|c r IH]; cbn [PyMore.split]; [reflexivity|].
  destruct (Z.eqb_spec c sep) as [->|Hne].
  - destruct (PyMore.split sep r) as [|p ps] eqn:E;
      [exfalso; exact (split_nonempty sep r E)|].
    change (Py.join [sep] ([] :: p :: ps))
      with ([] ++ [sep] ++ Py.join [sep] (p :: ps)).
    rewrite ?E in IH. cbn [app]. f_equal. exact IH.
  - destruct (PyMore.split sep r) as [|p ps] eqn:E;
      [exfalso; exact (split_nonempty sep r E)|].
    rewrite ?E in IH. rewrite join_cons_char. f_equal. exact IH.
Qed.

Lemma startswith_app p s : PyMore.startswith (p ++ s) p = true.
Proof.
  induction p as [|c p IH]; cbn [app PyMore.startswith].
  - destruct s; reflexivity.
  - rewrite Z.eqb_refl, IH. reflexivity.
Qed.

End FenceFacts.

Section ParseProperties.

Variable json_loads : pystr -> result jvalue.
Variable repr : jvalue -> pystr.

(** X17. A response that is a code fence around a body gives
    [json.loads] the body, whatever the language tag on the opening line
    and whatever white space surrounds the response, provided the tag has
    no newline and the body does not begin with [json]: the result of
    [_parse_flashcards] is then that of parsing the body. *)
Theorem parse_flashcards_unwraps_fence pre post tag body :
  Forall (fun c => Py.isspace c = true) pre ->
  Forall (fun c => Py.isspace c = true) post ->
  ~ In 10 tag ->
  PyMore.startswith body (Py.lit "json") = false ->
  fenced_text (pre ++ Py.lit "```" ++ tag ++ [10] ++ body ++ [10]
               ++ Py.lit "```" ++ post)
  = body
  /\ _parse_flashcards json_loads repr
       (pre ++ Py.lit "```" ++ tag ++ [10] ++ body ++ [10]
        ++ Py.lit "```" ++ post)
     = match json_loads body with
       | Raised JSONDecodeError => Raised ValueError
       | Raised e => Raised e
       | Return (JList flashcards) =>
           Return (validated_cards repr flashcards)
       | Return _ => Raised ValueError
       end.
Proof.
  intros Hpre Hpost Htag Hbody.
  assert (E : fenced_text (pre ++ Py.lit "```" ++ tag ++ [10] ++ body ++ [10]
                           ++ Py.lit "```" ++ post) = body).
  { unfold fenced_text. change (Py.lit "```") with [96; 96; 96].
    assert (E1 : pre ++ [96; 96; 96] ++ tag ++ [10] ++ body ++ [10]
                 ++ [96; 96; 96] ++ post
                 = pre ++ (96 :: ([96; 96] ++ tag ++ [10] ++ body ++ [10]
                                  ++ [96; 96]) ++ [96]) ++ post).
    { f_equal.
      repeat (rewrite <- app_assoc || rewrite <- app_comm_cons).
      reflexivity. }
    rewrite E1.
    rewrite (strip_core pre post 96 _ 96 Hpre Hpost eq_refl eq_refl).
    assert (E2 : 96 :: ([96; 96] ++ tag ++ [10] ++ body ++ [10] ++ [96; 96])
                 ++ [96]
                 = [96; 96; 96] ++ (tag ++ 10 :: (body ++ 10 :: [96; 96; 96]))).
    { repeat (rewrite <- app_assoc || rewrite <- app_comm_cons).
      reflexivity. }
    rewrite E2, startswith_app.
    assert (E3 : [96; 96; 96] ++ tag ++ 10 :: body ++ 10 :: [96; 96; 96]
                 = ([96; 96; 96] ++ tag) ++ 10 :: (body ++ 10 :: [96; 96; 96]))
      by (rewrite <- app_assoc; reflexivity).
    rewrite E3, split_app, (split_app 10 body).
    rewrite (split_no_sep 10 ([96; 96; 96] ++ tag)).
    2:{ intros K. apply in_app_or in K. destruct K as [K|K]; [|exact (Htag K)].
        cbn in K. lia. }
    rewrite (split_no_sep 10 [96; 96; 96]) by (cbn; lia).
    unfold PyMore.inner. cbn [app tl].
    rewrite removelast_last, join_split, Hbody. reflexivity. }
  split; [exact E|]. unfold _parse_flashcards. rewrite E. reflexivity.
Qed.

(** X18. A response that opens with a fence and has fewer than three
    lines gives [json.loads] the empty text, whatever the lines hold: a
    fence and its content on one line, or an opening fence followed by
    content with no closing line, lose the content. When [json.loads]
    rejects the empty text, [_parse_flashcards] raises [ValueError]. *)
Theorem parse_flashcards_short_fence text first last :
  PyMore.startswith (Py.strip text) (Py.lit "```") = true ->
  ~ In 10 first -> ~ In 10 last ->
  (Py.strip text = first \/ Py.strip text = first ++ [10] ++ last) ->
  json_loads [] = Raised JSONDecodeError ->
  fenced_text text = []
  /\ _parse_flashcards json_loads repr text = Raised ValueError.
Proof.
  intros Hs Hf Hl Hshape Hj.
  assert (E : fenced_text text = []).
  { unfold fenced_text. rewrite Hs.
    destruct Hshape as [-> | ->].
    - rewrite (split_no_sep 10 first Hf). reflexivity.
    - cbn [app]. rewrite split_app, (split_no_sep 10 first Hf),
        (split_no_sep 10 last Hl). reflexivity. }
  split; [exact E|]. unfold _parse_flashcards. rewrite E, Hj. reflexivity.
Qed.




End ParseProperties.

(* ================================================================== *)
(** * Properties of the tool handlers *)
(* ================================================================== *)

Section GroupingProperties.

Lemma filter_snoc {A} (f : A -> bool) l x :
  filter f (l ++ [x]) = filter f l ++ (if f x then [x] else []).
Proof. rewrite filter_app. reflexivity. Qed.

Lemma group_append_keys card groups :
  NoDup (map fst groups) ->
  NoDup (map fst (group_append card groups))
  /\ In (ad_deck card) (map fst (group_append card groups))
  /\ incl (map fst groups) (map fst (group_append card groups)).
Proof.
  induction groups as [|[d cs] rest IH]; intros Hnd; cbn [group_append map fst].
  - split; [repeat constructor; intros []|].
    split; [left; reflexivity | intros x []].
  - inversion Hnd as [|? ? Hd Hrest]; subst.
    destruct (Py.str_eqb d (ad_deck card)) eqn:E; cbn [map fst].
    + apply str_eqb_eq in E.
      split; [assumption|]. split; [left; assumption | apply incl_refl].
    + destruct (IH Hrest) as (I1 & I2 & I3). apply str_eqb_neq in E.
      split; [|split].
      * constructor; [|assumption]. intros K.
        assert (G : forall gs, In d (map fst (group_append card gs)) ->
                               d = ad_deck card \/ In d (map fst gs)).
        { clear. induction gs as [|[d' cs'] gs IHg];
            cbn [group_append map fst].
          - intros [H|[]]; left; congruence.
          - destruct (Py.str_eqb d' (ad_deck card)); cbn [map fst].
            + intros H. right. exact H.
            + intros [H|H]; [right; left; exact H|].
              destruct (IHg H) as [H'|H']; [left | right; right]; assumption. }
        destruct (G rest K) as [H|H]; [exact (E H) | exact (Hd H)].
      * right. assumption.
      * intros x [<-|Hx]; [left; reflexivity | right; apply I3; exact Hx].
Qed.

Lemma group_append_filter card l groups :
  NoDup (map fst groups) ->
  Forall (fun g => snd g = filter (fun c => Py.str_eqb (fst g) (ad_deck c)) l
                   /\ snd g <> [])
         groups ->
  (In (ad_deck card) (map fst groups)
   \/ filter (fun c => Py.str_eqb (ad_deck card) (ad_deck c)) l = []) ->
  Forall (fun g => snd g
                   = filter (fun c => Py.str_eqb (fst g) (ad_deck c))
                            (l ++ [card])
                   /\ snd g <> [])
         (group_append card groups).
Proof.
  induction groups as [|[d cs] rest IH]; intros Hnd Hall Hkey;
    cbn [group_append].
  - constructor; [|constructor]. cbn [fst snd].
    destruct Hkey as [[]|Hk].
    rewrite filter_snoc, Hk, str_eqb_refl. split; [reflexivity | discriminate].
  - inversion Hnd as [|? ? Hd Hrest]; subst.
    inversion Hall as [|? ? [Hcs Hne] Hall']; subst. cbn [fst snd] in *.
    destruct (Py.str_eqb d (ad_deck card)) eqn:E.
    + constructor.
      * cbn [fst snd]. rewrite filter_snoc, E, <- Hcs.
        split; [reflexivity|]. intros K. apply app_eq_nil in K.
        destruct K; discriminate.
      * apply str_eqb_eq in E.
        rewrite Forall_forall in Hall'. apply Forall_forall.
        intros g Hg. destruct (Hall' g Hg) as [Hs Hn]. split; [|assumption].
        rewrite filter_snoc.
        assert (F : Py.str_eqb (fst g) (ad_deck card) = false).
        { apply str_eqb_neq. intros K. apply Hd. rewrite E, <- K.
          apply in_map. assumption. }
        rewrite F, app_nil_r. assumption.
    + constructor.
      * cbn [fst snd]. rewrite filter_snoc, E, app_nil_r. auto.
      * apply IH; [assumption | assumption |].
        destruct Hkey as [[K|K]|K]; [|left; assumption | right; assumption].
        apply str_eqb_neq in E. cbn [fst] in K. congruence.
Qed.

(** The groups after the cards of [l] have been taken in. *)
Lemma cards_by_deck_inv l :
  forall groups seen,
    NoDup (map fst groups) ->
    Forall (fun g => snd g
                     = filter (fun c => Py.str_eqb (fst g) (ad_deck c)) seen
                     /\ snd g <> [])
           groups ->
    (forall c, In c seen -> In (ad_deck c) (map fst groups)) ->
    let groups' := fold_left (fun gs c => group_append c gs) l groups in
    NoDup (map fst groups')
    /\ Forall (fun g => snd g
                        = filter (fun c => Py.str_eqb (fst g) (ad_deck c))
                                 (seen ++ l)
                        /\ snd g <> [])
              groups'
    /\ (forall c, In c (seen ++ l) -> In (ad_deck c) (map fst groups')).
Proof.
  induction l as [|card l IH]; intros groups seen Hnd Hall Hkeys;
    cbn [fold_left].
  - cbv zeta. rewrite app_nil_r. auto.
  - cbv zeta.
    destruct (group_append_keys card groups Hnd) as (K1 & K2 & K3).
    assert (Hkey : In (ad_deck card) (map fst groups)
                   \/ filter (fun c => Py.str_eqb (ad_deck card) (ad_deck c))
                             seen = []).
    { destruct (in_dec (list_eq_dec Z.eq_dec) (ad_deck card) (map fst groups))
        as [Hin|Hout]; [left; assumption | right].
      destruct (filter _ seen) as [|c cs] eqn:E; [reflexivity|].
      exfalso. apply Hout.
      assert (Hc : In c (filter (fun c0 => Py.str_eqb (ad_deck card) (ad_deck c0))
                                seen)) by (rewrite E; left; reflexivity).
      apply filter_In in Hc. destruct Hc as [Hc Hd].
      apply str_eqb_eq in Hd. rewrite Hd. apply Hkeys. assumption. }
    pose proof (group_append_filter card seen groups Hnd Hall Hkey) as Hall'.
    specialize (IH (group_append card groups) (seen ++ [card]) K1 Hall').
    rewrite <- app_assoc in IH. cbn [app] in IH. apply IH.
    intros c Hc. apply in_app_or in Hc. destruct Hc as [Hc|[<-|[]]].
    + apply K3, Hkeys. assumption.
    + assumption.
Qed.

(** X20. The grouping of the added cards by deck: the decks listed are
    pairwise distinct; under each deck stand exactly the added cards of
    that deck, in the order they were added, and there is at least one;
    every added card has its deck listed. So every added card is listed
    once, under its own deck. *)
Theorem cards_by_deck_groups added :
  NoDup (map fst (cards_by_deck added))
  /\ Forall (fun g => snd g
                      = filter (fun c => Py.str_eqb (fst g) (ad_deck c)) added
                      /\ snd g <> [])
            (cards_by_deck added)
  /\ (forall c, In c added ->
                exists cs, In (ad_deck c, cs) (cards_by_deck added)
                           /\ In c cs).
Proof.
  destruct (cards_by_deck_inv added [] [])
    as (H1 & H2 & H3); [constructor | constructor | intros c [] |].
  cbn [app] in *. fold (cards_by_deck added) in *.
  split; [exact H1|]. split; [exact H2|].
  intros c Hc. specialize (H3 c Hc).
  apply in_map_iff in H3. destruct H3 as ([d cs] & Hd & Hg).
  cbn [fst] in Hd. subst d. exists cs. split; [assumption|].
  rewrite Forall_forall in H2. destruct (H2 _ Hg) as [Hs _].
  cbn [fst snd] in Hs. rewrite Hs. apply filter_In.
  split; [assumption | apply str_eqb_refl].
Qed.

End GroupingProperties.

Section HandlerProperties.

Variable time_ms : nat -> Z.
Variable randint_0_999 : nat -> Z.
Variable generate_flashcards :
  pystr -> list pystr -> pystr -> Z -> result (list note_dict).

Lemma add_card_eq card w :
  add_card time_ms randint_0_999 card w =
  match card_args card with
  | Raised e => Raise e w
  | Return (front, back, dn, tags) =>
      match add_note time_ms randint_0_999 front back dn tags w with
      | Ok id w1 => Ok (AddedCard id dn (front_preview front)) w1
      | Raise e w1 => Raise e w1
      end
  end.
Proof.
  unfold add_card, bind at 1, lift.
  destruct (card_args card) as [[[[front back] dn] tags]|e]; [|reflexivity].
  unfold bind, ret.
  destruct (add_note time_ms randint_0_999 front back dn tags w); reflexivity.
Qed.

Lemma add_cards_acc acc cards w :
  exists added w',
    add_cards time_ms randint_0_999 [] cards w = Ok added w'
    /\ add_cards time_ms randint_0_999 acc cards w = Ok (acc ++ added) w'.
Proof.
  revert acc w; induction cards as [|card rest IH]; intros acc w;
    cbn [add_cards].
  - exists [], w. rewrite app_nil_r. split; reflexivity.
  - destruct (add_card time_ms randint_0_999 card w) as [a w1|e w1].
    + destruct (IH (acc ++ [a]) w1) as (added & w' & H0 & H1).
      destruct (IH ([] ++ [a]) w1) as (added' & w'' & H0' & H1').
      rewrite H0 in H0'. inversion H0'; subst added' w''.
      exists (a :: added), w'. split; [exact H1'|].
      rewrite H1, <- app_assoc. reflexivity.
    + exact (IH acc w1).
Qed.

(** Table [notes] after one [add_note], whatever its outcome. *)
Lemma add_note_notes front back dn tags w db :
  disk w = Tables db ->
  match add_note time_ms randint_0_999 front back dn tags w with
  | Ok id w1 =>
      exists db1 n, disk w1 = Tables db1 /\ notes db1 = notes db ++ [n]
                    /\ note_id n = id
  | Raise _ w1 => exists db1, disk w1 = Tables db1 /\ notes db1 = notes db
  end.
Proof.
  intros Hdb.
  destruct (create_deck_keeps_tables time_ms dn w db Hdb)
    as (db0 & Hdb0 & Hn0 & _).
  destruct (add_note time_ms randint_0_999 front back dn tags w)
    as [id w1|e w1] eqn:H.
  - destruct (add_note_Ok_keys _ _ _ _ _ _ _ _ _ H)
      as (resolved & w0 & db0' & db1 & n & c & Hc & Hd0 & Hd1 & Hn & _
          & Hid & _).
    rewrite Hc in Hdb0. cbn [world_of] in Hdb0. rewrite Hd0 in Hdb0.
    inversion Hdb0; subst db0'.
    exists db1, n. rewrite Hn, Hn0. auto.
  - destruct (add_note_Raise _ _ _ _ _ _ _ _ _ H) as [Hr|(d' & w0 & Hc & Hd)].
    + rewrite Hr in Hdb0. cbn [world_of] in Hdb0. exists db0. auto.
    + rewrite Hc in Hdb0. cbn [world_of] in Hdb0.
      exists db0. split; [congruence | assumption].
Qed.

Lemma get_decks_returns w :
  exists names, get_decks w = Ok names (connected w).
Proof.
  unfold get_decks. rewrite get_decks_try_eq.
  destruct w as [[| | |db] c r]; unfold connected;
    cbn [disk clock_reads rand_draws]; try (eexists; reflexivity).
  destruct (find _ (col db)) as [row|]; [|eexists; reflexivity].
  destruct (decks row) as [| |items]; try (eexists; reflexivity).
  destruct (deck_names items); eexists; reflexivity.
Qed.

(** X21. The loop of [_handle_generate_flashcards] that adds the cards
    never raises and goes through all of them: table [notes] gains
    exactly one note for each card reported as added, in that order, and
    keeps what it had; a card that cannot be added costs nothing but
    itself. *)
Theorem add_cards_best_effort cards w db :
  disk w = Tables db ->
  exists added w' db' new,
    add_cards time_ms randint_0_999 [] cards w = Ok added w'
    /\ disk w' = Tables db'
    /\ notes db' = notes db ++ new
    /\ map note_id new = map ad_id added
    /\ (List.length added <= List.length cards)%nat.
Proof.
  revert w db; induction cards as [|card rest IH]; intros w db Hdb.
  - exists [], w, db, []. rewrite app_nil_r. repeat split; auto.
  - cbn [add_cards]. rewrite add_card_eq.
    destruct (card_args card) as [[[[front back] dn] tags]|e].
    + pose proof (add_note_notes front back dn tags w db Hdb) as Hn.
      destruct (add_note time_ms randint_0_999 front back dn tags w)
        as [id w1|e w1].
      * destruct Hn as (db1 & n & Hdb1 & Hn1 & Hid).
        destruct (IH w1 db1 Hdb1) as (added & w' & db' & new & H & Hd & Hn' & Hm & Hl).
        destruct (add_cards_acc
                    ([] ++ [AddedCard id dn (front_preview front)]) rest w1)
          as (added' & w'' & H0 & H1).
        rewrite H in H0. inversion H0; subst added' w''.
        exists (AddedCard id dn (front_preview front) :: added), w', db',
          (n :: new).
        split; [exact H1|]. split; [assumption|].
        split; [rewrite Hn', Hn1, <- app_assoc; reflexivity|].
        split; [cbn [map ad_id]; rewrite Hid, Hm; reflexivity|].
        cbn [List.length]. lia.
      * destruct Hn as (db1 & Hdb1 & Hn1).
        destruct (IH w1 db1 Hdb1) as (added & w' & db' & new & H & Hd & Hn' & Hm & Hl).
        exists added, w', db', new. rewrite <- Hn1.
        repeat split; try assumption. cbn [List.length]. lia.
    + destruct (IH w db Hdb) as (added & w' & db' & new & H & Hd & Hn' & Hm & Hl).
      exists added, w', db', new.
      repeat split; try assumption. cbn [List.length]. lia.
Qed.


(** X23. What [_handle_generate_flashcards] does before it adds a card.
    Without content, or with empty content, it raises [ValueError] and
    the world is untouched. Otherwise it lists the decks and calls the
    generator with them; when the generator raises, so does the handler;
    when it returns no card, the handler answers a fixed text; in both
    cases the file is as [get_decks] leaves it. When the generator
    returns cards, the handler returns the report of the loop. *)
Theorem handle_generate_guards arguments w :
  ((arg_content arguments = None \/ arg_content arguments = Some []) ->
   _handle_generate_flashcards time_ms randint_0_999 generate_flashcards
                               arguments w
   = Raise ValueError w)
  /\ (forall content,
         arg_content arguments = Some content -> content <> [] ->
         exists decks,
           get_decks w = Ok decks (connected w)
           /\ let generated :=
                generate_flashcards content decks
                  (match arg_context arguments with
                   | None => []
                   | Some c => c
                   end)
                  (match arg_max_cards arguments with
                   | None => 10
                   | Some n => n
                   end) in
              (forall e,
                  generated = Raised e ->
                  _handle_generate_flashcards
                    time_ms randint_0_999 generate_flashcards arguments w
                  = Raise e (connected w))
              /\ (generated = Return [] ->
                  _handle_generate_flashcards
                    time_ms randint_0_999 generate_flashcards arguments w
                  = Ok (Py.lit "No flashcard-worthy content found in the provided text.")
                       (connected w))
              /\ (forall card cards,
                     generated = Return (card :: cards) ->
                     exists added w',
                       add_cards time_ms randint_0_999 [] (card :: cards)
                                 (connected w) = Ok added w'
                       /\ _handle_generate_flashcards
                            time_ms randint_0_999 generate_flashcards
                            arguments w
                          = Ok (response_text added) w')).
Proof.
  split.
  - intros [H|H]; unfold _handle_generate_flashcards; rewrite H; reflexivity.
  - intros content Hc Hne.
    destruct (get_decks_returns w) as (decks & Hd).
    exists decks. split; [exact Hd|].
    assert (Eq :
      _handle_generate_flashcards time_ms randint_0_999 generate_flashcards
                                  arguments w
      = match generate_flashcards content decks
                (match arg_context arguments with
                 | None => []
                 | Some c => c
                 end)
                (match arg_max_cards arguments with
                 | None => 10
                 | Some n => n
                 end) with
        | Raised e => Raise e (connected w)
        | Return [] =>
            Ok (Py.lit "No flashcard-worthy content found in the provided text.")
               (connected w)
        | Return (card :: cards) =>
            match add_cards time_ms randint_0_999 [] (card :: cards)
                            (connected w) with
            | Ok added w' => Ok (response_text added) w'
            | Raise e w' => Raise e w'
            end
        end).
    { unfold _handle_generate_flashcards. rewrite Hc. cbv zeta.
      destruct content as [|c0 content]; [congruence|].
      unfold bind at 1. rewrite Hd. unfold bind at 1. unfold lift.
      destruct (generate_flashcards _ _ _ _) as [[|card cards]|e];
        reflexivity. }
    cbv zeta. split; [|split].
    + intros e He. rewrite Eq, He. reflexivity.
    + intros He. rewrite Eq, He. reflexivity.
    + intros card cards He. rewrite Eq, He.
      destruct (add_cards_acc [] (card :: cards) (connected w))
        as (added & w' & H0 & _).
      exists added, w'. split; [exact H0|]. rewrite H0. reflexivity.
Qed.

(** X24. [_handle_create_deck] refuses a missing or empty name with
    [ValueError] before it touches the file. On a well-formed document it
    answers every other name with the id [create_deck] returns, and asking
    again gives the same answer and changes nothing more; what
    [create_deck] raises, the handler raises. The guard is the handler's
    alone: on a well-formed document [create_deck] itself takes the empty
    name and returns an id for it. *)
Theorem handle_create_deck_guard w :
  _handle_create_deck time_ms None w = Raise ValueError w
  /\ _handle_create_deck time_ms (Some []) w = Raise ValueError w
  /\ (forall name items,
         name <> [] ->
         deck_document w = Some items -> decks_ok items ->
         exists id w1,
           create_deck time_ms name w = Ok id w1
           /\ _handle_create_deck time_ms (Some name) w
              = Ok ([9989] ++ Py.lit " Created deck '" ++ name
                    ++ Py.lit "' (ID: " ++ Py.str id ++ Py.lit ")") w1
           /\ _handle_create_deck time_ms (Some name) w1
              = Ok ([9989] ++ Py.lit " Created deck '" ++ name
                    ++ Py.lit "' (ID: " ++ Py.str id ++ Py.lit ")") w1)
  /\ (forall name e w1,
         name <> [] ->
         create_deck time_ms name w = Raise e w1 ->
         _handle_create_deck time_ms (Some name) w = Raise e w1)
  /\ (forall items,
         deck_document w = Some items -> decks_ok items ->
         exists id w1, create_deck time_ms [] w = Ok id w1).
Proof.
  assert (Eq : forall c name w0,
             _handle_create_deck time_ms (Some (c :: name)) w0
             = match create_deck time_ms (c :: name) w0 with
               | Ok id w1 =>
                   Ok ([9989] ++ Py.lit " Created deck '" ++ (c :: name)
                       ++ Py.lit "' (ID: " ++ Py.str id ++ Py.lit ")") w1
               | Raise e w1 => Raise e w1
               end).
  { intros c name w0. unfold _handle_create_deck, bind, ret.
    destruct (create_deck time_ms (c :: name) w0); reflexivity. }
  split; [reflexivity|]. split; [reflexivity|]. split; [|split].
  - intros [|c name] items Hne Hdoc Hok; [congruence|].
    destruct (create_deck_total time_ms (c :: name) w items Hdoc Hok)
      as (id & w1 & H).
    exists id, w1. split; [exact H|].
    rewrite !Eq, H, (create_deck_again _ _ _ _ _ H). split; reflexivity.
  - intros [|c name] e w1 Hne H; [congruence|]. rewrite Eq, H. reflexivity.
  - intros items Hdoc Hok.
    exact (create_deck_total time_ms [] w items Hdoc Hok).
Qed.

End HandlerProperties.

(* ================================================================== *)
(** * The further properties on the sample data *)
(* ================================================================== *)

Section FurtherWitnesses.

Let run_deck :
  create_deck Demo.clock Demo.math Demo.fresh = Ok 2 Demo.with_math.
Proof. vm_compute. reflexivity. Defined.

Let run_question :
  add_note Demo.clock Demo.dice Demo.question Demo.answer Demo.math
           Demo.arithmetic Demo.fresh
  = Ok 1700000000009 Demo.with_note.
Proof. vm_compute. reflexivity. Defined.


Let fresh_tables : disk Demo.fresh = Tables Sample.fresh_db.
Proof. vm_compute. reflexivity. Defined.

Let math_tables : disk Demo.with_math = Tables Sample.math_db.
Proof. vm_compute. reflexivity. Defined.

Let fresh_ids : NoDup (deck_ids Demo.fresh_decks).
Proof. repeat constructor. intros []. Defined.

Let question_encodable : encodable Demo.question.
Proof. eexists. vm_compute. reflexivity. Defined.

Let answer_encodable : encodable Demo.answer.
Proof. eexists. vm_compute. reflexivity. Defined.

Let tags_encodable : encodable (tags_str Demo.arithmetic).
Proof. eexists. vm_compute. reflexivity. Defined.

Let surrogate_unencodable : ~ encodable Sample.surrogate.
Proof. intros [bs K]. vm_compute in K. discriminate K. Defined.


Lemma init_creates_default_witness :
  disk (World Missing 0 0) = Missing
  /\ exists w1,
      init Demo.clock (World Missing 0 0) = Ok tt w1
      /\ get_decks w1 = Ok [Py.lit "Default"] w1.
Proof.
  split; [reflexivity|].
  destruct (init_creates_default Demo.clock (World Missing 0 0) eq_refl)
    as (w1 & db & r & H1 & _ & _ & _ & _ & _ & _ & _ & _ & _ & H).
  exists w1. split; assumption.
Defined.

Lemma create_deck_keeps_document_witness :
  deck_document Demo.fresh = Some Demo.fresh_decks
  /\ decks_ok Demo.fresh_decks
  /\ NoDup (deck_ids Demo.fresh_decks)
  /\ create_deck Demo.clock Demo.math Demo.fresh = Ok 2 Demo.with_math
  /\ exists rest,
      deck_document Demo.with_math = Some (Demo.fresh_decks ++ rest)
      /\ NoDup (deck_ids (Demo.fresh_decks ++ rest))
      /\ In 2 (deck_ids (Demo.fresh_decks ++ rest)).
Proof.
  split; [reflexivity|]. split; [exact fresh_decks_ok|].
  split; [exact fresh_ids|]. split; [exact run_deck|].
  destruct (create_deck_keeps_document Demo.clock Demo.math Demo.fresh
              Demo.fresh_decks 2 Demo.with_math eq_refl fresh_decks_ok
              fresh_ids run_deck)
    as (rest & H1 & _ & H3 & H4 & _).
  exists rest. repeat split; assumption.
Defined.

Lemma create_deck_raise_writes_nothing_witness :
  create_deck Demo.clock (Py.lit "Broken") Demo.odd_key
  = Raise ValueError Demo.odd_key
  /\ Demo.odd_key = connected Demo.odd_key.
Proof.
  assert (H : create_deck Demo.clock (Py.lit "Broken") Demo.odd_key
              = Raise ValueError Demo.odd_key)
    by (vm_compute; reflexivity).
  split; [exact H|].
  destruct (create_deck_raise_writes_nothing Demo.clock (Py.lit "Broken")
              Demo.odd_key ValueError Demo.odd_key H)
    as (H1 & _).
  exact H1.
Defined.


Lemma create_deck_keeps_tables_witness :
  disk Demo.fresh = Tables Sample.fresh_db
  /\ exists db1,
      disk (world_of (create_deck Demo.clock Demo.math Demo.fresh))
      = Tables db1
      /\ notes db1 = notes Sample.fresh_db
      /\ cards db1 = cards Sample.fresh_db.
Proof.
  split; [exact fresh_tables|].
  destruct (create_deck_keeps_tables Demo.clock Demo.math Demo.fresh
              Sample.fresh_db fresh_tables)
    as (db1 & H1 & H2 & H3 & _).
  exists db1. repeat split; assumption.
Defined.

Lemma create_deck_then_get_decks_witness :
  deck_document Demo.fresh = Some Demo.fresh_decks
  /\ decks_ok Demo.fresh_decks
  /\ create_deck Demo.clock Demo.math Demo.fresh = Ok 2 Demo.with_math
  /\ exists names,
      get_decks Demo.with_math = Ok names Demo.with_math
      /\ In Demo.math names
      /\ Sorted lex_le names.
Proof.
  split; [reflexivity|]. split; [exact fresh_decks_ok|].
  split; [exact run_deck|].
  destruct (create_deck_then_get_decks Demo.clock Demo.math Demo.fresh
              Demo.fresh_decks 2 Demo.with_math eq_refl fresh_decks_ok
              run_deck)
    as (names & H1 & H2 & _ & H4).
  exists names. repeat split; assumption.
Defined.

Lemma add_note_returns_iff_keys_new_witness :
  create_deck Demo.clock Demo.math Demo.fresh = Ok 2 Demo.with_math
  /\ disk Demo.with_math = Tables Sample.math_db
  /\ encodable Demo.question /\ encodable Demo.answer
  /\ encodable (tags_str Demo.arithmetic)
  /\ exists w2,
      add_note Demo.clock Demo.dice Demo.question Demo.answer Demo.math
               Demo.arithmetic Demo.fresh
      = Ok (Demo.clock (clock_reads Demo.with_math)
            + Demo.dice (rand_draws Demo.with_math)) w2.
Proof.
  split; [exact run_deck|]. split; [exact math_tables|].
  split; [exact question_encodable|]. split; [exact answer_encodable|].
  split; [exact tags_encodable|].
  destruct (add_note_returns_iff_keys_new Demo.clock Demo.dice Demo.question
              Demo.answer Demo.math Demo.arithmetic Demo.fresh 2
              Demo.with_math Sample.math_db run_deck math_tables
              question_encodable answer_encodable tags_encodable)
    as (g & _ & H & _).
  apply H. split; [|split]; intros K; exact K.
Defined.

Lemma keys_stay_unique_witness :
  disk Demo.fresh = Tables Sample.fresh_db
  /\ keys_unique Sample.fresh_db
  /\ exists db2,
      disk (world_of (add_note Demo.clock Demo.dice Demo.question
                               Demo.answer Demo.math Demo.arithmetic
                               Demo.fresh))
      = Tables db2
      /\ keys_unique db2.
Proof.
  assert (H : keys_unique Sample.fresh_db).
  { split; [|split]; apply NoDup_nil. }
  split; [exact fresh_tables|]. split; [exact H|].
  apply (proj1 (keys_stay_unique Demo.clock Demo.dice Demo.fresh
                  Sample.fresh_db fresh_tables H)).
Defined.

Lemma references_stay_sound_witness :
  cards_linked Demo.fresh
  /\ cards_linked
       (world_of (add_notes_batch Demo.clock Demo.dice Sample.one_card
                                  Demo.fresh)).
Proof.
  assert (H : cards_linked Demo.fresh).
  { exists Sample.fresh_db, Demo.fresh_decks.
    split; [exact fresh_tables|]. split; [reflexivity|]. apply Forall_nil. }
  split; [exact H|].
  apply (proj2 (proj2 (references_stay_sound Demo.clock Demo.dice Demo.fresh
                         H))).
Defined.

Lemma add_note_unencodable_witness :
  create_deck Demo.clock Demo.math Demo.fresh = Ok 2 Demo.with_math
  /\ ~ encodable Sample.surrogate
  /\ exists w2,
      add_note Demo.clock Demo.dice Sample.surrogate Demo.answer Demo.math
               Demo.arithmetic Demo.fresh
      = Raise UnicodeEncodeError w2
      /\ disk w2 = disk Demo.with_math.
Proof.
  split; [exact run_deck|]. split; [exact surrogate_unencodable|].
  apply (add_note_unencodable Demo.clock Demo.dice Sample.surrogate
           Demo.answer Demo.math Demo.arithmetic Demo.fresh 2
           Demo.with_math run_deck (or_introl surrogate_unencodable)).
Defined.

Lemma add_note_guid_witness :
  add_note Demo.clock Demo.dice Demo.question Demo.answer Demo.math
           Demo.arithmetic Demo.fresh
  = Ok 1700000000009 Demo.with_note
  /\ exists db2 n,
      disk Demo.with_note = Tables db2 /\ In n (notes db2)
      /\ note_id n = 1700000000009
      /\ List.length (guid n) = 8%nat
      /\ Forall is_hex_char (guid n).
Proof.
  split; [exact run_question|].
  destruct (add_note_guid Demo.clock Demo.dice Demo.question Demo.answer
              Demo.math Demo.arithmetic Demo.fresh 1700000000009
              Demo.with_note run_question)
    as (db2 & n & c & bs & H1 & H2 & _ & H4 & _ & _ & _ & H8 & H9 & _).
  exists db2, n. repeat split; assumption.
Defined.

Lemma get_primary_user_cuts_at_colon_witness :
  SYNC_USER1 Sample.settings = Py.lit "bob" ++ [58] ++ Py.lit "pa:ss"
  /\ ~ In 58 (Py.lit "bob")
  /\ get_primary_user Sample.settings
     = Return (Py.lit "bob", Py.lit "pa:ss").
Proof.
  assert (H : ~ In 58 (Py.lit "bob")).
  { intros K. vm_compute in K. lia. }
  split; [reflexivity|]. split; [exact H|].
  apply (proj1 (get_primary_user_cuts_at_colon Sample.settings)).
  split; [reflexivity | exact H].
Defined.

Lemma validate_accepts_witness :
  ANTHROPIC_API_KEY Sample.settings <> []
  /\ In 58 (SYNC_USER1 Sample.settings)
  /\ validate Sample.settings = Return tt.
Proof.
  assert (H1 : ANTHROPIC_API_KEY Sample.settings <> []).
  { intros K. vm_compute in K. discriminate K. }
  assert (H2 : In 58 (SYNC_USER1 Sample.settings)).
  { vm_compute. right. right. right. left. reflexivity. }
  split; [exact H1|]. split; [exact H2|].
  apply (proj1 (validate_accepts Sample.settings)).
  split; assumption.
Defined.

Lemma collection_path_of_user_witness :
  SYNC_BASE Sample.settings <> []
  /\ PyMore.endswith (SYNC_BASE Sample.settings) [47] = false
  /\ Py.lit "bob" <> [] /\ ~ In 47 (Py.lit "bob")
  /\ exists path,
      get_user_collection_path Sample.settings (Some (Py.lit "bob"))
      = Return path
      /\ path = SYNC_BASE Sample.settings ++ [47] ++ Py.lit "bob" ++ [47]
                ++ Py.lit "collection.anki2".
Proof.
  assert (H1 : SYNC_BASE Sample.settings <> []).
  { intros K. vm_compute in K. discriminate K. }
  assert (H2 : Py.lit "bob" <> []).
  { intros K. vm_compute in K. discriminate K. }
  assert (H3 : ~ In 47 (Py.lit "bob")).
  { intros K. vm_compute in K. lia. }
  split; [exact H1|]. split; [reflexivity|]. split; [exact H2|].
  split; [exact H3|].
  destruct (collection_path_of_user Sample.settings (Py.lit "bob"))
    as (path & P1 & _ & _ & P4 & _).
  exists path. split; [exact P1|].
  apply P4; [exact H1 | reflexivity | exact H2 | exact H3].
Defined.

Lemma parse_flashcards_unwraps_fence_witness :
  Forall (fun c => Py.isspace c = true) [32]
  /\ Forall (fun c => Py.isspace c = true) [10]
  /\ ~ In 10 (Py.lit "json")
  /\ PyMore.startswith Sample.two_elements (Py.lit "json") = false
  /\ fenced_text Sample.fenced = Sample.two_elements
  /\ exists cards,
      _parse_flashcards Sample.loads Sample.repr Sample.fenced
      = Return cards.
Proof.
  assert (H1 : Forall (fun c => Py.isspace c = true) [32])
    by (repeat constructor).
  assert (H2 : Forall (fun c => Py.isspace c = true) [10])
    by (repeat constructor).
  assert (H3 : ~ In 10 (Py.lit "json")).
  { intros K. vm_compute in K. lia. }
  assert (H4 : PyMore.startswith Sample.two_elements (Py.lit "json") = false)
    by reflexivity.
  split; [exact H1|]. split; [exact H2|]. split; [exact H3|].
  split; [exact H4|].
  destruct (parse_flashcards_unwraps_fence Sample.loads Sample.repr
              [32] [10] (Py.lit "json") Sample.two_elements H1 H2 H3 H4)
    as [P1 P2].
  split; [exact P1|].
  eexists. etransitivity; [exact P2|]. vm_compute. reflexivity.
Defined.

Lemma parse_flashcards_short_fence_witness :
  PyMore.startswith (Py.strip Sample.one_line) (Py.lit "```") = true
  /\ ~ In 10 Sample.one_line
  /\ Py.strip Sample.one_line = Sample.one_line
  /\ Sample.loads [] = Raised JSONDecodeError
  /\ fenced_text Sample.one_line = []
  /\ _parse_flashcards Sample.loads Sample.repr Sample.one_line
     = Raised ValueError.
Proof.
  assert (H1 : PyMore.startswith (Py.strip Sample.one_line) (Py.lit "```")
               = true) by reflexivity.
  assert (H2 : ~ In 10 Sample.one_line).
  { intros K. vm_compute in K. lia. }
  assert (H3 : Py.strip Sample.one_line = Sample.one_line) by reflexivity.
  assert (H4 : ~ In 10 (@nil Z)) by (intros []).
  split; [exact H1|]. split; [exact H2|]. split; [exact H3|].
  split; [reflexivity|].
  apply (parse_flashcards_short_fence Sample.loads Sample.repr
           Sample.one_line Sample.one_line [] H1 H2 H4 (or_introl H3)
           eq_refl).
Defined.


Lemma cards_by_deck_groups_witness :
  In (AddedCard 3 (Py.lit "A") (Py.lit "z")) Sample.three_added
  /\ exists cs,
      In (Py.lit "A", cs) (cards_by_deck Sample.three_added)
      /\ In (AddedCard 3 (Py.lit "A") (Py.lit "z")) cs.
Proof.
  assert (H : In (AddedCard 3 (Py.lit "A") (Py.lit "z")) Sample.three_added).
  { right. right. left. reflexivity. }
  split; [exact H|].
  apply (proj2 (proj2 (cards_by_deck_groups Sample.three_added)) _ H).
Defined.

Lemma add_cards_best_effort_witness :
  disk Demo.fresh = Tables Sample.fresh_db
  /\ exists added w' db' new,
      add_cards Demo.clock Demo.dice [] Sample.one_card Demo.fresh
      = Ok added w'
      /\ disk w' = Tables db'
      /\ notes db' = notes Sample.fresh_db ++ new
      /\ map note_id new = map ad_id added.
Proof.
  split; [exact fresh_tables|].
  destruct (add_cards_best_effort Demo.clock Demo.dice Sample.one_card
              Demo.fresh Sample.fresh_db fresh_tables)
    as (added & w' & db' & new & H1 & H2 & H3 & H4 & _).
  exists added, w', db', new. repeat split; assumption.
Defined.


Lemma handle_generate_guards_witness :
  arg_content (GenerateArguments (Some []) None None) = Some []
  /\ _handle_generate_flashcards Demo.clock Demo.dice Sample.generator
       (GenerateArguments (Some []) None None) Demo.fresh
     = Raise ValueError Demo.fresh.
Proof.
  split; [reflexivity|].
  apply (proj1 (handle_generate_guards Demo.clock Demo.dice Sample.generator
                  (GenerateArguments (Some []) None None) Demo.fresh)).
  right. reflexivity.
Defined.

Lemma handle_create_deck_guard_witness :
  Demo.math <> []
  /\ deck_document Demo.fresh = Some Demo.fresh_decks
  /\ decks_ok Demo.fresh_decks
  /\ (exists id w1,
         _handle_create_deck Demo.clock (Some Demo.math) Demo.fresh
         = Ok ([9989] ++ Py.lit " Created deck '" ++ Demo.math
               ++ Py.lit "' (ID: " ++ Py.str id ++ Py.lit ")") w1
         /\ _handle_create_deck Demo.clock (Some Demo.math) w1
            = Ok ([9989] ++ Py.lit " Created deck '" ++ Demo.math
                  ++ Py.lit "' (ID: " ++ Py.str id ++ Py.lit ")") w1)
  /\ exists id w1, create_deck Demo.clock [] Demo.fresh = Ok id w1.
Proof.
  assert (H : Demo.math <> []).
  { intros K. vm_compute in K. discriminate K. }
  split; [exact H|]. split; [reflexivity|]. split; [exact fresh_decks_ok|].
  destruct (handle_create_deck_guard Demo.clock Demo.fresh)
    as (_ & _ & H3 & _ & H5).
  split.
  - destruct (H3 Demo.math Demo.fresh_decks H eq_refl fresh_decks_ok)
      as (id & w1 & _ & K1 & K2).
    exists id, w1. split; assumption.
  - exact (H5 Demo.fresh_decks eq_refl fresh_decks_ok).
Defined.

End FurtherWitnesses.
